(** * WSPR-TX-Config: the device protocol layer of [WSPR_TX_Config.py]

    A shallow embedding of the parts of the program that talk to the
    transmitter: the mirror clock [MC], the serial [Model]
    ([readPort]/[sendPort], and the search for ports when it is built),
    and the [Controller] (frequency register, message dispatch, the
    handlers, the resync routine [updateStatus], the callbacks of the
    widgets and one turn of the main loop [drive]), followed by the
    properties proved of them.

    Conventions.
    - Python [int] is [Z]; lengths and indices of strings are [nat];
      a [str] is a [string] of 8-bit characters.
    - A method is a computation in the monad [M S A]: it takes the state
      of the objects it can reach and gives back an outcome (a returned
      value or a raised exception) together with the state it leaves
      behind.  Mutations made before a [raise] persist, as in Python.
    - Attributes that a method writes and reads back before it returns
      ([self.v], [self.filter], [self.powerlevel], ...) are local names.
    - The interpreter is Python 3 (the global [python] is [3]).
    - The view is a sink.  Its Tk variables are a store by attribute
      name; calls that repaint widgets, among them the methods that plot
      or compute percentages, are recorded in order with their
      arguments.  Callbacks that Tk itself runs are outside the model,
      except the timer of the mirror clock. *)

From Stdlib Require Import ZArith Ascii String List Lia Bool.
From stdpp Require Import base strings gmap.

Local Open Scope string_scope.
Local Open Scope list_scope.
Local Open Scope Z_scope.

(** ** Python strings *)

Module Py.

(** [s[i]] for a non-negative index; [None] stands for [IndexError]. *)
Definition index (s : string) (i : nat) : option ascii := String.get i s.

(** [s[i:]] *)
Definition from (i : nat) (s : string) : string :=
  String.substring i (String.length s - i) s.

(** [s[i:j]] for [0 <= i <= j]. *)
Definition slice (i j : nat) (s : string) : string :=
  String.substring i (j - i) s.

Definition str (c : ascii) : string := String c EmptyString.

Definition is_digit (c : ascii) : bool :=
  let n := nat_of_ascii c in (48 <=? n)%nat && (n <=? 57)%nat.

(** [str.isspace] on one ASCII character (Python 3: TAB, LF, VT, FF, CR,
    FS, GS, RS, US and the blank). *)
Definition is_space (c : ascii) : bool :=
  let n := nat_of_ascii c in
  ((9 <=? n)%nat && (n <=? 13)%nat) || ((28 <=? n)%nat && (n <=? 32)%nat).

Fixpoint all_digits (s : string) : bool :=
  match s with
  | EmptyString => true
  | String c s' => is_digit c && all_digits s'
  end.

(** [s.isdigit()]: at least one character, and all of them digits. *)
Definition isdigit (s : string) : bool :=
  match s with
  | EmptyString => false
  | _ => all_digits s
  end.

(** [s.rstrip()] *)
Fixpoint rstrip (s : string) : string :=
  match s with
  | EmptyString => EmptyString
  | String c s' =>
      match rstrip s' with
      | EmptyString => if is_space c then EmptyString else str c
      | r => String c r
      end
  end.

Fixpoint lstrip (s : string) : string :=
  match s with
  | EmptyString => EmptyString
  | String c s' => if is_space c then lstrip s' else s
  end.

Definition strip (s : string) : string := rstrip (lstrip s).

(** [s.split(sep)] for a one-character separator. *)
Fixpoint split (sep : ascii) (s : string) : list string :=
  match s with
  | EmptyString => [EmptyString]
  | String c s' =>
      if Ascii.eqb c sep then EmptyString :: split sep s'
      else match split sep s' with
           | w :: ws => String c w :: ws
           | [] => [str c]
           end
  end.

Definition digit_val (c : ascii) : Z := Z.of_nat (nat_of_ascii c) - 48.

(** The digits of a literal, most significant first; single underscores
    may separate digits.  [acc] is the value read so far and [prev]
    tells whether the previous character was a digit. *)
Fixpoint digits (acc : Z) (prev : bool) (s : string) : option Z :=
  match s with
  | EmptyString => if prev then Some acc else None
  | String c s' =>
      if is_digit c then digits (10 * acc + digit_val c) true s'
      else if Ascii.eqb c "_" then
             if prev then digits acc false s' else None
           else None
  end.

(** The characters that [int] skips around a literal: TAB, LF, VT, FF,
    CR and the blank.  FS, GS, RS and US, which [str.isspace] accepts
    and [rstrip] removes, are not among them: [int('\x1c7')] raises
    [ValueError]. *)
Definition is_blank (c : ascii) : bool :=
  let n := nat_of_ascii c in
  ((9 <=? n)%nat && (n <=? 13)%nat) || (n =? 32)%nat.

Fixpoint rtrim (s : string) : string :=
  match s with
  | EmptyString => EmptyString
  | String c s' =>
      match rtrim s' with
      | EmptyString => if is_blank c then EmptyString else str c
      | r => String c r
      end
  end.

Fixpoint ltrim (s : string) : string :=
  match s with
  | EmptyString => EmptyString
  | String c s' => if is_blank c then ltrim s' else s
  end.

Definition trim (s : string) : string := rtrim (ltrim s).

(** [int(s)] on a string of ASCII characters: blanks around, an optional
    sign, decimal digits.  [None] stands for [ValueError].  The bound
    that recent interpreters put on the number of digits of a literal
    is left out. *)
Definition int (s : string) : option Z :=
  match trim s with
  | String "-" r => option_map Z.opp (digits 0 false r)
  | String "+" r => digits 0 false r
  | r => digits 0 false r
  end.

Definition digit_char (d : Z) : ascii := ascii_of_nat (Z.to_nat (48 + d)).

(** Decimal digits of a natural number, most significant first; [fuel]
    bounds the number of digits. *)
Fixpoint decimal (fuel : nat) (n : Z) (acc : string) : string :=
  match fuel with
  | O => acc
  | S fuel' =>
      let acc' := String (digit_char (n mod 10)) acc in
      if n / 10 =? 0 then acc' else decimal fuel' (n / 10) acc'
  end.

Definition repr (n : Z) : string :=
  decimal (S (Z.to_nat (Z.log2 n))) n EmptyString.

Fixpoint zeros (k : nat) : string :=
  match k with
  | O => EmptyString
  | S k' => String "0" (zeros k')
  end.

(** ['{0:0Wd}'.format(n)]: the sign first, then zeros up to width [W]. *)
Definition format_0d (width : nat) (n : Z) : string :=
  if n <? 0 then
    let d := repr (- n) in
    String "-" (zeros (width - 1 - String.length d) +:+ d)
  else
    let d := repr n in zeros (width - String.length d) +:+ d.

End Py.

(** ** Exceptions and the method monad *)

Inductive exn : Type :=
| AttributeError (attr : string)
| NameError (name : string)
| IndexError
| ValueError
| TypeError
| KeyError
| UnicodeDecodeError.

Inductive outcome (A : Type) : Type :=
| Return (a : A)
| Raise (e : exn).
Arguments Return {A} a.
Arguments Raise {A} e.

(** Values that cross the Python/Tk boundary. *)
Inductive pyval : Type :=
| PNone
| PInt (n : Z)
| PStr (s : string)
| PStrs (l : list string).

Definition M (S A : Type) : Type := S -> outcome A * S.

Definition ret {S A} (a : A) : M S A := fun s => (Return a, s).
Definition raise {S A} (e : exn) : M S A := fun s => (Raise e, s).
Definition bind {S A B} (m : M S A) (k : A -> M S B) : M S B :=
  fun s => match m s with
           | (Return a, s') => k a s'
           | (Raise e, s') => (Raise e, s')
           end.
Definition gets {S A} (f : S -> A) : M S A := fun s => (Return (f s), s).
Definition modify {S} (f : S -> S) : M S unit := fun s => (Return tt, f s).

(** Run a method of an object held in a field of [S]. *)
Definition zoom {S T A} (get : S -> T) (set : T -> S -> S) (m : M T A) : M S A :=
  fun s => let (r, t) := m (get s) in (r, set t s).

(** [x[i]] on a string, raising [IndexError] out of range. *)
Definition item {S} (s : string) (i : nat) : M S ascii :=
  match Py.index s i with
  | Some c => ret c
  | None => raise IndexError
  end.

(** [int(s)], raising [ValueError]. *)
Definition to_int {S} (s : string) : M S Z :=
  match Py.int s with
  | Some n => ret n
  | None => raise ValueError
  end.

Declare Scope py_scope.
Delimit Scope py_scope with py.
Notation "x <- c1 ;; c2" := (bind c1 (fun x => c2))
  (at level 100, c1 at next level, right associativity) : py_scope.
Notation "c1 ;; c2" := (bind c1 (fun _ => c2))
  (at level 100, right associativity) : py_scope.
Local Open Scope py_scope.

(** The returned value and the state left behind. *)
Definition result {S A} (r : outcome A * S) : outcome A := fst r.
Definition final {S A} (r : outcome A * S) : S := snd r.

(** ** The Tk root: timers armed with [after] *)

Module Tk.

(** [after_jobs] are the identifiers of the timers that are armed and
    have not fired; [after_next] is the next fresh identifier. *)
Record root : Type := { after_next : nat; after_jobs : list nat }.

Definition fresh : root := {| after_next := 0; after_jobs := [] |}.

(** [root.after(ms, callback)]: arms a timer and returns its identifier. *)
Definition after (r : root) : nat * root :=
  (after_next r,
   {| after_next := S (after_next r);
      after_jobs := after_jobs r ++ [after_next r] |}).

(** [root.after_cancel(id)] *)
Definition after_cancel (id : nat) (r : root) : root :=
  {| after_next := after_next r;
     after_jobs := filter (fun j => j ≠ id) (after_jobs r) |}.

Definition armed (id : nat) (r : root) : bool :=
  bool_decide (id ∈ after_jobs r).

End Tk.

(** ** MC: the mirror clock *)

Module MC.

(** The clock object.  [_root] and [_clock] are the Tk root and the
    [StringVar] handed to the constructor; the view reaches the same two
    objects through its mirror clock, so they are stored once, here. *)
Record t : Type := {
  _hour : Z; _minute : Z; _second : Z;
  _job : option nat;
  _root : Tk.root;
  _clock : string
}.

Definition __init__ (root : Tk.root) (clock : string) : t :=
  {| _hour := 0; _minute := 0; _second := 0; _job := None;
     _root := root; _clock := clock |}.

Definition fmt (h m s : Z) : string :=
  Py.format_0d 2 h +:+ ":" +:+ Py.format_0d 2 m +:+ ":" +:+ Py.format_0d 2 s.

(** The three fields after the carry chain of [__tick]. *)
Definition carry (h m s : Z) : Z * Z * Z :=
  let s := s + 1 in
  if s >? 59 then
    let s := 0 in
    let m := m + 1 in
    if m >? 59 then
      let m := 0 in
      let h := h + 1 in
      if h >? 23 then (0, m, s) else (h, m, s)
    else (h, m, s)
  else (h, m, s).

Definition __tick (c : t) : t :=
  let '(h, m, s) := carry (_hour c) (_minute c) (_second c) in
  let (job, root) := Tk.after (_root c) in
  {| _hour := h; _minute := m; _second := s;
     _job := Some job; _root := root; _clock := fmt h m s |}.

(** The [time] property, read. *)
Definition time (c : t) : string := fmt (_hour c) (_minute c) (_second c).

Definition cancel_job (c : t) : t :=
  match _job c with
  | Some j =>
      {| _hour := _hour c; _minute := _minute c; _second := _second c;
         _job := _job c; _root := Tk.after_cancel j (_root c);
         _clock := _clock c |}
  | None => c
  end.

Definition store (h m s : Z) (c : t) : t :=
  let (job, root) := Tk.after (_root c) in
  {| _hour := h; _minute := m; _second := s;
     _job := Some job; _root := root; _clock := _clock c |}.

(** The [time] property, written: [mc.time = data]. *)
Definition time_set (data : string) : M t pyval :=
  modify cancel_job ;;
  match Py.split ":" data with
  | [_h; _m; _s] =>
      h <- to_int _h ;;
      m <- to_int _m ;;
      s <- to_int _s ;;
      modify (store h m s) ;;
      ret PNone
  | _ => ret (PInt (-1))
  end.

(** The Tk event loop runs the callback of an armed timer when it
    expires; an expired timer is no longer armed. *)
Definition expire (id : nat) (c : t) : t :=
  if Tk.armed id (_root c) then
    __tick {| _hour := _hour c; _minute := _minute c; _second := _second c;
              _job := _job c; _root := Tk.after_cancel id (_root c);
              _clock := _clock c |}
  else c.

(** The clock is ticking when the timer it remembers is armed. *)
Definition ticking (c : t) : bool :=
  match _job c with
  | Some j => Tk.armed j (_root c)
  | None => false
  end.

Definition in_range (c : t) : Prop :=
  0 <= _hour c <= 23 /\ 0 <= _minute c <= 59 /\ 0 <= _second c <= 59.

End MC.

Definition clock0 : MC.t := MC.__init__ Tk.fresh "".

(** ** The serial port *)

Module Serial.

(** What the driver has for the program, in the order the program meets
    it: a byte that has arrived, or a quiet moment in which nothing has
    (a poll then sees an empty buffer and a read times out).  After the
    last event the line stays quiet. *)
Inductive event : Type :=
| Byte (b : ascii)
| Quiet.

Record t : Type := { rx : list event; tx : list string }.

Definition set_rx (x : list event) (r : t) : t := {| rx := x; tx := tx r |}.

Fixpoint buffered (l : list event) : Z :=
  match l with
  | Byte _ :: l' => 1 + buffered l'
  | _ => 0
  end.

(** [fd.in_waiting] *)
Definition in_waiting : M t Z :=
  fun r => match rx r with
           | Quiet :: l => (Return 0, set_rx l r)
           | l => (Return (buffered l), r)
           end.

(** [fd.write(buff)] *)
Definition write (buff : string) : M t unit :=
  modify (fun r => {| rx := rx r; tx := tx r ++ [buff] |}).

(** The bytes of a line on the wire, ended by a carriage return. *)
Fixpoint bytes (s : string) : list event :=
  match s with
  | EmptyString => []
  | String c s' => Byte c :: bytes s'
  end.

Definition line (s : string) : list event := bytes s ++ [Byte "013"%char].

End Serial.

(** ** The view *)

(** Calls that repaint widgets: a method of the view, or the configuration
    of one widget (of a list of widgets when [index] is given). *)
Inductive sink_event : Type :=
| Paint (method : string) (args : list pyval)
| Config (widget : string) (index : option Z) (options : list (string * string)).

Module View.

(** [mirror] is the mirror clock (with the Tk root and the [curtime]
    variable in it), [vars] the other Tk variables by attribute name,
    [trace] and [log] the two list boxes, [debug] the global flag of the
    same name and [stdout] what has been printed. *)
Record t : Type := {
  mirror : MC.t;
  vars : gmap string pyval;
  trace : list string;
  log : list string;
  sink : list sink_event;
  debug : bool;
  stdout : list string
}.

Definition set_mirror (x : MC.t) (r : t) : t :=
  {| mirror := x; vars := vars r; trace := trace r; log := log r;
     sink := sink r; debug := debug r; stdout := stdout r |}.
Definition set_vars (x : gmap string pyval) (r : t) : t :=
  {| mirror := mirror r; vars := x; trace := trace r; log := log r;
     sink := sink r; debug := debug r; stdout := stdout r |}.
Definition set_trace (x : list string) (r : t) : t :=
  {| mirror := mirror r; vars := vars r; trace := x; log := log r;
     sink := sink r; debug := debug r; stdout := stdout r |}.
Definition set_log (x : list string) (r : t) : t :=
  {| mirror := mirror r; vars := vars r; trace := trace r; log := x;
     sink := sink r; debug := debug r; stdout := stdout r |}.
Definition set_sink (x : list sink_event) (r : t) : t :=
  {| mirror := mirror r; vars := vars r; trace := trace r; log := log r;
     sink := x; debug := debug r; stdout := stdout r |}.
Definition set_stdout (x : list string) (r : t) : t :=
  {| mirror := mirror r; vars := vars r; trace := trace r; log := log r;
     sink := sink r; debug := debug r; stdout := x |}.

Definition root (v : t) : Tk.root := MC._root (mirror v).
Definition curtime (v : t) : string := MC._clock (mirror v).

(** [self.<name>.set(value)] on a Tk variable: the value is stored.
    What Tk does next on its own (redrawing, callbacks bound to the
    variable) is not part of this call. *)
Definition var_set (name : string) (value : pyval) : M t unit :=
  modify (fun v => set_vars (<[name := value]> (vars v)) v).

(** [self.<name>.get()] on a [StringVar] and on an [IntVar]. *)
Definition str_get (name : string) : M t string :=
  gets (fun v => match vars v !! name with Some (PStr s) => s | _ => "" end).
Definition int_get (name : string) : M t Z :=
  gets (fun v => match vars v !! name with Some (PInt n) => n | _ => 0 end).

Definition emit (e : sink_event) : M t unit :=
  modify (fun v => set_sink (sink v ++ [e]) v).

(** The sixteen bands of [Model.bands()]; the per-band widget lists have
    one entry each. *)
Definition nbands : Z := 16.

(** [widgets[i]] on one of the per-band lists. *)
Definition band_item (i : Z) : M t unit :=
  if (- nbands <=? i) && (i <? nbands) then ret tt else raise IndexError.

Definition installLP (band : Z) : M t unit :=
  band_item band ;;
  emit (Paint "installLP" [PInt band]).

Definition setProgress (band seconds : Z) : M t unit :=
  emit (Paint "setProgress" [PInt band; PInt seconds]).

Definition setActive (band : Z) (color : string) : M t unit :=
  emit (Paint "setActive" [PInt band; PStr color]).

Definition setRunning : M t unit := emit (Paint "setRunning" []).
Definition setStopped : M t unit := emit (Paint "setStopped" []).
Definition setGenerating : M t unit := emit (Paint "setGenerating" []).

Definition fq_digits : list (string * nat) :=
  [("d100M", 1); ("d10M", 2); ("d1M", 3); ("d100k", 4); ("d10k", 5);
   ("d1k", 6); ("d100Hz", 7); ("d10Hz", 8); ("d1Hz", 9); ("d10c", 10);
   ("d1c", 11)]%nat.

Fixpoint set_digits (l : list (string * nat)) (data : string) : M t unit :=
  match l with
  | [] => ret tt
  | (name, i) :: l' =>
      c <- item data i ;;
      n <- to_int (Py.str c) ;;
      var_set name (PInt n) ;;
      set_digits l' data
  end.

Definition setFQ (data : string) : M t unit := set_digits fq_digits data.

Definition serialOK (state : bool) : M t unit :=
  emit (Paint "serialOK" [PInt (if state then 1 else 0)]).

Definition traceInsert (msg : string) : M t unit :=
  if (0 <? String.length msg)%nat then
    modify (fun v => if debug v then set_stdout (stdout v ++ [msg]) v else v) ;;
    modify (fun v => set_trace (trace v ++ [msg]) v)
  else ret tt.

Definition setDevice (data : string) : M t unit :=
  emit (Paint "setDevice" [PStr data]).
Definition setHardwareVer (data : string) : M t unit :=
  var_set "hardwareVer" (PStr data).
Definition setHardwareRev (data : string) : M t unit :=
  var_set "hardwareRev" (PStr data).
Definition setFirmwareVer (data : string) : M t unit :=
  var_set "firmwareVer" (PStr data).
Definition setFirmwareRev (data : string) : M t unit :=
  var_set "firmwareRev" (PStr data).
Definition setFrequency (data : string) : M t unit :=
  emit (Paint "setFrequency" [PStr data]).
Definition tx (onoff : Z) : M t unit := emit (Paint "tx" [PInt onoff]).
Definition program (mode : Z) : M t unit :=
  emit (Paint "program" [PInt mode]).
Definition setPosition (maidenhead : string) : M t unit :=
  var_set "position" (PStr maidenhead).

Definition set_clock (time : string) (c : MC.t) : MC.t :=
  {| MC._hour := MC._hour c; MC._minute := MC._minute c;
     MC._second := MC._second c; MC._job := MC._job c;
     MC._root := MC._root c; MC._clock := time |}.

Definition updateTime (time : string) : M t unit :=
  zoom mirror set_mirror (modify (set_clock time)) ;;
  zoom mirror set_mirror (MC.time_set time) ;;
  ret tt.

Definition satdata (data : list string) : M t unit :=
  emit (Paint "satdata" [PStrs data]).

Definition logInsert (msg : string) : M t unit :=
  modify (fun v => set_log (log v ++ [msg]) v).

End View.

(** ** The model: the device behind the serial port *)

Module Model.

(** [_fd] is [None] until a port has been opened. *)
Record t : Type := {
  _serialPort : string;
  _serials : list string;
  _fd : option Serial.t
}.

Definition set_fd (x : option Serial.t) (r : t) : t :=
  {| _serialPort := _serialPort r; _serials := _serials r; _fd := x |}.

(** The attributes of a [Model] that are not methods. *)
Definition fields : list string :=
  ["_vc"; "_serialPort"; "_serials"; "_fd"; "portName"].

(** A method of the open port; on [None] the attribute is missing. *)
Definition fd {A} (attr : string) (m : M Serial.t A) : M t A :=
  fun r => match _fd r with
           | Some s => let (o, s') := m s in (o, set_fd (Some s') r)
           | None => (Raise (AttributeError attr), r)
           end.

Definition CR : ascii := "013"%char.
Definition LF : ascii := "010"%char.

(** The [while _count < 1000000] loop of [readPort], by recursion on what
    the driver still has.  Once the line has gone quiet for good every
    further read times out, so the remaining iterations leave [_buff] as
    it is. *)
Fixpoint read_loop (_count : Z) (_buff : string) (l : list Serial.event)
  : outcome string * list Serial.event :=
  if _count <? 1000000 then
    match l with
    | [] => (Return _buff, [])
    | Serial.Quiet :: l' => read_loop (_count + 1) _buff l'
    | Serial.Byte b :: l' =>
        if (128 <=? nat_of_ascii b)%nat then (Raise UnicodeDecodeError, l')
        else if Ascii.eqb b CR || Ascii.eqb b LF then (Return _buff, l')
        else read_loop (_count + 1) (_buff +:+ Py.str b) l'
    end
  else (Return _buff, l).

Definition read_line : M Serial.t string :=
  fun s => let (o, l) := read_loop 0 "" (Serial.rx s) in (o, Serial.set_rx l s).

Definition readPort : M t string :=
  name <- gets _serialPort ;;
  if String.eqb name "None" then ret ""
  else
    n <- fd "in_waiting" Serial.in_waiting ;;
    if n <? 1 then ret ""
    else
      _buff <- fd "read" read_line ;;
      if (String.length _buff <? 1)%nat then ret ""
      else if negb (String.eqb (Py.slice 0 1 _buff) "{") then ret ""
      else ret (Py.rstrip _buff).

Definition bands : list string :=
  ["2190m"; "630m"; "160m"; "80m"; "40m"; "30m"; "20m"; "17m";
   "15m"; "12m"; "10m"; "6m"; "4m"; "2m"; "70cm"; "23cm"].

Definition powers : list string :=
  ["0"; "3"; "7"; "10"; "13"; "17"; "20"; "23"; "27"; "30"; "33"; "37";
   "40"; "43"; "47"; "50"; "53"; "57"; "60"].

End Model.

(** ** The controller *)

Module Controller.

(** The attributes of the controller that outlive a method call, and
    [stderr], the diagnostic stream. *)
Record t : Type := {
  view : View.t;
  model : Model.t;
  sats : list string;
  fq : Z;
  rxChars : Z;
  data : string;
  resp : string;
  rnum : bool;
  cmd : string;
  count : Z;
  msg : string;
  stderr : list string
}.

Definition set_view (x : View.t) (r : t) : t :=
  {| view := x; model := model r; sats := sats r; fq := fq r;
     rxChars := rxChars r; data := data r; resp := resp r; rnum := rnum r;
     cmd := cmd r; count := count r; msg := msg r; stderr := stderr r |}.
Definition set_model (x : Model.t) (r : t) : t :=
  {| view := view r; model := x; sats := sats r; fq := fq r;
     rxChars := rxChars r; data := data r; resp := resp r; rnum := rnum r;
     cmd := cmd r; count := count r; msg := msg r; stderr := stderr r |}.
Definition set_sats (x : list string) (r : t) : t :=
  {| view := view r; model := model r; sats := x; fq := fq r;
     rxChars := rxChars r; data := data r; resp := resp r; rnum := rnum r;
     cmd := cmd r; count := count r; msg := msg r; stderr := stderr r |}.
Definition set_fq (x : Z) (r : t) : t :=
  {| view := view r; model := model r; sats := sats r; fq := x;
     rxChars := rxChars r; data := data r; resp := resp r; rnum := rnum r;
     cmd := cmd r; count := count r; msg := msg r; stderr := stderr r |}.
Definition set_rxChars (x : Z) (r : t) : t :=
  {| view := view r; model := model r; sats := sats r; fq := fq r;
     rxChars := x; data := data r; resp := resp r; rnum := rnum r;
     cmd := cmd r; count := count r; msg := msg r; stderr := stderr r |}.
Definition set_data (x : string) (r : t) : t :=
  {| view := view r; model := model r; sats := sats r; fq := fq r;
     rxChars := rxChars r; data := x; resp := resp r; rnum := rnum r;
     cmd := cmd r; count := count r; msg := msg r; stderr := stderr r |}.
Definition set_resp (x : string) (r : t) : t :=
  {| view := view r; model := model r; sats := sats r; fq := fq r;
     rxChars := rxChars r; data := data r; resp := x; rnum := rnum r;
     cmd := cmd r; count := count r; msg := msg r; stderr := stderr r |}.
Definition set_rnum (x : bool) (r : t) : t :=
  {| view := view r; model := model r; sats := sats r; fq := fq r;
     rxChars := rxChars r; data := data r; resp := resp r; rnum := x;
     cmd := cmd r; count := count r; msg := msg r; stderr := stderr r |}.
Definition set_cmd (x : string) (r : t) : t :=
  {| view := view r; model := model r; sats := sats r; fq := fq r;
     rxChars := rxChars r; data := data r; resp := resp r; rnum := rnum r;
     cmd := x; count := count r; msg := msg r; stderr := stderr r |}.
Definition set_count (x : Z) (r : t) : t :=
  {| view := view r; model := model r; sats := sats r; fq := fq r;
     rxChars := rxChars r; data := data r; resp := resp r; rnum := rnum r;
     cmd := cmd r; count := x; msg := msg r; stderr := stderr r |}.
Definition set_msg (x : string) (r : t) : t :=
  {| view := view r; model := model r; sats := sats r; fq := fq r;
     rxChars := rxChars r; data := data r; resp := resp r; rnum := rnum r;
     cmd := cmd r; count := count r; msg := x; stderr := stderr r |}.
Definition set_stderr (x : list string) (r : t) : t :=
  {| view := view r; model := model r; sats := sats r; fq := fq r;
     rxChars := rxChars r; data := data r; resp := resp r; rnum := rnum r;
     cmd := cmd r; count := count r; msg := msg r; stderr := x |}.

Definition in_view {A} (m : M View.t A) : M t A := zoom view set_view m.
Definition in_model {A} (m : M Model.t A) : M t A := zoom model set_model m.

(** [sys.stderr.write(text)] *)
Definition stderr_write (text : string) : M t unit :=
  modify (fun c => set_stderr (stderr c ++ [text]) c).


Definition CRLF : string := String "013" (String "010" "").
Definition NL : string := String "010" "".

(** [Model.sendPort]; it reaches the view through the controller. *)
Definition sendPort (cmd data : string) : M t unit :=
  let _buff :=
    if (0 <? String.length cmd)%nat then "[" +:+ cmd +:+ "] " +:+ data
    else data in
  in_view (View.traceInsert _buff) ;;
  let _buff := if (0 <? String.length cmd)%nat then _buff +:+ CRLF else _buff in
  in_model (Model.fd "write" (Serial.write _buff)).

(** *** The signal generator tab *)

Definition addFQ (add : Z) : M t unit :=
  fq0 <- gets fq ;;
  let t := fq0 + add in
  let t := if t >? 100000000000 then t - 100000000000 else t in
  modify (set_fq t) ;;
  sendPort "DGF" ("S " +:+ Py.format_0d 12 t) ;;
  in_view (View.setFQ (Py.format_0d 12 t)).

Definition subFQ (sub : Z) : M t unit :=
  fq0 <- gets fq ;;
  let t := fq0 - sub in
  let t := if t <? 0 then 1 else t in
  modify (set_fq t) ;;
  sendPort "DGF" ("S " +:+ Py.format_0d 12 t) ;;
  in_view (View.setFQ (Py.format_0d 12 t)).

Definition up100M := addFQ 10000000000.
Definition up10M := addFQ 1000000000.
Definition up1M := addFQ 100000000.
Definition up100k := addFQ 10000000.
Definition up10k := addFQ 1000000.
Definition up1k := addFQ 100000.
Definition up100Hz := addFQ 10000.
Definition up10Hz := addFQ 1000.
Definition up1Hz := addFQ 100.
Definition up10c := addFQ 10.
Definition up1c := addFQ 1.
Definition down100M := subFQ 10000000000.
Definition down10M := subFQ 1000000000.
Definition down1M := subFQ 100000000.
Definition down100k := subFQ 10000000.
Definition down10k := subFQ 1000000.
Definition down1k := subFQ 100000.
Definition down100Hz := subFQ 10000.
Definition down10Hz := subFQ 1000.
Definition down1Hz := subFQ 100.
Definition down10c := subFQ 10.
Definition down1c := subFQ 1.

(** The amounts of the eleven digit buttons. *)
Definition digit_amounts : list Z :=
  [10000000000; 1000000000; 100000000; 10000000; 1000000; 100000;
   10000; 1000; 100; 10; 1].

Definition setPortStatus (state : bool) : M t unit :=
  if state then in_view (View.serialOK true)
  else in_view (View.serialOK false).

(** *** Messages from the model: the handlers

    A handler returns [None] or, on some rejected payloads, [-1]. *)

Definition handleCCM (data : string) : M t pyval :=
  if (String.length data <? 1)%nat then
    (* [sendport('CCM','G')]: the module has no global of that name *)
    raise (NameError "sendport")
  else
    c <- item data 0 ;;
    if Ascii.eqb c "N" then
      in_view View.setStopped ;; in_view (View.program 0) ;; ret PNone
    else if Ascii.eqb c "W" then
      in_view View.setRunning ;; in_view (View.program 1) ;; ret PNone
    else if Ascii.eqb c "S" then
      in_view View.setGenerating ;; in_view (View.program 2) ;; ret PNone
    else
      stderr_write ("unknown CCM received: " +:+ data) ;;
      sendPort "CCM" "G" ;; ret PNone.

Definition handleOTP (data : string) : M t pyval :=
  if Py.isdigit data then
    v <- to_int data ;;
    in_view (View.var_set "pauseTime" (PInt v)) ;; ret PNone
  else
    stderr_write ("unknown OTP received: " +:+ data) ;;
    sendPort "OTP" "G" ;; ret PNone.

Definition handleOSM (data : string) : M t pyval :=
  c <- item data 0 ;;
  if Ascii.eqb c "N" || Ascii.eqb c "W" || Ascii.eqb c "S" then
    in_view (View.var_set "boot" (PStr (Py.str c))) ;; ret PNone
  else
    stderr_write ("unknown OSM received: " +:+ data) ;;
    sendPort "OSM" "G" ;; ret PNone.

(** [self.view.<name>[i]] names one variable of a per-band list. *)
Definition band_var (name : string) (i : Z) : string :=
  name +:+ "[" +:+ Py.repr (if i <? 0 then i + View.nbands else i) +:+ "]".

Definition handleOBD (data : string) : M t pyval :=
  filter <- to_int (Py.slice 0 2 data) ;;
  c <- item data 3 ;;
  if Ascii.eqb c "E" then
    in_view (View.band_item filter) ;;
    in_view (View.var_set (band_var "enable" filter) (PInt 1)) ;;
    in_view (View.band_item filter) ;;
    in_view (View.emit (Config "progress" (Some filter)
                          [("style", "WSPR.Horizontal.TProgressbar")])) ;;
    ret PNone
  else if Ascii.eqb c "D" then
    in_view (View.band_item filter) ;;
    in_view (View.var_set (band_var "enable" filter) (PInt 0)) ;;
    in_view (View.band_item filter) ;;
    in_view (View.emit (Config "progress" (Some filter)
                          [("style", "blank.Horizontal.TProgressbar")])) ;;
    ret PNone
  else
    stderr_write ("unknown OBD response:" +:+ data) ;;
    sendPort "OBD" "G" ;; ret PNone.

Definition handleOLC (data : string) : M t pyval :=
  c <- item data 0 ;;
  if Ascii.eqb c "G" then in_view (View.var_set "rpam" (PStr "G")) ;; ret PNone
  else if Ascii.eqb c "M" then
    in_view (View.var_set "rpam" (PStr "M")) ;; ret PNone
  else
    stderr_write ("unknown OLC response:" +:+ data) ;;
    sendPort "OLC" "G" ;; ret PNone.

Definition handleOPW (data : string) : M t pyval :=
  c <- item data 0 ;;
  if Ascii.eqb c "N" then
    in_view (View.var_set "rpmode" (PStr "N")) ;; ret PNone
  else if Ascii.eqb c "A" then
    in_view (View.var_set "rpmode" (PStr "A")) ;; ret PNone
  else
    stderr_write ("unknown OPW response:" +:+ data) ;;
    sendPort "OPW" "G" ;; ret PNone.

Definition handleDCS (data : string) : M t pyval :=
  in_view (View.var_set "call" (PStr data)) ;; ret PNone.

Definition handleDL4 (data : string) : M t pyval :=
  in_view (View.var_set "location" (PStr data)) ;; ret PNone.

Definition handleDPD (data : string) : M t pyval :=
  if Py.isdigit data then
    powerlevel <- to_int data ;;
    let powerlevel := if powerlevel >? 60 then 60 else powerlevel in
    in_view (View.var_set "rpwr" (PStr (Py.format_0d 0 powerlevel))) ;;
    ret PNone
  else sendPort "DPD" "G" ;; ret PNone.

Definition handleDNM (data : string) : M t pyval :=
  in_view (View.var_set "name" (PStr data)) ;; ret PNone.

Definition handleDGF (data_ : string) : M t pyval :=
  if (String.length data_ =? 12)%nat && Py.isdigit data_ then
    n <- to_int data_ ;;
    modify (set_fq n) ;;
    d <- gets data ;;
    in_view (View.setFQ d) ;; ret PNone
  else
    stderr_write ("Bad DGF data: " +:+ data_) ;;
    sendPort "DGF" "G" ;; ret PNone.

Definition handleFPN (data : string) : M t pyval :=
  in_view (View.setDevice data) ;; ret PNone.
Definition handleFHV (data : string) : M t pyval :=
  in_view (View.setHardwareVer data) ;; ret PNone.
Definition handleFHR (data : string) : M t pyval :=
  in_view (View.setHardwareRev data) ;; ret PNone.
Definition handleFSV (data : string) : M t pyval :=
  in_view (View.setFirmwareVer data) ;; ret PNone.
Definition handleFSR (data : string) : M t pyval :=
  in_view (View.setFirmwareRev data) ;; ret PNone.
Definition handleFRF (data : string) : M t pyval := ret PNone.

Definition handleFLP (data : string) : M t pyval :=
  let v := Py.from 2 data in
  if negb (Py.isdigit v) then
    (* ['Invalid LPF requested: '+band]: no name [band] is in scope *)
    raise (NameError "band")
  else
    filter <- to_int v ;;
    if filter >? Z.of_nat (List.length Model.bands) then
      stderr_write ("Device reported an unsupported LPF with an ID of "
                    +:+ Py.format_0d 0 filter +:+ ".") ;;
      ret (PInt (-1))
    else in_view (View.installLP filter) ;; ret PNone.

Definition handleGL4 (data : string) : M t pyval :=
  in_view (View.setPosition data) ;; ret PNone.

Definition handleGTM (data : string) : M t pyval :=
  in_view (View.updateTime data) ;;
  in_view (View.emit (Config "r3l5" None [("fg", "black")])) ;;
  l <- gets sats ;;
  if (0 <? List.length l)%nat then
    in_view (View.satdata l) ;; modify (set_sats []) ;; ret PNone
  else ret PNone.

Definition handleGLC (data : string) : M t pyval :=
  c <- item data 0 ;;
  if Ascii.eqb c "F" then
    in_view (View.emit (Config "locked" None
               [("text", "No Position Lock"); ("font", "Arial Italic 18")])) ;;
    in_view (View.emit (Config "r3l6" None [("fg", "grey80")])) ;; ret PNone
  else if Ascii.eqb c "T" then
    in_view (View.emit (Config "locked" None
               [("text", "Position Lock"); ("font", "Arial 18")])) ;;
    in_view (View.emit (Config "r3l6" None [("fg", "black")])) ;; ret PNone
  else stderr_write ("unknown GLC response:" +:+ data) ;; ret PNone.

Definition handleGSI (data : string) : M t pyval :=
  modify (fun c => set_sats (sats c ++ [data]) c) ;; ret PNone.

Definition handleTFQ (data : string) : M t pyval :=
  if Py.isdigit data then in_view (View.setFrequency data) ;; ret PNone
  else stderr_write ("unknown TFQ response: " +:+ data) ;; ret PNone.

Definition handleTON (data : string) : M t pyval :=
  c <- item data 0 ;;
  if Ascii.eqb c "T" then in_view (View.tx 1) ;; ret PNone
  else if Ascii.eqb c "F" then in_view (View.tx 0) ;; ret PNone
  else
    stderr_write ("unknown TON response:" +:+ data) ;;
    sendPort "TON" "G" ;; ret PNone.

Definition handleMPS (data : string) : M t pyval :=
  in_view (View.setActive (-1) "black") ;;
  if Py.isdigit data then
    n <- to_int data ;;
    in_view (View.setProgress (-1) n) ;; ret PNone
  else stderr_write ("unknown MPS response: " +:+ data) ;; ret PNone.

Definition handleMIN (data : string) : M t pyval :=
  in_view (View.logInsert data) ;;
  setPortStatus true ;;
  in_view (View.emit (Config "saveButton" None [("bg", "grey80")])) ;;
  ret PNone.

Definition handleLPI (data : string) : M t pyval := ret PNone.
Definition handleMVC (data : string) : M t pyval := ret PNone.

Definition handleTBN (data : string) : M t pyval :=
  if negb (Py.isdigit data) then
    stderr_write ("invalid TBN band data:: " +:+ data) ;; ret (PInt (-1))
  else
    n <- to_int data ;;
    in_view (View.setActive n "black") ;; ret PNone.

Definition handleTWS (data : string) : M t pyval :=
  if negb (Py.isdigit (Py.slice 0 2 data)) then
    stderr_write ("invalid TWS band data:: " +:+ data) ;; ret (PInt (-1))
  else
    v <- to_int (Py.slice 0 2 data) ;;
    in_view (View.setActive v "red") ;;
    if Py.isdigit (Py.slice 3 6 data) then
      n <- to_int (Py.slice 3 6 data) ;;
      in_view (View.setProgress v n) ;; ret PNone
    else stderr_write ("unknown MPS response: " +:+ data) ;; ret PNone.

Definition handleTCC (data : string) : M t pyval :=
  in_view (View.setProgress (-1) 0) ;; ret PNone.

(** [self.handlers], the command table built by [__init__]. *)
Definition handlers : gmap string (string -> M t pyval) :=
  list_to_map
    [("CCM", handleCCM); ("OTP", handleOTP); ("OSM", handleOSM);
     ("OBD", handleOBD); ("OLC", handleOLC); ("OPW", handleOPW);
     ("DCS", handleDCS); ("DL4", handleDL4); ("DPD", handleDPD);
     ("DNM", handleDNM); ("DGF", handleDGF);
     ("FPN", handleFPN); ("FHV", handleFHV); ("FHR", handleFHR);
     ("FSV", handleFSV); ("FSR", handleFSR); ("FRF", handleFRF);
     ("FLP", handleFLP);
     ("GL4", handleGL4); ("GTM", handleGTM); ("GLC", handleGLC);
     ("GSI", handleGSI); ("TFQ", handleTFQ); ("TON", handleTON);
     ("MPS", handleMPS); ("MIN", handleMIN); ("LPI", handleLPI);
     ("MVC", handleMVC); ("TBN", handleTBN); ("TWS", handleTWS);
     ("TCC", handleTCC)].

(** *** Dispatch *)

Definition known (opcode : string) : bool :=
  match handlers !! opcode with Some _ => true | None => false end.

Definition handleMessage (msg_ : string) : M t pyval :=
  if (String.length msg_ <? 5)%nat then
    stderr_write ("Short message: " +:+ msg_) ;; ret PNone
  else
    c0 <- item msg_ 0 ;;
    c4 <- item msg_ 4 ;;
    (if Ascii.eqb c0 "{" && Ascii.eqb c4 "}" then setPortStatus true
     else ret tt) ;;
    modify (set_data "") ;;
    (if (5 <? String.length msg_)%nat then
       modify (set_data (Py.from 6 msg_)) ;;
       c5 <- item msg_ 5 ;;
       if negb (Ascii.eqb c5 " ") then modify (set_data (Py.from 5 msg_))
       else ret tt
     else ret tt) ;;
    modify (set_resp (Py.slice 1 4 msg_)) ;;
    modify (fun c => set_rnum (known (resp c)) c) ;;
    found <- gets rnum ;;
    if negb found then
      stderr_write ("response: " +:+ msg_
                    +:+ " is unknown.  Need to upgrade?" +:+ NL) ;;
      ret PNone
    else
      r <- gets resp ;;
      d <- gets data ;;
      match handlers !! r with
      | Some handler => handler d ;; ret PNone
      | None => raise KeyError
      end.

(** *** The resync routine *)

Definition status_cmds : list string :=
  ["CCM"; "OTP"; "OSM"; "OBD"; "OLC"; "OPW"; "DCS";
   "DL4"; "DPD"; "DNM"; "DGF"; "FPN"; "FHV"; "FHR";
   "FSV"; "FSR"; "FRF"; "FLP"].

(** One pass through the body of [while self.count < 100]; the value
    returned says whether the body left the loop with [break]. *)
Definition wait_body : M t bool :=
  m <- in_model Model.readPort ;;
  modify (set_msg m) ;;
  modify (fun c => set_rxChars (rxChars c + Z.of_nat (String.length m)) c) ;;
  in_view (View.traceInsert m) ;;
  n <- gets rxChars ;;
  in_view (View.var_set "rxChars" (PInt n)) ;;
  if (2 <? String.length m)%nat then
    handleMessage m ;;
    c <- gets cmd ;;
    if String.eqb c (Py.slice 1 4 m) then ret true
    else modify (fun c => set_count (count c + 1) c) ;; ret false
  else ret false.

(** The [while] loop.  The loop has no bound of its own on the number of
    passes, so the model takes one: [None] means that [fuel] passes did
    not end it. *)
Fixpoint wait_reply (fuel : nat) (c : t) {struct fuel}
  : option (outcome unit * t) :=
  if count c <? 100 then
    match fuel with
    | O => None
    | S fuel' =>
        match wait_body c with
        | (Return true, c') => Some (Return tt, c')
        | (Return false, c') => wait_reply fuel' c'
        | (Raise e, c') => Some (Raise e, c')
        end
    end
  else Some (Return tt, c).

(** What one turn of the [for] loop does before it waits. *)
Definition query (opcode : string) : M t unit :=
  modify (set_cmd opcode) ;;
  sendPort opcode "G" ;;
  modify (set_count 0).

Fixpoint resync (fuel : nat) (cmds : list string) (c : t)
  : option (outcome unit * t) :=
  match cmds with
  | [] => Some (Return tt, c)
  | opcode :: rest =>
      match query opcode c with
      | (Return _, c1) =>
          match wait_reply fuel c1 with
          | Some (Return _, c2) => resync fuel rest c2
          | other => other
          end
      | (Raise e, c1) => Some (Raise e, c1)
      end
  end.

(** [fuel] bounds the passes of each of the eighteen waits. *)
Definition updateStatus (fuel : nat) (c : t) : option (outcome unit * t) :=
  resync fuel status_cmds c.

(** *** The serial tab *)

(** The methods a [Model] object answers to, by name. *)
Definition model_methods : gmap string (list pyval -> M t pyval) :=
  list_to_map
    [("getPorts", fun _ => l <- gets (fun c => Model._serials (model c)) ;;
                           ret (PStrs l));
     ("readPort", fun _ => s <- in_model Model.readPort ;; ret (PStr s));
     ("sendPort", fun args =>
                    match args with
                    | [PStr cmd; PStr data] => sendPort cmd data ;; ret PNone
                    | _ => raise TypeError
                    end);
     ("bands", fun _ => ret (PStrs Model.bands));
     ("powers", fun _ => ret (PStrs Model.powers))].

(** [self.model.<name>], to be called. *)
Definition model_attr (name : string) : M t (list pyval -> M t pyval) :=
  match model_methods !! name with
  | Some method => ret method
  | None =>
      if bool_decide (name ∈ Model.fields) then ret (fun _ => raise TypeError)
      else raise (AttributeError name)
  end.

Definition sendPressed : M t pyval :=
  d <- in_view (View.str_get "sendCommands") ;;
  crlf <- in_view (View.int_get "CRLF") ;;
  let d := if crlf =? 0 then d else d +:+ CRLF in
  sendPortRaw <- model_attr "sendPortRaw" ;;
  sendPortRaw [PStr ""; PStr d] ;;
  ret PNone.

(** *** Event handlers from the view *)

Definition startPressed : M t unit := sendPort "CCM" "S W".
Definition stopPressed : M t unit := sendPort "CCM" "S N".
Definition startGenerator : M t unit := sendPort "CCM" "S S".

(** The body of [for self.band in range(len(self.model.bands()))]. *)
Fixpoint bandCheck_loop (l : list Z) : M t unit :=
  match l with
  | [] => ret tt
  | band :: rest =>
      e <- in_view (View.int_get (band_var "enable" band)) ;;
      (if e =? 1 then
         sendPort "OBD" ("S " +:+ Py.format_0d 2 band +:+ " E")
       else
         sendPort "OBD" ("S " +:+ Py.format_0d 2 band +:+ " D")) ;;
      bandCheck_loop rest
  end.

Definition bandCheck : M t unit :=
  bandCheck_loop (List.map Z.of_nat (seq 0 (List.length Model.bands))).

Definition changeLocation : M t unit :=
  v <- in_view (View.str_get "location") ;;
  sendPort "DL4" ("S " +:+ v).

(** [self.call], which nothing reads, is not kept. *)
Definition setCall (call : string) : M t unit :=
  sendPort "CCM" "S N" ;;
  sendPort "DCS" ("S " +:+ call).

Definition pauseUpdate : M t unit :=
  t <- in_view (View.int_get "pauseTime") ;;
  if t >? 99999 then sendPort "OTP" "G"
  else sendPort "OTP" ("S " +:+ Py.format_0d 5 t).

Definition rpamGPS : M t unit := sendPort "OLC" "S G".
Definition rpamManual : M t unit := sendPort "OLC" "S M".
Definition rpmodeNormal : M t unit := sendPort "OPW" "S N".
Definition rpmodeAltitude : M t unit := sendPort "OPW" "S A".

Definition setBoot : M t unit :=
  b <- in_view (View.str_get "boot") ;;
  sendPort "OSM" ("S " +:+ b).

Definition rpwrUpdate : M t unit :=
  t <- in_view (View.str_get "rpwr") ;;
  v <- to_int t ;;
  sendPort "DPD" ("S " +:+ Py.format_0d 2 v).

Definition nameUpdate : M t unit :=
  n <- in_view (View.str_get "name") ;;
  sendPort "DNM" ("S " +:+ n).

Definition saveSettingsPressed : M t unit :=
  in_view (View.emit (Config "saveButton" None [("bg", "blue")])) ;;
  sendPort "CSE" "S".

(** *** The main loop *)

(** What one turn of [while True] in [drive] does with the port, before
    it lets Tk handle its events.  [fuel] is handed to [updateStatus]. *)
Definition drive_poll (fuel : nat) (c : t) : option (outcome unit * t) :=
  if negb (String.eqb (Model._serialPort (model c)) "None") then
    match (buff <- in_model Model.readPort ;;
           (if (0 <? String.length buff)%nat then
              modify (fun c =>
                        set_rxChars
                          (rxChars c + Z.of_nat (String.length buff)) c) ;;
              in_view (View.traceInsert buff) ;;
              n <- gets rxChars ;;
              in_view (View.var_set "rxChars" (PInt n)) ;;
              handleMessage buff ;;
              ret tt
            else ret tt) ;;
           ret buff) c with
    | (Return buff, c') =>
        if String.eqb (Py.slice 1 4 buff) "MIN" then updateStatus fuel c'
        else Some (Return tt, c')
    | (Raise e, c') => Some (Raise e, c')
    end
  else Some (Return tt, c).

End Controller.

(** ** The model at start-up: the search for serial ports *)

Module ModelInit.

(** How a constructor ends: with the object, with an exception, or in
    [sys.exit] after a word on [stderr]. *)
Inductive started (A : Type) : Type :=
| Built (a : A)
| Failed (e : exn)
| Exit (said : string) (code : Z).
Arguments Built {A} a.
Arguments Failed {A} e.
Arguments Exit {A} said code.

(** [['COM%s' % (i + 1) for i in range(256)]] *)
Definition com_ports : list string :=
  List.map (fun i => "COM" +:+ Py.repr (Z.of_nat i + 1)) (seq 0 256).

(** The loop over [os.listdir('/dev')] on Linux and Cygwin.  Its test
    reads [self.name] as soon as an entry begins with [tty]; a [Model]
    has no attribute of that name. *)
Fixpoint linux_scan (dev : list string) (_ports : list string)
  : outcome (list string) :=
  match dev with
  | [] => Return _ports
  | _name :: rest =>
      if String.prefix "tty" _name then Raise (AttributeError "name")
      else linux_scan rest _ports
  end.

(** The same loop on macOS. *)
Fixpoint darwin_scan (dev : list string) (_ports : list string) : list string :=
  match dev with
  | [] => _ports
  | _name :: rest =>
      let _ports :=
        if String.prefix "cu." _name then _ports ++ ["/dev/" +:+ _name]
        else _ports in
      let _ports :=
        if String.prefix "ttyS" _name then _ports ++ ["/dev/" +:+ _name]
        else _ports in
      darwin_scan rest _ports
  end.

(** [Model.__init__] on the platform [platform], with [dev] what
    [os.listdir('/dev')] returns and [opens p] telling whether
    [serial.Serial(p)] succeeds. *)
Definition __init__ (platform : string) (dev : list string)
    (opens : string -> bool) : started Model.t :=
  let found :=
    if String.prefix "win" platform then Some (Return com_ports)
    else if String.prefix "linux" platform || String.prefix "cygwin" platform
    then Some (linux_scan dev [])
    else if String.prefix "darwin" platform
    then Some (Return (darwin_scan dev []))
    else None in
  match found with
  | None => Exit "OS unknown - cannot find ports" 1
  | Some (Raise e) => Failed e
  | Some (Return _ports) =>
      let _serials := List.filter opens _ports in
      if (List.length _serials <? 1)%nat then Exit "No serial ports found." 1
      else Built {| Model._serialPort := "None"; Model._serials := _serials;
                    Model._fd := None |}
  end.

End ModelInit.

(** ** Initial states *)

Definition view0 : View.t :=
  {| View.mirror := clock0; View.vars := ∅; View.trace := []; View.log := [];
     View.sink := []; View.debug := false; View.stdout := [] |}.

(** A model whose port is open, with [l] ahead on the receive side. *)
Definition port (l : list Serial.event) : Model.t :=
  {| Model._serialPort := "/dev/ttyUSB0"; Model._serials := ["/dev/ttyUSB0"];
     Model._fd := Some {| Serial.rx := l; Serial.tx := [] |} |}.

(** The controller as [__init__] and [main] leave it. *)
Definition controller0 (l : list Serial.event) : Controller.t :=
  {| Controller.view := view0; Controller.model := port l;
     Controller.sats := []; Controller.fq := 100000000;
     Controller.rxChars := 0; Controller.data := ""; Controller.resp := "";
     Controller.rnum := false; Controller.cmd := ""; Controller.count := 0;
     Controller.msg := ""; Controller.stderr := [] |}.

(** What has been written to the port. *)
Definition sent (c : Controller.t) : list string :=
  match Model._fd (Controller.model c) with
  | Some s => Serial.tx s
  | None => []
  end.

(** What the port still has for the program. *)
Definition ahead (c : Controller.t) : list Serial.event :=
  match Model._fd (Controller.model c) with
  | Some s => Serial.rx s
  | None => []
  end.

(** * Vocabulary of the properties *)

Import Controller.

(** ** Frames *)

(** [m] leaves the observation [f] of the state as it was, whether it
    returns or raises. *)
Definition preserves {S A X} (f : S -> X) (m : M S A) : Prop :=
  forall s, f (final (m s)) = f s.

(** ** Clock and register *)

(** Seconds since midnight. *)
Definition secs (c : MC.t) : Z :=
  3600 * MC._hour c + 60 * MC._minute c + MC._second c.

(** A clock that has been set and is running. *)
Definition running : MC.t := final (MC.time_set "12:34:56" clock0).

(** The range of the register. *)
Definition fq_ok (n : Z) : Prop := 1 <= n <= 100000000000.

(** ** Decoding and dispatch *)

(** What [handleMessage] takes from a line of five characters or more:
    the opcode, the payload, and whether the line carries the braces of a
    frame. *)
Definition opcode_of (m : string) : string := Py.slice 1 4 m.

Definition payload_of (m : string) : string :=
  match Py.index m 5 with
  | None => ""
  | Some c => if Ascii.eqb c " " then Py.from 6 m else Py.from 5 m
  end.

Definition framed (m : string) : bool :=
  match Py.index m 0, Py.index m 4 with
  | Some a, Some b => Ascii.eqb a "{" && Ascii.eqb b "}"
  | _, _ => false
  end.

(** The controller once the line has been taken apart, before the table
    is consulted. *)
Definition decoded (m : string) (c : t) : t :=
  let c := if framed m then final (setPortStatus true c) else c in
  set_rnum (known (opcode_of m))
    (set_resp (opcode_of m) (set_data (payload_of m) c)).

Definition unknown_diag (m : string) : string :=
  "response: " +:+ m +:+ " is unknown.  Need to upgrade?" +:+ NL.

(** The table lookup and what follows it. *)
Definition dispatch (opcode payload diag : string) : M t pyval :=
  match handlers !! opcode with
  | Some handler => handler payload ;; ret PNone
  | None => stderr_write diag ;; ret PNone
  end.




(** ** Lines on the wire *)

(** A character that can stand inside a line: 7-bit, and neither of the
    two line terminators. *)
Definition plain (ch : ascii) : bool :=
  (nat_of_ascii ch <? 128)%nat
  && negb (Ascii.eqb ch Model.CR) && negb (Ascii.eqb ch Model.LF).

Fixpoint all_plain (s : string) : bool :=
  match s with
  | EmptyString => true
  | String ch s' => plain ch && all_plain s'
  end.

Definition begins_brace (s : string) : bool :=
  match s with
  | String ch _ => Ascii.eqb ch "{"
  | EmptyString => false
  end.

(** The payload of a line whose first five characters are given: what
    follows them, less one leading blank if there is one. *)
Definition strip_sep (tail : string) : string :=
  match tail with
  | String " " p => p
  | _ => tail
  end.



(** ** The wait of the resync routine *)

(** The resync bookkeeping and the receive side of the port. *)
Definition link (c : t) :=
  (cmd c, count c, Model._serialPort (model c),
   option_map Serial.rx (Model._fd (model c))).

(** The port is open and has [l] ahead. *)
Definition listening (c : t) (l : list Serial.event) : Prop :=
  String.eqb (Model._serialPort (model c)) "None" = false
  /\ option_map Serial.rx (Model._fd (model c)) = Some l.

(** The receive side of the port moved on to [rest]. *)
Definition with_ahead (rest : list Serial.event) (c : t) : t :=
  set_model
    (Model.set_fd (option_map (Serial.set_rx rest) (Model._fd (model c)))
       (model c)) c.

(** The controller after a pass has read [m] and done its bookkeeping,
    before it looks at [m]. *)
Definition arrive (m : string) (rest : list Serial.event) (c : t) : t :=
  final ((modify (set_msg m) ;;
          modify (fun c =>
                    set_rxChars (rxChars c + Z.of_nat (String.length m)) c) ;;
          in_view (View.traceInsert m) ;;
          n <- gets rxChars ;;
          in_view (View.var_set "rxChars" (PInt n))) (with_ahead rest c)).

(** What a pass does with the line it has read. *)
Definition consider (m : string) : M t bool :=
  if (2 <? String.length m)%nat then
    handleMessage m ;;
    c <- gets cmd ;;
    if String.eqb c (Py.slice 1 4 m) then ret true
    else modify (fun c => set_count (count c + 1) c) ;; ret false
  else ret false.

(** A line that may travel: 7-bit characters, no terminator inside, and
    short of the read ceiling. *)
Definition line_ok (s : string) : Prop :=
  all_plain s = true /\ Z.of_nat (String.length s) < 1000000.

(** What [readPort] makes of a line. *)
Definition as_read (s : string) : string :=
  if begins_brace s then Py.rstrip s else "".





(** ** Decimal numerals *)

(** The number a string of digits stands for, read after [a]. *)
Fixpoint value (a : Z) (s : string) : Z :=
  match s with
  | EmptyString => a
  | String c s' => value (10 * a + Py.digit_val c) s'
  end.

(** No blank among the characters. *)
Fixpoint no_space (s : string) : bool :=
  match s with
  | EmptyString => true
  | String c s' => negb (Py.is_space c) && no_space s'
  end.

(** ** Sending and reading *)

(** A line on the wire ended by [term]. *)
Definition line_with (term : ascii) (s : string) : list Serial.event :=
  Serial.bytes s ++ [Serial.Byte term].

(** The model with its port open on the receive side [l]. *)
Definition model_on (name : string) (ss out : list string)
    (l : list Serial.event) : Model.t :=
  {| Model._serialPort := name; Model._serials := ss;
     Model._fd := Some {| Serial.rx := l; Serial.tx := out |} |}.

(** The controller before a port has been selected. *)
Definition unplugged : Controller.t :=
  set_model {| Model._serialPort := "None"; Model._serials := ["/dev/ttyUSB0"];
               Model._fd := None |} (controller0 []).

(** ** What the handlers write *)

(** The line that asks the device for the setting [opcode]. *)
Definition query_line (opcode : string) : string :=
  "[" +:+ opcode +:+ "] G" +:+ CRLF.

(** [m] writes nothing to the port, or the one query for [opcode]. *)
Definition asks {A} (opcode : string) (m : M t A) : Prop :=
  forall c,
    sent (final (m c)) = sent c
    \/ sent (final (m c)) = sent c ++ [query_line opcode].

(** The opcodes whose handler can ask again. *)
Definition askers : list string :=
  ["CCM"; "OTP"; "OSM"; "OBD"; "OLC"; "OPW"; "DPD"; "DGF"; "TON"].

Definition asker (opcode : string) : bool := bool_decide (opcode ∈ askers).

(** The opcodes whose handler writes a variable of the view that has a
    write callback ([pauseTime], [call], [location], [name]); what Tk
    runs on such a write is outside the model. *)
Definition callback_writers : list string := ["OTP"; "DCS"; "DL4"; "DNM"].

Definition callback_writer (opcode : string) : bool :=
  bool_decide (opcode ∈ callback_writers).

(** ** The signal generator *)

(** The decimal digit of [n] that stands at index [i] of its twelve
    digits, the most significant being at index 0. *)
Definition digit_of (n : Z) (i : nat) : Z := (n / 10 ^ (11 - Z.of_nat i)) mod 10.

(** The digit at index [i] of a string of digits. *)
Definition digit_at (data : string) (i : nat) : Z :=
  match Py.index data i with
  | Some ch => Py.digit_val ch
  | None => 0
  end.

(** The Tk variables once the digits named in [l] have been set from
    [data]. *)
Fixpoint shown (l : list (string * nat)) (data : string)
    (m : gmap string pyval) : gmap string pyval :=
  match l with
  | [] => m
  | (name, i) :: l' => shown l' data (<[name := PInt (digit_at data i)]> m)
  end.

(** The display of the generator shows the digits of [n] below the
    first. *)
Definition displays (v : View.t) (n : Z) : Prop :=
  forall name i,
    (name, i) ∈ View.fq_digits ->
    View.vars v !! name = Some (PInt (digit_of n i)).

(** The controller once [buff] has gone out through the open port. *)
Definition wrote (buff : string) (c : t) : t :=
  set_model
    (Model.set_fd
       (option_map (fun s => {| Serial.rx := Serial.rx s;
                                Serial.tx := Serial.tx s ++ [buff] |})
                   (Model._fd (model c)))
       (model c)) c.

(** The controller once [text] has been put in the trace pane. *)
Definition traced (text : string) (c : t) : t :=
  set_view (final (View.traceInsert text (view c))) c.

(** ** The mirror clock, set and read *)

(** The character [x] does not occur in [s]. *)
Fixpoint lacks (x : ascii) (s : string) : bool :=
  match s with
  | EmptyString => true
  | String c s' => negb (Ascii.eqb c x) && lacks x s'
  end.

(** At most one timer is armed, and it is the one the clock remembers. *)
Definition tidy (c : MC.t) : Prop :=
  Tk.after_jobs (MC._root c) = []
  \/ exists j, MC._job c = Some j /\ Tk.after_jobs (MC._root c) = [j].

(** ** The GPS frames *)

(** The frame the device sends for [opcode] with [payload]. *)
Definition frame (opcode payload : string) : string :=
  "{" +:+ opcode +:+ "} " +:+ payload.

(** ** Settings: filters, bands, pause and power *)

(** Band [band] is ticked in the view. *)
Definition enabled (v : View.t) (band : Z) : bool :=
  match View.vars v !! band_var "enable" band with
  | Some (PInt n) => n =? 1
  | _ => false
  end.

(** The line [bandCheck] sends for [band]. *)
Definition band_line (v : View.t) (band : Z) : string :=
  "[OBD] S " +:+ Py.format_0d 2 band
  +:+ (if enabled v band then " E" else " D") +:+ CRLF.

(** ** The main loop *)

(** The controller after a turn of the main loop has read [m] and done
    its bookkeeping, before the line is dispatched. *)
Definition booked (m : string) (rest : list Serial.event) (c : t) : t :=
  final ((modify (fun c =>
                    set_rxChars (rxChars c + Z.of_nat (String.length m)) c) ;;
          in_view (View.traceInsert m) ;;
          n <- gets rxChars ;;
          in_view (View.var_set "rxChars" (PInt n))) (with_ahead rest c)).

(** ** What a frame can touch *)

(** The callbacks of the widgets that send a command and do nothing
    else (the digit buttons of the generator are not among them). *)
Definition commands : list (M t unit) :=
  [startPressed; stopPressed; startGenerator; bandCheck; changeLocation;
   pauseUpdate; rpamGPS; rpamManual; rpmodeNormal; rpmodeAltitude; setBoot;
   rpwrUpdate; nameUpdate; saveSettingsPressed].

(** What such a callback has no business with. *)
Definition settings (c : t) :=
  (fq c, sats c, stderr c,
   (View.vars (view c), View.mirror (view c), View.log (view c))).

(** * Properties *)

(** ** The model at work *)

Example int_59 : Py.int "59" = Some 59. Proof. reflexivity. Qed.
Example int_blank : Py.int " -1_0 " = Some (-10). Proof. reflexivity. Qed.
Example int_bad : Py.int "1__0" = None. Proof. reflexivity. Qed.
Example int_separator :
  Py.int (String (ascii_of_nat 28) "7") = None
  /\ Py.rstrip (String "7" (String (ascii_of_nat 28) "")) = "7".
Proof. split; reflexivity. Qed.
Example split_time : Py.split ":" "23:59:59" = ["23"; "59"; "59"].
Proof. reflexivity. Qed.
Example split_bad : Py.split ":" "bad" = ["bad"]. Proof. reflexivity. Qed.
Example format_fq : Py.format_0d 12 99 = "000000000099". Proof. reflexivity. Qed.
Example format_big : Py.format_0d 12 100000000000 = "100000000000".
Proof. reflexivity. Qed.
Example format_neg : Py.format_0d 2 (-5) = "-5". Proof. reflexivity. Qed.
Example rstrip_ex : Py.rstrip "{CCM} N  " = "{CCM} N". Proof. reflexivity. Qed.

Example set_then_read :
  MC.time (final (MC.time_set "07:08:09" clock0)) = "07:08:09".
Proof. vm_compute. reflexivity. Qed.
Example set_arms : MC.ticking (final (MC.time_set "07:08:09" clock0)) = true.
Proof. vm_compute. reflexivity. Qed.

(** ** Outcomes and frames of monadic code *)

Section Frames.
Context {S X : Type} (f : S -> X).

Lemma preserves_ret {A} (a : A) : preserves f (ret a).
Proof. intros s. reflexivity. Qed.

Lemma preserves_raise {A} (e : exn) : preserves f (raise (A := A) e).
Proof. intros s. reflexivity. Qed.

Lemma preserves_gets {A} (g : S -> A) : preserves f (gets g).
Proof. intros s. reflexivity. Qed.

Lemma preserves_modify (g : S -> S) :
  (forall s, f (g s) = f s) -> preserves f (modify g).
Proof. intros H s. apply H. Qed.

Lemma preserves_bind {A B} (m : M S A) (k : A -> M S B) :
  preserves f m -> (forall a, preserves f (k a)) -> preserves f (bind m k).
Proof.
  intros Hm Hk s. unfold bind, final. specialize (Hm s). unfold final in Hm.
  destruct (m s) as [[a | e] s']; simpl in *.
  - rewrite <- Hm. apply Hk.
  - exact Hm.
Qed.

Lemma preserves_zoom {T A} (get : S -> T) (set : T -> S -> S) (m : M T A) :
  (forall t s, f (set t s) = f s) -> preserves f (zoom get set m).
Proof.
  intros H s. unfold zoom, final. destruct (m (get s)). simpl. apply H.
Qed.

Lemma preserves_item (s : string) (i : nat) : preserves f (item s i).
Proof. unfold item. destruct (Py.index s i); intros ?; reflexivity. Qed.

Lemma preserves_to_int (s : string) : preserves f (to_int s).
Proof. unfold to_int. destruct (Py.int s); intros ?; reflexivity. Qed.
End Frames.

Lemma bind_return {S A B} (m : M S A) (k : A -> M S B) s a s' :
  m s = (Return a, s') -> bind m k s = k a s'.
Proof. intros H. unfold bind. rewrite H. reflexivity. Qed.

Lemma bind_raise {S A B} (m : M S A) (k : A -> M S B) s e s' :
  m s = (Raise e, s') -> bind m k s = (Raise e, s').
Proof. intros H. unfold bind. rewrite H. reflexivity. Qed.

(** ** The mirror clock *)

Lemma tick_fields (c : MC.t) :
  (MC._hour (MC.__tick c), MC._minute (MC.__tick c), MC._second (MC.__tick c))
  = MC.carry (MC._hour c) (MC._minute c) (MC._second c).
Proof.
  unfold MC.__tick.
  destruct (MC.carry (MC._hour c) (MC._minute c) (MC._second c)) as [[h m] s].
  reflexivity.
Qed.

Lemma tick_publishes (c : MC.t) : MC._clock (MC.__tick c) = MC.time (MC.__tick c).
Proof.
  unfold MC.time, MC.__tick.
  destruct (MC.carry (MC._hour c) (MC._minute c) (MC._second c)) as [[h m] s].
  reflexivity.
Qed.

Lemma tick_arms (c : MC.t) : MC.ticking (MC.__tick c) = true.
Proof.
  unfold MC.ticking, MC.__tick.
  destruct (MC.carry (MC._hour c) (MC._minute c) (MC._second c)) as [[h m] s].
  simpl. unfold Tk.armed. simpl. apply bool_decide_eq_true.
  apply elem_of_app. right. apply list_elem_of_singleton. reflexivity.
Qed.

Lemma carry_spec (h m s : Z) :
  0 <= h <= 23 -> 0 <= m <= 59 -> 0 <= s <= 59 ->
  let '(h', m', s') := MC.carry h m s in
  0 <= h' <= 23 /\ 0 <= m' <= 59 /\ 0 <= s' <= 59
  /\ 3600 * h' + 60 * m' + s' = (3600 * h + 60 * m + s + 1) mod 86400.
Proof.
  intros Hh Hm Hs. unfold MC.carry.
  destruct (Z.gtb_spec (s + 1) 59);
    [destruct (Z.gtb_spec (m + 1) 59); [destruct (Z.gtb_spec (h + 1) 23)|]|];
    cbv zeta iota beta.
  - replace (3600 * h + 60 * m + s + 1) with (1 * 86400) by lia.
    rewrite Z.mod_mul by lia. lia.
  - rewrite Z.mod_small by lia. lia.
  - rewrite Z.mod_small by lia. lia.
  - rewrite Z.mod_small by lia. lia.
Qed.

(** C6.  From any clock whose hour is in 0..23 and whose minute and second
    are in 0..59, one [__tick] leaves the three fields in range and
    advances the time of day by exactly one second modulo 24 hours (the
    second carries into the minute, the minute into the hour, the hour
    wraps after 23); the string pushed to the display is the new time.
    After [time = "23:59:59"], whatever the clock held before, one tick
    shows ["00:00:00"]. *)
Theorem tick_carry (c : MC.t) (H : MC.in_range c) :
  MC.in_range (MC.__tick c)
  /\ secs (MC.__tick c) = (secs c + 1) mod 86400
  /\ MC._clock (MC.__tick c) = MC.time (MC.__tick c)
  /\ (forall c0 : MC.t,
        MC.time (MC.__tick (final (MC.time_set "23:59:59" c0))) = "00:00:00").
Proof.
  destruct H as (Hh & Hm & Hs).
  pose proof (carry_spec _ _ _ Hh Hm Hs) as Hc.
  pose proof (tick_fields c) as Hf.
  destruct (MC.carry (MC._hour c) (MC._minute c) (MC._second c)) as [[h m] s].
  injection Hf as Eh Em Es.
  unfold MC.in_range, secs. rewrite Eh, Em, Es.
  destruct Hc as (? & ? & ? & ?).
  split; [lia|]. split; [lia|]. split.
  - apply tick_publishes.
  - intros c0. reflexivity.
Qed.

(** The timer armed by the setter runs the tick when it expires. *)
Example tick_by_timer :
  MC._job (final (MC.time_set "23:59:59" clock0)) = Some 0%nat
  /\ MC.time (MC.expire 0 (final (MC.time_set "23:59:59" clock0))) = "00:00:00"
  /\ MC.ticking (MC.expire 0 (final (MC.time_set "23:59:59" clock0))) = true.
Proof. vm_compute. auto. Qed.

Lemma tick_carry_witness :
  let c := final (MC.time_set "23:59:59" clock0) in
  MC.in_range c /\ MC.in_range (MC.__tick c)
  /\ secs (MC.__tick c) = 0 /\ MC._clock (MC.__tick c) = "00:00:00".
Proof.
  intros c.
  assert (H : MC.in_range c) by (vm_compute; intuition discriminate).
  destruct (tick_carry c H) as (Hr & Hs & Hp & _).
  split; [exact H|]. split; [exact Hr|]. split.
  - rewrite Hs. reflexivity.
  - reflexivity.
Defined.

Lemma cancel_job_stops (c : MC.t) : MC.ticking (MC.cancel_job c) = false.
Proof.
  unfold MC.ticking, MC.cancel_job.
  destruct (MC._job c) as [j|] eqn:E; simpl; rewrite ?E; [|reflexivity].
  unfold Tk.armed, Tk.after_cancel. simpl.
  apply bool_decide_eq_false. intros Hin.
  apply list_elem_of_filter in Hin. destruct Hin as [Hne _]. congruence.
Qed.

Lemma cancel_job_fields (c : MC.t) :
  MC._hour (MC.cancel_job c) = MC._hour c
  /\ MC._minute (MC.cancel_job c) = MC._minute c
  /\ MC._second (MC.cancel_job c) = MC._second c.
Proof. unfold MC.cancel_job. destruct (MC._job c); simpl; auto. Qed.

(** A string with other than three fields is turned away after the timer
    has been cancelled. *)
Lemma time_set_rejects (c : MC.t) (data : string) :
  List.length (Py.split ":" data) <> 3%nat ->
  MC.time_set data c = (Return (PInt (-1)), MC.cancel_job c).
Proof.
  intros H. unfold MC.time_set, bind, modify.
  destruct (Py.split ":" data) as [|a [|b [|d [|e l]]]]; try reflexivity.
  simpl in H. congruence.
Qed.

(** Three fields that are not all integers: [int] raises out of the
    setter, again after the timer has been cancelled. *)
Example time_set_not_integers :
  result (MC.time_set "12:34:xx" running) = Raise ValueError
  /\ MC.time (final (MC.time_set "12:34:xx" running)) = "12:34:56"
  /\ MC.ticking (final (MC.time_set "12:34:xx" running)) = false.
Proof. vm_compute. auto. Qed.

(** The timer the clock remembered does not run the tick any more. *)
Lemma cancel_job_expire (c : MC.t) (j : nat) :
  MC._job c = Some j -> MC.expire j (MC.cancel_job c) = MC.cancel_job c.
Proof.
  intros E. pose proof (cancel_job_stops c) as H.
  unfold MC.ticking, MC.cancel_job in *. rewrite E in *. simpl in H.
  unfold MC.expire. simpl. rewrite H. reflexivity.
Qed.

(** C3 (what the code does).  On a ticking clock, writing a string that
    does not split into three fields at the colons is answered with [-1]
    and keeps hour, minute and second, but the pending timer has been
    cancelled before the string was looked at and none is armed in its
    place: the clock no longer ticks, and the timer it had armed does
    nothing when its time comes. *)
Theorem time_set_malformed_stops_clock (c : MC.t) (data : string)
    (Hrun : MC.ticking c = true)
    (Hbad : List.length (Py.split ":" data) <> 3%nat) :
  let r := MC.time_set data c in
  result r = Return (PInt (-1))
  /\ MC.time (final r) = MC.time c
  /\ MC.ticking (final r) = false
  /\ (forall j, MC._job c = Some j -> MC.expire j (final r) = final r).
Proof.
  cbv zeta. rewrite (time_set_rejects c data Hbad). unfold result, final.
  cbn [fst snd]. split; [reflexivity|]. split; [|split].
  - unfold MC.time.
    destruct (cancel_job_fields c) as (-> & -> & ->). reflexivity.
  - apply cancel_job_stops.
  - apply cancel_job_expire.
Qed.

Lemma time_set_malformed_witness :
  MC.ticking running = true
  /\ result (MC.time_set "bad" running) = Return (PInt (-1))
  /\ MC.time (final (MC.time_set "bad" running)) = "12:34:56"
  /\ MC.ticking (final (MC.time_set "bad" running)) = false.
Proof.
  assert (Hrun : MC.ticking running = true) by (vm_compute; reflexivity).
  assert (Hbad : List.length (Py.split ":" "bad") <> 3%nat)
    by (vm_compute; discriminate).
  destruct (time_set_malformed_stops_clock running "bad" Hrun Hbad)
    as (Hr & Ht & Hk & _).
  split; [exact Hrun|]. split; [exact Hr|]. split; [exact Ht|exact Hk].
Defined.

(** ** The frequency register *)

Lemma sendPort_fq (cmd_ data_ : string) : preserves fq (sendPort cmd_ data_).
Proof.
  unfold sendPort. apply preserves_bind; [|intros _];
    apply preserves_zoom; reflexivity.
Qed.

(** The register after [addFQ], whether or not the port and the display
    took the new digits. *)
Lemma addFQ_fq (add : Z) (c : t) :
  fq (final (addFQ add c))
  = if fq c + add >? 100000000000 then fq c + add - 100000000000
    else fq c + add.
Proof.
  unfold addFQ.
  set (t := if fq c + add >? 100000000000 then _ else _).
  change (fq (final (bind (sendPort "DGF" ("S " +:+ Py.format_0d 12 t))
                       (fun _ => in_view (View.setFQ (Py.format_0d 12 t)))
                       (set_fq t c))) = t).
  rewrite (preserves_bind fq); [reflexivity | apply sendPort_fq |].
  intros _. apply preserves_zoom. reflexivity.
Qed.

Lemma subFQ_fq (sub : Z) (c : t) :
  fq (final (subFQ sub c)) = if fq c - sub <? 0 then 1 else fq c - sub.
Proof.
  unfold subFQ.
  set (t := if fq c - sub <? 0 then _ else _).
  change (fq (final (bind (sendPort "DGF" ("S " +:+ Py.format_0d 12 t))
                       (fun _ => in_view (View.setFQ (Py.format_0d 12 t)))
                       (set_fq t c))) = t).
  rewrite (preserves_bind fq); [reflexivity | apply sendPort_fq |].
  intros _. apply preserves_zoom. reflexivity.
Qed.

(** [addFQ] with a digit amount keeps the register in range. *)
Lemma addFQ_range (c : t) (add : Z) :
  fq_ok (fq c) -> In add digit_amounts -> fq_ok (fq (final (addFQ add c))).
Proof.
  unfold fq_ok. intros Hc Hin. rewrite addFQ_fq.
  assert (1 <= add <= 10000000000)
    by (simpl in Hin; repeat destruct Hin as [<- | Hin]; try lia; contradiction).
  destruct (Z.gtb_spec (fq c + add) 100000000000); lia.
Qed.

(** [subFQ] never leaves the register negative, and leaves it at zero
    exactly when the amount equals the value. *)
Lemma subFQ_zero (c : t) (sub : Z) :
  fq (final (subFQ sub c)) = 0 <-> fq c = sub.
Proof.
  rewrite subFQ_fq. destruct (Z.ltb_spec (fq c - sub) 0); lia.
Qed.

(** Apart from that case [subFQ] keeps the register in range. *)
Lemma subFQ_range (c : t) (sub : Z) :
  fq_ok (fq c) -> 0 <= sub -> fq c <> sub -> fq_ok (fq (final (subFQ sub c))).
Proof.
  unfold fq_ok. intros Hc Hs Hne. rewrite subFQ_fq.
  destruct (Z.ltb_spec (fq c - sub) 0); lia.
Qed.

(** C1 (what the code does).  The controller starts with the register at
    100000000, a value in range; the minus button of the 1 MHz digit
    takes exactly that amount off.  The difference is 0, the guard
    [t < 0] of [subFQ] does not fire, and 0 is stored, sent to the device
    and shown. *)
Theorem subFQ_reaches_zero :
  fq_ok (fq (controller0 []))
  /\ In 100000000 digit_amounts
  /\ down1M = subFQ 100000000
  /\ result (down1M (controller0 [])) = Return tt
  /\ fq (final (down1M (controller0 []))) = 0
  /\ ~ fq_ok (fq (final (down1M (controller0 []))))
  /\ sent (final (down1M (controller0 []))) = ["[DGF] S 000000000000" +:+ CRLF].
Proof.
  split; [unfold fq_ok; simpl; lia|].
  split; [simpl; auto 10|].
  split; [reflexivity|].
  split; [vm_compute; reflexivity|].
  assert (E : fq (final (down1M (controller0 []))) = 0)
    by (apply subFQ_zero; reflexivity).
  split; [exact E|].
  split; [rewrite E; unfold fq_ok; lia|].
  vm_compute. reflexivity.
Qed.



(** ** Handlers on payloads they do not expect *)

(** C4 (what the code does).  In every state of the controller, a frame
    with an empty payload makes the handler of [CCM] raise [NameError]
    (its guard for the empty payload calls [sendport], which does not
    exist) and the handler of [OSM] raise [IndexError] (it reads
    [data[0]] unguarded); so do those of [OLC], [OPW], [GLC] and [TON],
    that of [OBD] raises [ValueError] and that of [FLP] [NameError].
    The exception leaves [handleMessage], and no query has been sent. *)
Theorem handlers_raise_on_empty_payload (c : t) :
  result (handleCCM "" c) = Raise (NameError "sendport")
  /\ result (handleOSM "" c) = Raise IndexError
  /\ result (handleMessage "{CCM}" c) = Raise (NameError "sendport")
  /\ result (handleMessage "{OSM}" c) = Raise IndexError
  /\ result (handleMessage "{OLC}" c) = Raise IndexError
  /\ result (handleMessage "{OPW}" c) = Raise IndexError
  /\ result (handleMessage "{GLC}" c) = Raise IndexError
  /\ result (handleMessage "{TON}" c) = Raise IndexError
  /\ result (handleMessage "{OBD}" c) = Raise ValueError
  /\ result (handleMessage "{FLP}" c) = Raise (NameError "band")
  /\ sent (final (handleMessage "{CCM}" c)) = sent c
  /\ sent (final (handleMessage "{OSM}" c)) = sent c.
Proof. repeat split; reflexivity. Qed.

(** ** The debug pane *)

Lemma no_sendPortRaw : model_methods !! "sendPortRaw" = None.
Proof. reflexivity. Qed.

Lemma sendPort_is_a_method :
  exists method, model_methods !! "sendPort" = Some method.
Proof. eexists. reflexivity. Qed.

(** What [sendPort] does with an empty command: the data as they are. *)
Lemma sendPort_raw (d : string) (l : list Serial.event) :
  sent (final (sendPort "" d (controller0 l))) = [d].
Proof.
  unfold sendPort, bind, in_view, in_model, zoom, View.traceInsert. simpl.
  destruct (0 <? String.length d)%nat; reflexivity.
Qed.

(** C10 (what the code does).  In every state of the controller the Send
    action of the debug pane raises [AttributeError]: it calls
    [sendPortRaw] on the model, and a model has no attribute of that
    name.  Nothing is written to the port. *)
Theorem sendPressed_raises (c : t) :
  result (sendPressed c) = Raise (AttributeError "sendPortRaw")
  /\ sent (final (sendPressed c)) = sent c.
Proof. split; reflexivity. Qed.

(** ** Strings *)

Lemma append_nil_r (s : string) : s +:+ "" = s.
Proof.
  induction s as [|a s IH]; [reflexivity|].
  change (String a (s +:+ "") = String a s). f_equal. exact IH.
Qed.

Lemma append_assoc (s1 s2 s3 : string) : (s1 +:+ s2) +:+ s3 = s1 +:+ (s2 +:+ s3).
Proof.
  induction s1 as [|a s1 IH]; [reflexivity|].
  change (String a ((s1 +:+ s2) +:+ s3) = String a (s1 +:+ s2 +:+ s3)).
  f_equal. exact IH.
Qed.

Lemma substring_all (s : string) : String.substring 0 (String.length s) s = s.
Proof. induction s as [|a s IH]; [reflexivity|]. simpl. f_equal. exact IH. Qed.

Lemma from_0 (s : string) : Py.from 0 s = s.
Proof. unfold Py.from. rewrite Nat.sub_0_r. apply substring_all. Qed.

(** ** Decoding and dispatch *)

Lemma handleMessage_long (m : string) (c : t) :
  (5 <= String.length m)%nat ->
  handleMessage m c
  = dispatch (opcode_of m) (payload_of m) (unknown_diag m) (decoded m c).
Proof.
  intros H.
  destruct m as [|a0 [|a1 [|a2 [|a3 [|a4 r]]]]]; simpl in H; try lia.
  unfold handleMessage, dispatch, decoded, known, framed, opcode_of,
    payload_of, unknown_diag.
  generalize handlers. intros tbl.
  destruct r as [|a5 r'];
    unfold bind, modify, gets, ret, stderr_write, raise, item;
    cbn -[lookup String.append];
    destruct (Ascii.eqb a0 "{"); destruct (Ascii.eqb a4 "}");
    try destruct (Ascii.eqb a5 " ");
    cbn -[lookup String.append];
    destruct (tbl !! String a1 (String a2 (String a3 ""))) eqn:E;
    cbn -[lookup String.append]; rewrite ?E; reflexivity.
Qed.

Lemma handleMessage_short (m : string) (c : t) :
  (String.length m < 5)%nat ->
  handleMessage m c
  = (Return PNone, set_stderr (stderr c ++ ["Short message: " +:+ m]) c).
Proof.
  intros H. unfold handleMessage.
  destruct (Nat.ltb_spec (String.length m) 5); [reflexivity | lia].
Qed.





(** ** Lines on the wire *)

Lemma read_loop_eq (k : Z) (b : string) (l : list Serial.event) :
  Model.read_loop k b l
  = if k <? 1000000 then
      match l with
      | [] => (Return b, [])
      | Serial.Quiet :: l' => Model.read_loop (k + 1) b l'
      | Serial.Byte ch :: l' =>
          if (128 <=? nat_of_ascii ch)%nat then (Raise UnicodeDecodeError, l')
          else if Ascii.eqb ch Model.CR || Ascii.eqb ch Model.LF
               then (Return b, l')
               else Model.read_loop (k + 1) (b +:+ Py.str ch) l'
      end
    else (Return b, l).
Proof. destruct l; reflexivity. Qed.

Lemma read_loop_line (l : string) (k : Z) (b : string) (rest : list Serial.event) :
  all_plain l = true ->
  k + Z.of_nat (String.length l) < 1000000 ->
  Model.read_loop k b (Serial.bytes l ++ Serial.Byte Model.CR :: rest)
  = (Return (b +:+ l), rest).
Proof.
  revert k b. induction l as [|ch l IH]; intros k b Hp Hk.
  - rewrite read_loop_eq. simpl in *.
    destruct (Z.ltb_spec k 1000000); [|lia]. rewrite append_nil_r. reflexivity.
  - rewrite read_loop_eq. simpl in Hp. apply andb_prop in Hp as [Hc Hp].
    unfold plain in Hc. apply andb_prop in Hc as [Hc Hlf].
    apply andb_prop in Hc as [H7 Hcr].
    change (String.length (String ch l)) with (S (String.length l)) in Hk.
    destruct (Z.ltb_spec k 1000000); [|lia].
    change (Serial.bytes (String ch l) ++ Serial.Byte Model.CR :: rest)
      with (Serial.Byte ch :: (Serial.bytes l ++ Serial.Byte Model.CR :: rest)).
    cbv iota beta.
    destruct (Nat.leb_spec 128 (nat_of_ascii ch)).
    { apply Nat.ltb_lt in H7. lia. }
    apply negb_true_iff in Hcr, Hlf. rewrite Hcr, Hlf. cbn [orb].
    rewrite IH by (auto; lia).
    rewrite append_assoc. reflexivity.
Qed.

Lemma buffered_pos (ch : ascii) (l : list Serial.event) :
  1 <= Serial.buffered (Serial.Byte ch :: l).
Proof.
  assert (forall l', 0 <= Serial.buffered l').
  { induction l' as [|[?|] l' IH]; simpl; lia. }
  change (1 <= 1 + Serial.buffered l). specialize (H l). lia.
Qed.

Lemma line_head (l : string) (rest : list Serial.event) :
  exists ch l', Serial.line l ++ rest = Serial.Byte ch :: l'.
Proof. destruct l; simpl; eauto. Qed.

(** A complete line in the buffer of an open port is read whole; it is
    handed on, less trailing blanks, when it begins with a brace. *)
Lemma readPort_line (name : string) (ss : list string) (out : list string)
    (l : string) (rest : list Serial.event) :
  String.eqb name "None" = false ->
  all_plain l = true ->
  Z.of_nat (String.length l) < 1000000 ->
  Model.readPort
    {| Model._serialPort := name; Model._serials := ss;
       Model._fd := Some {| Serial.rx := Serial.line l ++ rest;
                            Serial.tx := out |} |}
  = (Return (if begins_brace l then Py.rstrip l else ""),
     {| Model._serialPort := name; Model._serials := ss;
        Model._fd := Some {| Serial.rx := rest; Serial.tx := out |} |}).
Proof.
  intros Hname Hp Hlen.
  unfold Model.readPort, bind, gets. cbn [Model._serialPort]. rewrite Hname.
  unfold Model.fd at 1. cbn [Model._fd]. unfold Serial.in_waiting.
  cbn [Serial.rx].
  destruct (line_head l rest) as (ch & l' & E). rewrite E.
  pose proof (buffered_pos ch l') as Hb.
  destruct (Z.ltb_spec (Serial.buffered (Serial.Byte ch :: l')) 1); [lia|].
  unfold Model.fd, Model.set_fd, Model.read_line.
  cbn [Model._fd Serial.rx Model._serialPort Model._serials].
  rewrite <- E. unfold Serial.line. rewrite <- app_assoc.
  change ([Serial.Byte "013"%char] ++ rest) with (Serial.Byte Model.CR :: rest).
  rewrite read_loop_line by (auto; lia).
  change ("" +:+ l) with l.
  destruct l as [|a l0]; [reflexivity|].
  cbn [String.length Nat.ltb Nat.leb begins_brace].
  assert (Hs : Py.slice 0 1 (String a l0) = String a "")
    by (unfold Py.slice; simpl; destruct l0; reflexivity).
  rewrite Hs. cbn [String.eqb]. destruct (Ascii.eqb a "{"); reflexivity.
Qed.

Lemma payload_of_tail (a0 a1 a2 a3 a4 : ascii) (tail : string) :
  payload_of (String a0 (String a1 (String a2 (String a3 (String a4 tail)))))
  = strip_sep tail.
Proof.
  unfold payload_of, strip_sep, Py.index, Py.from.
  cbn [String.get Nat.sub String.length].
  destruct tail as [|y p]; [reflexivity|]. cbn [String.get].
  destruct (Ascii.eqb_spec y " ") as [->|Hy].
  - cbn [String.substring String.length Nat.sub]. rewrite Nat.sub_0_r.
    apply substring_all.
  - cbn [String.substring String.length Nat.sub].
    rewrite substring_all.
    destruct y as [[] [] [] [] [] [] [] []]; try reflexivity. contradiction Hy.
    reflexivity.
Qed.




(** ** What the handlers leave alone *)

Lemma sendPort_link (cmd_ data_ : string) : preserves link (sendPort cmd_ data_).
Proof.
  unfold sendPort. apply preserves_bind; [apply preserves_zoom; reflexivity|].
  intros _ s. unfold in_model, zoom, Model.fd, final, link.
  destruct (Model._fd (model s)) eqn:E; simpl; rewrite ?E; reflexivity.
Qed.

Ltac frame :=
  repeat first
    [ apply preserves_ret
    | apply preserves_raise
    | apply preserves_gets
    | apply preserves_item
    | apply preserves_to_int
    | apply sendPort_link
    | apply preserves_zoom; reflexivity
    | apply preserves_modify; intros; reflexivity
    | apply preserves_bind; [|intros]
    | match goal with
      | |- preserves _ (if ?b then _ else _) => destruct b
      end ].

Lemma handlers_link (opcode : string) (handler : string -> M t pyval) :
  handlers !! opcode = Some handler ->
  forall payload, preserves link (handler payload).
Proof.
  intros H payload. unfold handlers in H.
  apply elem_of_list_to_map_2 in H.
  repeat (apply elem_of_cons in H as [H | H];
          [injection H as _ ->;
           match goal with |- preserves _ (?h _) => unfold h end;
           cbv zeta; unfold setPortStatus; frame |]).
  all: try (apply elem_of_nil in H; contradiction).
Qed.

Lemma decoded_link (m : string) (c : t) : link (decoded m c) = link c.
Proof. unfold decoded. destruct (framed m); reflexivity. Qed.

Lemma handleMessage_link (m : string) : preserves link (handleMessage m).
Proof.
  intros c. destruct (le_lt_dec 5 (String.length m)) as [H | H].
  - rewrite handleMessage_long by exact H. unfold dispatch.
    destruct (handlers !! opcode_of m) as [handler|] eqn:E.
    + rewrite (preserves_bind link);
        [apply decoded_link | |intros; apply preserves_ret].
      apply (handlers_link _ _ E).
    + apply (decoded_link m c).
  - rewrite handleMessage_short by exact H. reflexivity.
Qed.

(** ** One pass of the wait *)

Lemma listening_link (c c' : t) (l : list Serial.event) :
  link c' = link c -> listening c l -> listening c' l.
Proof.
  unfold link, listening. intros H [H1 H2].
  injection H as _ _ Hn Hr. rewrite Hn, Hr. auto.
Qed.

Lemma wait_body_read (c : t) (m : string) (rest : list Serial.event) :
  Model.readPort (model c) = (Return m, model (with_ahead rest c)) ->
  wait_body c = consider m (arrive m rest c).
Proof.
  intros H. unfold wait_body, arrive, consider.
  unfold bind at 1. unfold in_model at 1, zoom. rewrite H.
  change (set_model (model (with_ahead rest c)) c) with (with_ahead rest c).
  unfold bind, modify, gets, in_view, zoom, final, View.traceInsert, View.var_set.
  cbn [snd fst].
  destruct (0 <? String.length m)%nat; reflexivity.
Qed.

Lemma arrive_link (m : string) (rest : list Serial.event) (c : t) :
  link (arrive m rest c) = link (with_ahead rest c).
Proof.
  unfold arrive.
  rewrite (preserves_bind link);
    [reflexivity | apply preserves_modify; reflexivity |].
  intros _. apply preserves_bind; [apply preserves_modify; reflexivity|].
  intros _. apply preserves_bind; [apply preserves_zoom; reflexivity|].
  intros _. apply preserves_bind; [apply preserves_gets|].
  intros n. apply preserves_zoom; reflexivity.
Qed.

Lemma arrive_listening (m : string) (l rest : list Serial.event) (c : t) :
  listening c l -> listening (arrive m rest c) rest.
Proof.
  intros [H1 H2]. apply (listening_link (with_ahead rest c)); [apply arrive_link|].
  unfold listening, with_ahead. simpl. split; [exact H1|].
  destruct (Model._fd (model c)); [reflexivity | discriminate].
Qed.

Lemma arrive_count (m : string) (rest : list Serial.event) (c : t) :
  count (arrive m rest c) = count c /\ cmd (arrive m rest c) = cmd c.
Proof.
  pose proof (arrive_link m rest c) as H. unfold link in H.
  injection H as Hc Hn _ _. auto.
Qed.


(** Nothing more will come: the same, and the port stays as it is. *)
Lemma wait_body_silent (c : t) :
  listening c [] -> wait_body c = (Return false, arrive "" [] c).
Proof.
  intros [H1 H2]. rewrite (wait_body_read c "" []); [reflexivity|].
  unfold with_ahead. destruct (model c) as [name ss [[rx tx]|]]; [|discriminate].
  simpl in *. injection H2 as ->.
  unfold Model.readPort, bind, gets. simpl. rewrite H1. reflexivity.
Qed.


Lemma wait_reply_eq (fuel : nat) (c : t) :
  wait_reply fuel c
  = if count c <? 100 then
      match fuel with
      | O => None
      | S fuel' =>
          match wait_body c with
          | (Return true, c') => Some (Return tt, c')
          | (Return false, c') => wait_reply fuel' c'
          | (Raise e, c') => Some (Raise e, c')
          end
      end
    else Some (Return tt, c).
Proof. destruct fuel; reflexivity. Qed.




(** ** The transport as a supply of lines *)




(** ** The resync routine *)

Lemma traceInsert_returns (m : string) (v : View.t) :
  result (View.traceInsert m v) = Return tt.
Proof.
  unfold View.traceInsert. destruct (0 <? String.length m)%nat; reflexivity.
Qed.

(** With the port open, the query of one turn goes out as one tagged
    command and the count starts at zero. *)
Lemma query_open (opcode : string) (c : t) (l : list Serial.event) :
  listening c l ->
  let c1 := final (query opcode c) in
  query opcode c = (Return tt, c1)
  /\ cmd c1 = opcode /\ count c1 = 0 /\ listening c1 l
  /\ ((0 < String.length opcode)%nat ->
      sent c1 = sent c ++ ["[" +:+ opcode +:+ "] G" +:+ CRLF]).
Proof.
  intros [H1 H2]. unfold listening, sent.
  destruct c as [v [name ss [[rx tx]|]] sa f rc d rs rn cm ct ms se];
    [|discriminate].
  simpl in H1, H2. injection H2 as ->.
  unfold query, sendPort, bind, modify, in_view, in_model, zoom, Model.fd,
    Serial.write, final.
  cbn -[String.append View.traceInsert Nat.ltb].
  match goal with
  | |- context [View.traceInsert ?b v] =>
      pose proof (traceInsert_returns b v) as Ht;
      destruct (View.traceInsert b v) as [[[]|e] v']; [|discriminate Ht]
  end.
  cbn -[String.append Nat.ltb].
  split; [reflexivity|]. split; [reflexivity|]. split; [reflexivity|].
  split; [split; [exact H1 | reflexivity]|].
  intros Hl. apply Nat.ltb_lt in Hl. rewrite Hl.
  rewrite !append_assoc. reflexivity.
Qed.


(** On a port that stays silent a wait never ends. *)
Lemma wait_reply_silent (fuel : nat) :
  forall c, listening c [] -> count c < 100 -> wait_reply fuel c = None.
Proof.
  induction fuel as [|fuel IH]; intros c Hopen Hlt; rewrite wait_reply_eq;
    destruct (Z.ltb_spec (count c) 100); try lia; [reflexivity|].
  rewrite (wait_body_silent c Hopen).
  destruct (arrive_count "" [] c) as [Ec _].
  apply IH; [eapply arrive_listening; exact Hopen | lia].
Qed.










(** ** The routine on a live line *)

(** The query for the callsign is out; the device first pushes its GPS
    time and then answers.  The time reaches the mirror clock before the
    answer is recognised, and the wait ends with one line counted. *)
Example resync_gps_then_reply :
  let c0 := controller0 (Serial.line "{GTM} 12:34:56" ++ Serial.line "{DCS} W1AW") in
  match wait_reply 2 (final (query "DCS" c0)) with
  | Some (Return _, c) =>
      View.curtime (view c) = "12:34:56"
      /\ MC.ticking (View.mirror (view c)) = true
      /\ View.vars (view c) !! "call" = Some (PStr "W1AW")
      /\ count c = 1 /\ ahead c = []
      /\ sent c = ["[DCS] G" +:+ CRLF]
  | _ => False
  end.
Proof. vm_compute. repeat split; reflexivity. Qed.

(** The answer to the first query of the routine with an empty payload:
    the exception of the handler ends [updateStatus]. *)
Example resync_stopped_by_handler :
  option_map result (updateStatus 1 (controller0 (Serial.line "{CCM}")))
  = Some (Raise (NameError "sendport")).
Proof. vm_compute. reflexivity. Qed.

(** * Further properties *)

(** ** Decimal numerals *)

Lemma append_cons (a : ascii) (s1 s2 : string) :
  String a s1 +:+ s2 = String a (s1 +:+ s2).
Proof. reflexivity. Qed.

Lemma length_append (s1 s2 : string) :
  String.length (s1 +:+ s2) = (String.length s1 + String.length s2)%nat.
Proof.
  induction s1 as [|a s1 IH]; [reflexivity|].
  rewrite append_cons. simpl. rewrite IH. reflexivity.
Qed.

Lemma value_append (a : Z) (s1 s2 : string) :
  value a (s1 +:+ s2) = value (value a s1) s2.
Proof.
  revert a. induction s1 as [|c s1 IH]; intros a; [reflexivity|].
  rewrite append_cons. simpl. apply IH.
Qed.

Lemma all_digits_append (s1 s2 : string) :
  Py.all_digits (s1 +:+ s2) = Py.all_digits s1 && Py.all_digits s2.
Proof.
  induction s1 as [|c s1 IH]; [reflexivity|].
  rewrite append_cons. simpl. rewrite IH. apply andb_assoc.
Qed.

Lemma digit_char_ok (d : Z) :
  0 <= d <= 9 ->
  Py.is_digit (Py.digit_char d) = true /\ Py.digit_val (Py.digit_char d) = d.
Proof.
  intros H.
  assert (E : d = 0 \/ d = 1 \/ d = 2 \/ d = 3 \/ d = 4 \/ d = 5 \/ d = 6
              \/ d = 7 \/ d = 8 \/ d = 9) by lia.
  repeat destruct E as [-> | E]; try subst d; split; reflexivity.
Qed.

Lemma decimal_append (fuel : nat) (n : Z) (acc : string) :
  Py.decimal fuel n acc = Py.decimal fuel n "" +:+ acc.
Proof.
  revert n acc. induction fuel as [|fuel IH]; intros n acc; [reflexivity|].
  simpl. destruct (n / 10 =? 0); [reflexivity|].
  rewrite IH. rewrite (IH _ (String _ "")). rewrite append_assoc. reflexivity.
Qed.

(** The digits of [n]: all digits, as many as [n] needs, and worth [n]. *)
Lemma decimal_spec (fuel : nat) :
  forall n, 0 <= n < 10 ^ Z.of_nat (S fuel) ->
  let ds := Py.decimal (S fuel) n "" in
  Py.all_digits ds = true
  /\ (1 <= String.length ds <= S fuel)%nat
  /\ (forall a, value a ds = a * 10 ^ Z.of_nat (String.length ds) + n)
  /\ (String.length ds = 1%nat
      \/ 10 ^ (Z.of_nat (String.length ds) - 1) <= n).
Proof.
  induction fuel as [|fuel IH]; intros n Hn; cbv zeta;
    change (Py.decimal (S ?f) n "")
      with (if n / 10 =? 0 then String (Py.digit_char (n mod 10)) ""
            else Py.decimal f (n / 10) (String (Py.digit_char (n mod 10)) ""));
    (assert (Hd : 0 <= n mod 10 <= 9)
       by (pose proof (Z.mod_pos_bound n 10); lia));
    destruct (digit_char_ok _ Hd) as [Hi Hv];
    pose proof (Z.div_mod n 10 ltac:(lia)) as Hdm;
    (destruct (Z.eqb_spec (n / 10) 0) as [Hz | Hz];
     [ simpl; rewrite Hi;
       split; [reflexivity|]; split; [lia|]; split; [|left; reflexivity];
       intros a; rewrite Hv; change (10 ^ Z.of_nat 1) with 10; lia |]).
  - change (10 ^ Z.of_nat 1) with 10 in Hn.
    assert (n / 10 = 0) by (apply Z.div_small; lia). contradiction.
  - assert (Hq : 0 <= n / 10 < 10 ^ Z.of_nat (S fuel)).
    { split; [apply Z.div_pos; lia|].
      apply Z.div_lt_upper_bound; [lia|].
      rewrite (Nat2Z.inj_succ (S fuel)), Z.pow_succ_r in Hn by lia. lia. }
    destruct (IH _ Hq) as (Ha & Hl & Hval & Hlow).
    rewrite decimal_append.
    set (ds := Py.decimal (S fuel) (n / 10) "") in *.
    rewrite all_digits_append, length_append. simpl String.length.
    rewrite Ha. simpl. rewrite Hi.
    assert (El : Z.of_nat (String.length ds + 1)
                 = Z.of_nat (String.length ds) + 1) by lia.
    rewrite El. rewrite Z.pow_add_r by lia.
    split; [reflexivity|]. split; [lia|]. split.
    + intros a. rewrite value_append, Hval. simpl. rewrite Hv. lia.
    + right. replace (Z.of_nat (String.length ds) + 1 - 1)
        with (Z.of_nat (String.length ds)) by lia.
      destruct Hlow as [H1 | Hlow].
      * rewrite H1. change (10 ^ Z.of_nat 1) with 10. lia.
      * replace (Z.of_nat (String.length ds))
          with (Z.of_nat (String.length ds) - 1 + 1) by lia.
        rewrite Z.pow_add_r by lia. lia.
Qed.

Lemma repr_fuel (n : Z) : 0 <= n -> n < 10 ^ Z.of_nat (S (Z.to_nat (Z.log2 n))).
Proof.
  intros H. rewrite Nat2Z.inj_succ, Z2Nat.id by apply Z.log2_nonneg.
  destruct (Z.eq_dec n 0) as [-> | Hnz]; [reflexivity|].
  pose proof (Z.log2_spec n ltac:(lia)) as [_ Hlt].
  eapply Z.lt_le_trans; [exact Hlt|].
  apply Z.pow_le_mono_l. pose proof (Z.log2_nonneg n). lia.
Qed.

(** [repr] of a natural number. *)
Lemma repr_spec (n : Z) :
  0 <= n ->
  Py.all_digits (Py.repr n) = true
  /\ (1 <= String.length (Py.repr n))%nat
  /\ (forall a, value a (Py.repr n)
                = a * 10 ^ Z.of_nat (String.length (Py.repr n)) + n)
  /\ (forall w : nat, n < 10 ^ Z.of_nat w -> (1 <= w)%nat ->
        (String.length (Py.repr n) <= w)%nat).
Proof.
  intros H. unfold Py.repr.
  destruct (decimal_spec _ n (conj H (repr_fuel n H)))
    as (Ha & Hl & Hv & Hlow).
  split; [exact Ha|]. split; [lia|]. split; [exact Hv|].
  intros w Hw Hw1. destruct Hlow as [-> | Hlow]; [exact Hw1|].
  assert (Hlt : 10 ^ (Z.of_nat (String.length
                  (Py.decimal (S (Z.to_nat (Z.log2 n))) n "")) - 1)
                < 10 ^ Z.of_nat w) by lia.
  apply Z.pow_lt_mono_r_iff in Hlt; lia.
Qed.

Lemma zeros_spec (k : nat) :
  Py.all_digits (Py.zeros k) = true /\ String.length (Py.zeros k) = k
  /\ forall a, value a (Py.zeros k) = a * 10 ^ Z.of_nat k.
Proof.
  induction k as [|k (Ha & Hl & Hv)].
  - repeat split; intros; simpl; lia.
  - change (Py.zeros (S k)) with (String "0" (Py.zeros k)).
    cbn [Py.all_digits String.length value]. rewrite Ha, Hl.
    split; [reflexivity|]. split; [reflexivity|]. intros a.
    rewrite Hv. change (Py.digit_val "0") with 0.
    rewrite Nat2Z.inj_succ, Z.pow_succ_r by lia. lia.
Qed.

(** A natural number below [10 ^ w], formatted to width [w]: exactly [w]
    characters, all digits, worth the number. *)
Lemma format_0d_spec (w : nat) (n : Z) :
  0 <= n < 10 ^ Z.of_nat w -> (1 <= w)%nat ->
  Py.all_digits (Py.format_0d w n) = true
  /\ String.length (Py.format_0d w n) = w
  /\ value 0 (Py.format_0d w n) = n.
Proof.
  intros [H0 Hw] Hw1. unfold Py.format_0d.
  destruct (Z.ltb_spec n 0); [lia|].
  destruct (repr_spec n H0) as (Ha & Hl & Hv & Hb).
  specialize (Hb w Hw Hw1).
  destruct (zeros_spec (w - String.length (Py.repr n))) as (Za & Zl & Zv).
  rewrite all_digits_append, length_append, value_append, Ha, Za, Zl, Zv, Hv.
  split; [reflexivity|]. split; lia.
Qed.

(** Any natural number, formatted to any width: all digits, at least one,
    worth the number. *)
Lemma format_0d_nat (w : nat) (n : Z) :
  0 <= n ->
  Py.all_digits (Py.format_0d w n) = true
  /\ (1 <= String.length (Py.format_0d w n))%nat
  /\ value 0 (Py.format_0d w n) = n.
Proof.
  intros H0. unfold Py.format_0d.
  destruct (Z.ltb_spec n 0); [lia|].
  destruct (repr_spec n H0) as (Ha & Hl & Hv & _).
  destruct (zeros_spec (w - String.length (Py.repr n))) as (Za & Zl & Zv).
  rewrite all_digits_append, length_append, value_append, Ha, Za, Zv, Hv.
  split; [reflexivity|]. split; lia.
Qed.

Lemma digit_inv (c : ascii) :
  Py.is_digit c = true ->
  c = "0"%char \/ c = "1"%char \/ c = "2"%char \/ c = "3"%char
  \/ c = "4"%char \/ c = "5"%char \/ c = "6"%char \/ c = "7"%char
  \/ c = "8"%char \/ c = "9"%char.
Proof.
  destruct c as [[] [] [] [] [] [] [] []]; intros H; try discriminate H;
    auto 10.
Qed.

Lemma digits_value (s : string) :
  Py.all_digits s = true ->
  forall a p, Py.digits a p (String.append s "")
              = match s with
                | EmptyString => if p then Some a else None
                | _ => Some (value a s)
                end.
Proof.
  rewrite append_nil_r.
  induction s as [|c s IH]; intros H a p; [reflexivity|].
  simpl in H. apply andb_prop in H as [Hc Hs].
  simpl. rewrite Hc. rewrite (IH Hs). destruct s; reflexivity.
Qed.

Lemma digits_no_space (s : string) : Py.all_digits s = true -> no_space s = true.
Proof.
  induction s as [|c s IH]; intros H; [reflexivity|].
  simpl in H. apply andb_prop in H as [Hc Hs]. simpl. rewrite (IH Hs).
  destruct (digit_inv c Hc) as [-> | [-> | [-> | [-> | [-> | [-> | [-> | [-> | [-> | ->]]]]]]]]];
    reflexivity.
Qed.

Lemma rstrip_no_space (s : string) : no_space s = true -> Py.rstrip s = s.
Proof.
  induction s as [|c s IH]; intros H; [reflexivity|].
  simpl in H. apply andb_prop in H as [Hc Hs].
  simpl. rewrite (IH Hs). apply negb_true_iff in Hc. rewrite Hc.
  destruct s; reflexivity.
Qed.

Lemma strip_no_space (s : string) : no_space s = true -> Py.strip s = s.
Proof.
  intros H. unfold Py.strip.
  assert (Py.lstrip s = s) as ->.
  { destruct s as [|c s]; [reflexivity|]. simpl in *.
    apply andb_prop in H as [Hc _]. apply negb_true_iff in Hc.
    rewrite Hc. reflexivity. }
  apply rstrip_no_space. exact H.
Qed.

Lemma blank_is_space (c : ascii) : Py.is_blank c = true -> Py.is_space c = true.
Proof. destruct c as [[] [] [] [] [] [] [] []]; intros H; first [exact H | reflexivity]. Qed.

Lemma not_space_not_blank (c : ascii) :
  Py.is_space c = false -> Py.is_blank c = false.
Proof.
  intros H. destruct (Py.is_blank c) eqn:E; [|reflexivity].
  rewrite (blank_is_space c E) in H. discriminate H.
Qed.

Lemma rtrim_no_space (s : string) : no_space s = true -> Py.rtrim s = s.
Proof.
  induction s as [|c s IH]; intros H; [reflexivity|].
  simpl in H. apply andb_prop in H as [Hc Hs].
  simpl. rewrite (IH Hs). apply negb_true_iff in Hc.
  rewrite (not_space_not_blank c Hc).
  destruct s; reflexivity.
Qed.

Lemma trim_no_space (s : string) : no_space s = true -> Py.trim s = s.
Proof.
  intros H. unfold Py.trim.
  assert (Py.ltrim s = s) as ->.
  { destruct s as [|c s]; [reflexivity|]. simpl in *.
    apply andb_prop in H as [Hc _]. apply negb_true_iff in Hc.
    rewrite (not_space_not_blank c Hc). reflexivity. }
  apply rtrim_no_space. exact H.
Qed.

(** [int] of a string of digits. *)
Lemma int_digits (s : string) :
  Py.isdigit s = true -> Py.int s = Some (value 0 s).
Proof.
  intros H. destruct s as [|c s]; [discriminate|].
  unfold Py.isdigit in H. unfold Py.int.
  rewrite trim_no_space by (apply digits_no_space; exact H).
  pose proof (digits_value _ H 0 false) as Hd. rewrite append_nil_r in Hd.
  simpl in H. apply andb_prop in H as [Hc _].
  destruct (digit_inv c Hc) as [-> | [-> | [-> | [-> | [-> | [-> | [-> | [-> | [-> | ->]]]]]]]]];
    exact Hd.
Qed.

(** [int] of a minus sign and digits. *)
Lemma int_minus_digits (s : string) :
  Py.isdigit s = true -> Py.int (String "-" s) = Some (- value 0 s).
Proof.
  intros H. destruct s as [|c s]; [discriminate|].
  unfold Py.isdigit in H. unfold Py.int.
  rewrite trim_no_space
    by (change (no_space (String "-" (String c s)))
          with (negb (Py.is_space "-") && no_space (String c s));
        rewrite (digits_no_space _ H); reflexivity).
  pose proof (digits_value _ H 0 false) as Hd. rewrite append_nil_r in Hd.
  cbv iota beta. rewrite Hd. reflexivity.
Qed.

Lemma isdigit_all (s : string) :
  Py.all_digits s = true -> (1 <= String.length s)%nat -> Py.isdigit s = true.
Proof. destruct s; simpl; intros H Hl; [lia | exact H]. Qed.

(** Formatting a number and reading it back gives the number, whatever
    its sign and the width. *)
Lemma int_format_0d (w : nat) (n : Z) : Py.int (Py.format_0d w n) = Some n.
Proof.
  destruct (Z.le_gt_cases 0 n) as [H | H].
  - destruct (format_0d_nat w n H) as (Ha & Hl & Hv).
    rewrite int_digits by (apply isdigit_all; assumption).
    rewrite Hv. reflexivity.
  - destruct (format_0d_nat (w - 1) (- n) ltac:(lia)) as (Ha & Hl & Hv).
    unfold Py.format_0d in *.
    destruct (Z.ltb_spec n 0); [|lia]. destruct (Z.ltb_spec (- n) 0); [lia|].
    rewrite int_minus_digits by (apply isdigit_all; assumption).
    rewrite Hv. f_equal. lia.
Qed.

(** ** Sending *)

Lemma traceInsert_spec (m : string) (v : View.t) :
  View.traceInsert m v
  = (Return tt,
     if (0 <? String.length m)%nat then
       View.set_trace (View.trace v ++ [m])
         (if View.debug v then View.set_stdout (View.stdout v ++ [m]) v else v)
     else v).
Proof.
  unfold View.traceInsert. destruct (0 <? String.length m)%nat; [|reflexivity].
  unfold bind, modify. destruct (View.debug v); reflexivity.
Qed.

(** X1.  With the port open [sendPort] returns and writes one buffer: for
    a command, [[cmd] data] followed by CR LF; for the empty command, the
    data as they are, with nothing added.  The trace pane gets the same
    text without the line end, and the receive side is not touched. *)
Theorem sendPort_writes (cmd_ data_ : string) (c : t) (l : list Serial.event)
    (Hopen : option_map Serial.rx (Model._fd (model c)) = Some l) :
  let r := sendPort cmd_ data_ c in
  result r = Return tt
  /\ ((0 < String.length cmd_)%nat ->
      sent (final r) = sent c ++ ["[" +:+ cmd_ +:+ "] " +:+ data_ +:+ CRLF]
      /\ View.trace (view (final r))
         = View.trace (view c) ++ ["[" +:+ cmd_ +:+ "] " +:+ data_])
  /\ (cmd_ = "" ->
      sent (final r) = sent c ++ [data_]
      /\ View.trace (view (final r))
         = View.trace (view c) ++ (if (0 <? String.length data_)%nat
                                   then [data_] else []))
  /\ ahead (final r) = l.
Proof.
  unfold sent, ahead.
  destruct c as [v [name ss [[rx tx]|]] sa f rc d rs rn cm ct ms se];
    [|discriminate].
  simpl in Hopen. injection Hopen as ->.
  unfold sendPort, bind, in_view, in_model, zoom, Model.fd, Serial.write,
    modify, result, final.
  cbn -[String.append View.traceInsert Nat.ltb].
  rewrite traceInsert_spec. cbn -[String.append Nat.ltb].
  split; [reflexivity|]. split; [|split; [|reflexivity]].
  - intros Hl. apply Nat.ltb_lt in Hl. rewrite Hl.
    rewrite !append_assoc. split; [reflexivity|].
    change (0 <? String.length ("[" +:+ cmd_ +:+ "] " +:+ data_))%nat with true.
    cbv iota. destruct (View.debug v); reflexivity.
  - intros ->. cbn -[String.append Nat.ltb].
    change (0 <? 0)%nat with false. cbv iota. split; [reflexivity|].
    destruct (0 <? String.length data_)%nat; [|rewrite app_nil_r; reflexivity].
    destruct (View.debug v); reflexivity.
Qed.

Lemma sendPort_writes_witness :
  result (sendPort "OTP" "S 00120" (controller0 [])) = Return tt
  /\ sent (final (sendPort "OTP" "S 00120" (controller0 [])))
     = ["[OTP] S 00120" +:+ CRLF]
  /\ sent (final (sendPort "" "raw" (controller0 []))) = ["raw"].
Proof.
  assert (H : option_map Serial.rx (Model._fd (model (controller0 [])))
              = Some []) by reflexivity.
  destruct (sendPort_writes "OTP" "S 00120" (controller0 []) [] H)
    as (Hr & Ht & _).
  destruct (sendPort_writes "" "raw" (controller0 []) [] H) as (_ & _ & Hw & _).
  split; [exact Hr|]. split.
  - apply Ht. simpl. lia.
  - apply Hw. reflexivity.
Defined.

(** X2.  Before a port has been opened [sendPort] raises
    [AttributeError] at the write; by then the command is already in the
    trace pane, and nothing else has changed. *)
Theorem sendPort_without_port (cmd_ data_ : string) (c : t)
    (Hclosed : Model._fd (model c) = None) :
  let r := sendPort cmd_ data_ c in
  result r = Raise (AttributeError "write")
  /\ model (final r) = model c
  /\ View.trace (view (final r))
     = View.trace (view c)
       ++ (let shown := if (0 <? String.length cmd_)%nat
                        then "[" +:+ cmd_ +:+ "] " +:+ data_ else data_ in
           if (0 <? String.length shown)%nat then [shown] else [])
  /\ (fq (final r), sats (final r), stderr (final r))
     = (fq c, sats c, stderr c).
Proof.
  destruct c as [v [name ss fd] sa f rc d rs rn cm ct ms se].
  simpl in Hclosed. subst fd.
  unfold sendPort, bind, in_view, in_model, zoom, Model.fd, result, final.
  cbn -[String.append View.traceInsert Nat.ltb].
  rewrite traceInsert_spec. cbn -[String.append Nat.ltb].
  split; [reflexivity|]. split; [reflexivity|]. split; [|reflexivity].
  destruct (0 <? String.length _)%nat; [|rewrite app_nil_r; reflexivity].
  destruct (View.debug v); reflexivity.
Qed.

Lemma sendPort_without_port_witness :
  result (sendPort "CCM" "S W" unplugged) = Raise (AttributeError "write")
  /\ View.trace (view (final (sendPort "CCM" "S W" unplugged)))
     = ["[CCM] S W"].
Proof.
  assert (H : Model._fd (model unplugged) = None) by reflexivity.
  destruct (sendPort_without_port "CCM" "S W" unplugged H) as (Hr & _ & Ht & _).
  split; [exact Hr | exact Ht].
Defined.

(** ** Reading *)

Lemma all_plain_append (s1 s2 : string) :
  all_plain (s1 +:+ s2) = all_plain s1 && all_plain s2.
Proof.
  induction s1 as [|c s1 IH]; [reflexivity|].
  rewrite append_cons. simpl. rewrite IH. apply andb_assoc.
Qed.

Lemma rstrip_cons (c : ascii) (s : string) :
  Py.rstrip (String c s)
  = match Py.rstrip s with
    | EmptyString => if Py.is_space c then EmptyString else Py.str c
    | r => String c r
    end.
Proof. reflexivity. Qed.

Lemma rstrip_idem (s : string) : Py.rstrip (Py.rstrip s) = Py.rstrip s.
Proof.
  induction s as [|c s IH]; [reflexivity|].
  rewrite rstrip_cons. destruct (Py.rstrip s) as [|d r] eqn:E.
  - destruct (Py.is_space c) eqn:Ec; [reflexivity|].
    unfold Py.str. rewrite rstrip_cons. simpl. rewrite Ec. reflexivity.
  - rewrite rstrip_cons. rewrite IH. reflexivity.
Qed.

Lemma all_plain_rstrip (s : string) :
  all_plain s = true -> all_plain (Py.rstrip s) = true.
Proof.
  induction s as [|c s IH]; intros H; [reflexivity|].
  simpl in H. apply andb_prop in H as [Hc Hs]. rewrite rstrip_cons.
  specialize (IH Hs). destruct (Py.rstrip s) as [|d r].
  - destruct (Py.is_space c); [reflexivity|]. simpl. rewrite Hc. reflexivity.
  - change (all_plain (String c (String d r)))
      with (plain c && all_plain (String d r)).
    rewrite Hc, IH. reflexivity.
Qed.

Lemma begins_brace_rstrip (s : string) :
  begins_brace s = true -> begins_brace (Py.rstrip s) = true.
Proof.
  destruct s as [|c s]; [discriminate|]. intros H. simpl in H.
  apply Ascii.eqb_eq in H. subst c. rewrite rstrip_cons.
  destruct (Py.rstrip s); reflexivity.
Qed.

Lemma read_loop_plain (l : list Serial.event) :
  forall k b o l',
    all_plain b = true -> Model.read_loop k b l = (Return o, l') ->
    all_plain o = true.
Proof.
  induction l as [|[ch|] l IH]; intros k b o l' Hb H;
    rewrite read_loop_eq in H; destruct (k <? 1000000);
    try (injection H as <- _; exact Hb).
  - destruct (Nat.leb_spec 128 (nat_of_ascii ch)) as [|H7]; [discriminate|].
    destruct (Ascii.eqb ch Model.CR) eqn:Ecr;
      [injection H as <- _; exact Hb|].
    destruct (Ascii.eqb ch Model.LF) eqn:Elf;
      [injection H as <- _; exact Hb|].
    cbn [orb] in H. apply (IH _ _ _ _) in H; [exact H|].
    rewrite all_plain_append, Hb. simpl. unfold plain.
    rewrite Ecr, Elf. apply Nat.ltb_lt in H7. rewrite H7. reflexivity.
  - apply (IH _ _ _ _ Hb H).
Qed.

Lemma slice_first (c : ascii) (s : string) :
  Py.slice 0 1 (String c s) = String c "".
Proof. unfold Py.slice. simpl. destruct s; reflexivity. Qed.

(** X3.  Whatever the port delivers, a string that [readPort] returns is
    either empty or a line that begins with [{], holds only 7-bit
    characters and no line terminator, and has no blank at its end. *)
Theorem readPort_shape (m m' : Model.t) (s : string)
    (Hread : Model.readPort m = (Return s, m')) :
  s = ""
  \/ (begins_brace s = true /\ all_plain s = true /\ Py.rstrip s = s).
Proof.
  unfold Model.readPort, bind, gets in Hread.
  destruct (String.eqb (Model._serialPort m) "None");
    [injection Hread as <- _; left; reflexivity|].
  unfold Model.fd in Hread at 1.
  destruct (Model._fd m) as [sp|]; [|discriminate].
  destruct (Serial.in_waiting sp) as [[n|e] sp1]; [|discriminate].
  destruct (n <? 1); [injection Hread as <- _; left; reflexivity|].
  unfold Model.fd, Model.read_line in Hread. cbn [Model._fd Model.set_fd] in Hread.
  destruct (Model.read_loop 0 "" (Serial.rx sp1)) as [[b|e] l1] eqn:E;
    [|discriminate].
  apply read_loop_plain in E; [|reflexivity].
  destruct b as [|c b]; [injection Hread as <- _; left; reflexivity|].
  cbn [String.length Nat.ltb Nat.leb] in Hread.
  rewrite slice_first in Hread. cbn [String.eqb] in Hread.
  destruct (Ascii.eqb c "{") eqn:Ec; cbn [negb] in Hread;
    [|injection Hread as <- _; left; reflexivity].
  injection Hread as <- _. right.
  split; [apply (begins_brace_rstrip (String c b)); exact Ec|].
  split; [apply (all_plain_rstrip (String c b)); exact E
         | apply (rstrip_idem (String c b))].
Qed.

Lemma readPort_shape_witness :
  begins_brace "{GL4} JO65" = true /\ all_plain "{GL4} JO65" = true
  /\ Py.rstrip "{GL4} JO65" = "{GL4} JO65".
Proof.
  assert (H : Model.readPort (port (Serial.line "{GL4} JO65  "))
              = (Return "{GL4} JO65", port [])) by (vm_compute; reflexivity).
  destruct (readPort_shape _ _ _ H) as [H0 | H1]; [discriminate H0 | exact H1].
Defined.

Lemma read_loop_until (term : ascii) (l : string) :
  forall (k : Z) (b : string) (rest : list Serial.event),
    term = Model.CR \/ term = Model.LF ->
    all_plain l = true ->
    k + Z.of_nat (String.length l) < 1000000 ->
    Model.read_loop k b (Serial.bytes l ++ Serial.Byte term :: rest)
    = (Return (b +:+ l), rest).
Proof.
  induction l as [|ch l IH]; intros k b rest Ht Hp Hk.
  - rewrite read_loop_eq. simpl in *.
    destruct (Z.ltb_spec k 1000000); [|lia]. rewrite append_nil_r.
    destruct Ht as [-> | ->]; reflexivity.
  - rewrite read_loop_eq. simpl in Hp. apply andb_prop in Hp as [Hc Hp].
    unfold plain in Hc. apply andb_prop in Hc as [Hc Hlf].
    apply andb_prop in Hc as [H7 Hcr].
    change (String.length (String ch l)) with (S (String.length l)) in Hk.
    destruct (Z.ltb_spec k 1000000); [|lia].
    change (Serial.bytes (String ch l) ++ Serial.Byte term :: rest)
      with (Serial.Byte ch :: (Serial.bytes l ++ Serial.Byte term :: rest)).
    cbv iota beta.
    destruct (Nat.leb_spec 128 (nat_of_ascii ch)).
    { apply Nat.ltb_lt in H7. lia. }
    apply negb_true_iff in Hcr, Hlf. rewrite Hcr, Hlf. cbn [orb].
    rewrite IH by (auto; lia).
    rewrite append_assoc. reflexivity.
Qed.

Lemma bytes_head (l : string) (x : Serial.event) (rest : list Serial.event) :
  forall ch, x = Serial.Byte ch ->
  exists ch' l', Serial.bytes l ++ x :: rest = Serial.Byte ch' :: l'.
Proof. intros ch ->. destruct l; simpl; eauto. Qed.

(** What [readPort] does on an open port whose receive side begins
    with a byte: it runs the read loop and sifts the buffer. *)
Lemma readPort_reads (name : string) (ss out : list string) (ch : ascii)
    (l l1 : list Serial.event) (o : outcome string) :
  String.eqb name "None" = false ->
  Model.read_loop 0 "" (Serial.Byte ch :: l) = (o, l1) ->
  Model.readPort (model_on name ss out (Serial.Byte ch :: l))
  = (match o with
     | Return b => Return (as_read b)
     | Raise e => Raise e
     end, model_on name ss out l1).
Proof.
  intros Hname Hloop. unfold model_on.
  unfold Model.readPort, bind, gets. cbn [Model._serialPort]. rewrite Hname.
  unfold Model.fd at 1. cbn [Model._fd]. unfold Serial.in_waiting.
  cbn [Serial.rx].
  pose proof (buffered_pos ch l) as Hb.
  destruct (Z.ltb_spec (Serial.buffered (Serial.Byte ch :: l)) 1); [lia|].
  unfold Model.fd, Model.set_fd, Model.read_line.
  cbn [Model._fd Serial.rx Model._serialPort Model._serials].
  rewrite Hloop. destruct o as [b|e]; [|reflexivity].
  unfold as_read. destruct b as [|a b0]; [reflexivity|].
  cbn [String.length Nat.ltb Nat.leb begins_brace].
  rewrite slice_first. cbn [String.eqb].
  destruct (Ascii.eqb a "{"); reflexivity.
Qed.

(** X4.  A line is ended by a carriage return or by a line feed alike;
    the read stops there and leaves what follows.  A line ended by both
    is delivered by one call, and the call after it uses up the line
    feed and returns the empty string. *)
Theorem readPort_terminators (name : string) (ss out : list string)
    (l : string) (rest : list Serial.event)
    (Hopen : String.eqb name "None" = false)
    (Hline : line_ok l) :
  Model.readPort (model_on name ss out (line_with Model.CR l ++ rest))
  = (Return (as_read l), model_on name ss out rest)
  /\ Model.readPort (model_on name ss out (line_with Model.LF l ++ rest))
     = (Return (as_read l), model_on name ss out rest)
  /\ (a <- Model.readPort ;; b <- Model.readPort ;; ret (a, b))
       (model_on name ss out
          (Serial.bytes l ++ Serial.Byte Model.CR :: Serial.Byte Model.LF :: rest))
     = (Return (as_read l, ""), model_on name ss out rest).
Proof.
  destruct Hline as [Hp Hl].
  assert (Hone : forall term rest',
             term = Model.CR \/ term = Model.LF ->
             Model.readPort
               (model_on name ss out (Serial.bytes l ++ Serial.Byte term :: rest'))
             = (Return (as_read l), model_on name ss out rest')).
  { intros term rest' Ht.
    destruct (bytes_head l (Serial.Byte term) rest' term eq_refl)
      as (ch & l' & E).
    rewrite E.
    rewrite (readPort_reads name ss out ch l' rest' (Return l) Hopen);
      [reflexivity|].
    rewrite <- E. apply (read_loop_until term l 0 "" rest' Ht Hp). lia. }
  unfold line_with. rewrite <- !app_assoc.
  split; [apply Hone; auto|]. split; [apply Hone; auto|].
  unfold bind at 1. rewrite Hone by auto.
  unfold bind.
  rewrite (readPort_reads name ss out Model.LF rest rest (Return "") Hopen);
    [reflexivity|].
  rewrite read_loop_eq. reflexivity.
Qed.

Lemma readPort_terminators_witness :
  Model.readPort (port (line_with Model.LF "{TCC}" ++ [Serial.Quiet]))
  = (Return "{TCC}", port [Serial.Quiet])
  /\ (a <- Model.readPort ;; b <- Model.readPort ;; ret (a, b))
       (port (Serial.bytes "{TCC}"
              ++ Serial.Byte Model.CR :: Serial.Byte Model.LF :: []))
     = (Return ("{TCC}", ""), port []).
Proof.
  assert (Hn : String.eqb "/dev/ttyUSB0" "None" = false) by reflexivity.
  assert (Hl : line_ok "{TCC}") by (split; [reflexivity | simpl; lia]).
  destruct (readPort_terminators "/dev/ttyUSB0" ["/dev/ttyUSB0"] [] "{TCC}"
              [Serial.Quiet] Hn Hl) as (_ & H2 & _).
  destruct (readPort_terminators "/dev/ttyUSB0" ["/dev/ttyUSB0"] [] "{TCC}"
              [] Hn Hl) as (_ & _ & H3).
  split; [exact H2 | exact H3].
Defined.

Lemma read_loop_non_ascii (x : ascii) (l : string) :
  forall (k : Z) (b : string) (rest : list Serial.event),
    (128 <= nat_of_ascii x)%nat ->
    all_plain l = true ->
    k + Z.of_nat (String.length l) < 1000000 ->
    Model.read_loop k b (Serial.bytes l ++ Serial.Byte x :: rest)
    = (Raise UnicodeDecodeError, rest).
Proof.
  induction l as [|ch l IH]; intros k b rest Hx Hp Hk.
  - rewrite read_loop_eq. cbn [Serial.bytes app String.length] in *.
    destruct (Z.ltb_spec k 1000000); [|lia].
    destruct (Nat.leb_spec 128 (nat_of_ascii x)); [reflexivity | lia].
  - rewrite read_loop_eq. simpl in Hp. apply andb_prop in Hp as [Hc Hp].
    unfold plain in Hc. apply andb_prop in Hc as [Hc Hlf].
    apply andb_prop in Hc as [H7 Hcr].
    change (String.length (String ch l)) with (S (String.length l)) in Hk.
    destruct (Z.ltb_spec k 1000000); [|lia].
    change (Serial.bytes (String ch l) ++ Serial.Byte x :: rest)
      with (Serial.Byte ch :: (Serial.bytes l ++ Serial.Byte x :: rest)).
    cbv iota beta.
    destruct (Nat.leb_spec 128 (nat_of_ascii ch)).
    { apply Nat.ltb_lt in H7. lia. }
    apply negb_true_iff in Hcr, Hlf. rewrite Hcr, Hlf. cbn [orb].
    apply IH; auto. lia.
Qed.

(** X5.  A byte with the high bit set makes [readPort] raise
    [UnicodeDecodeError]; the bytes of the line read before it, and the
    byte itself, are gone from the port. *)
Theorem readPort_non_ascii (name : string) (ss out : list string)
    (l : string) (x : ascii) (rest : list Serial.event)
    (Hopen : String.eqb name "None" = false)
    (Hline : line_ok l)
    (Hx : (128 <= nat_of_ascii x)%nat) :
  Model.readPort
    (model_on name ss out (Serial.bytes l ++ Serial.Byte x :: rest))
  = (Raise UnicodeDecodeError, model_on name ss out rest).
Proof.
  destruct Hline as [Hp Hl].
  destruct (bytes_head l (Serial.Byte x) rest x eq_refl) as (ch & l' & E).
  rewrite E.
  rewrite (readPort_reads name ss out ch l' rest (Raise UnicodeDecodeError)
             Hopen); [reflexivity|].
  rewrite <- E. apply (read_loop_non_ascii x l 0 "" rest Hx Hp). lia.
Qed.

Lemma readPort_non_ascii_witness :
  Model.readPort
    (port (Serial.bytes "{GL4} J" ++ Serial.Byte "200" :: Serial.line "{TCC}"))
  = (Raise UnicodeDecodeError, port (Serial.line "{TCC}")).
Proof.
  assert (Hn : String.eqb "/dev/ttyUSB0" "None" = false) by reflexivity.
  assert (Hl : line_ok "{GL4} J") by (split; [reflexivity | simpl; lia]).
  assert (Hx : (128 <= nat_of_ascii "200")%nat)
    by (apply Nat.leb_le; reflexivity).
  exact (readPort_non_ascii "/dev/ttyUSB0" ["/dev/ttyUSB0"] [] "{GL4} J"
           "200"%char (Serial.line "{TCC}") Hn Hl Hx).
Defined.

(** X6.  The read loop gives up at its millionth pass: when the count
    runs out before a terminator has come, it stops with what it has
    gathered and leaves the rest of the input for later calls. *)
Theorem read_loop_ceiling (l : string) :
  forall (k : Z) (b : string) (rest : list Serial.event),
    all_plain l = true ->
    k + Z.of_nat (String.length l) = 1000000 ->
    Model.read_loop k b (Serial.bytes l ++ rest) = (Return (b +:+ l), rest).
Proof.
  induction l as [|ch l IH]; intros k b rest Hp Hk.
  - rewrite read_loop_eq. simpl in *.
    destruct (Z.ltb_spec k 1000000); [lia|]. rewrite append_nil_r. reflexivity.
  - rewrite read_loop_eq. simpl in Hp. apply andb_prop in Hp as [Hc Hp].
    unfold plain in Hc. apply andb_prop in Hc as [Hc Hlf].
    apply andb_prop in Hc as [H7 Hcr].
    change (String.length (String ch l)) with (S (String.length l)) in Hk.
    destruct (Z.ltb_spec k 1000000); [|lia].
    change (Serial.bytes (String ch l) ++ rest)
      with (Serial.Byte ch :: (Serial.bytes l ++ rest)).
    cbv iota beta.
    destruct (Nat.leb_spec 128 (nat_of_ascii ch)).
    { apply Nat.ltb_lt in H7. lia. }
    apply negb_true_iff in Hcr, Hlf. rewrite Hcr, Hlf. cbn [orb].
    rewrite IH by (auto; lia).
    rewrite append_assoc. reflexivity.
Qed.

Lemma read_loop_ceiling_witness :
  Model.read_loop 999998 "{MIN} ..." (Serial.bytes "ab" ++ Serial.line "cd")
  = (Return "{MIN} ...ab", Serial.line "cd").
Proof.
  assert (Hp : all_plain "ab" = true) by reflexivity.
  assert (Hk : 999998 + Z.of_nat (String.length "ab") = 1000000)
    by (simpl; lia).
  exact (read_loop_ceiling "ab" 999998 "{MIN} ..." (Serial.line "cd") Hp Hk).
Defined.

(** ** What the dispatcher writes *)

Lemma sendPort_asks (opcode : string) :
  (0 <? String.length opcode)%nat = true -> asks opcode (sendPort opcode "G").
Proof.
  intros Hl c. unfold sendPort, bind, in_view, in_model, zoom, Model.fd, sent, final.
  rewrite traceInsert_spec. rewrite Hl. cbn [model set_view set_model snd].
  destruct (Model._fd (model c)) as [sp|] eqn:E.
  - right. cbn. rewrite !append_assoc. reflexivity.
  - left. cbn. rewrite E. reflexivity.
Qed.

Lemma asks_still {A} (opcode : string) (m : M t A) :
  preserves sent m -> asks opcode m.
Proof. intros H c. left. apply H. Qed.

Lemma asks_then {A B} (opcode : string) (m : M t A) (k : A -> M t B) :
  asks opcode m -> (forall a, preserves sent (k a)) -> asks opcode (bind m k).
Proof.
  intros Hm Hk c. specialize (Hm c). unfold bind, final in *.
  destruct (m c) as [[a | e] c1]; simpl in *; [|exact Hm].
  specialize (Hk a c1). unfold final in Hk. rewrite Hk. exact Hm.
Qed.

Lemma asks_after {A B} (opcode : string) (m : M t A) (k : A -> M t B) :
  preserves sent m -> (forall a, asks opcode (k a)) -> asks opcode (bind m k).
Proof.
  intros Hm Hk c. specialize (Hm c). unfold bind, final in *.
  destruct (m c) as [[a | e] c1]; simpl in *; [|left; exact Hm].
  rewrite <- Hm. apply Hk.
Qed.

(** Steps that do not reach the port. *)
Ltac still :=
  solve [ repeat first
    [ apply preserves_ret
    | apply preserves_raise
    | apply preserves_gets
    | apply preserves_item
    | apply preserves_to_int
    | apply preserves_zoom; reflexivity
    | apply preserves_modify; intros; reflexivity
    | match goal with
      | |- preserves _ (sendPort _ _) => fail 2
      | |- preserves _ (bind _ _) => apply preserves_bind; [|intros]
      | |- preserves _ (if ?b then _ else _) => destruct b
      end ] ].

Ltac asking :=
  repeat first
    [ apply asks_still; still
    | apply sendPort_asks; reflexivity
    | apply asks_then; [apply sendPort_asks; reflexivity | intros; still]
    | apply asks_after; [still | intros]
    | match goal with
      | |- asks _ (if ?b then _ else _) => destruct b
      end ].

Lemma handlers_ask (opcode : string) (handler : string -> M t pyval) :
  handlers !! opcode = Some handler ->
  forall payload, asks opcode (handler payload).
Proof.
  intros H payload. unfold handlers in H.
  apply elem_of_list_to_map_2 in H.
  repeat (apply elem_of_cons in H as [H | H];
          [injection H as -> ->;
           match goal with |- asks _ (?h _) => unfold h end;
           cbv zeta; unfold setPortStatus; asking |]).
  all: try (apply elem_of_nil in H; contradiction).
Qed.

Lemma handlers_still (opcode : string) (handler : string -> M t pyval) :
  handlers !! opcode = Some handler -> asker opcode = false ->
  forall payload, preserves sent (handler payload).
Proof.
  intros H Ha payload. unfold handlers in H.
  apply elem_of_list_to_map_2 in H.
  repeat (apply elem_of_cons in H as [H | H];
          [injection H as -> ->;
           first [ discriminate Ha
                 | match goal with |- preserves _ (?h _) => unfold h end;
                   cbv zeta; unfold setPortStatus; still ] |]).
  all: try (apply elem_of_nil in H; contradiction).
Qed.

Lemma decoded_sent (m : string) (c : t) : sent (decoded m c) = sent c.
Proof. unfold decoded. destruct (framed m); reflexivity. Qed.

(** X7.  Whatever line it is given, the dispatcher itself writes
    nothing to the device, or the one line that asks again for the
    opcode it has just been sent; it writes nothing at all unless that
    opcode is one of the nine with a handler that can ask again.  (Left
    out are the four frames whose handler writes a variable with a write
    callback: what is sent from the callback is not the dispatcher's.) *)
Theorem handleMessage_sends (m : string) (c : t)
    (Hplain : callback_writer (opcode_of m) = false) :
  (sent (final (handleMessage m c)) = sent c
   \/ sent (final (handleMessage m c))
      = sent c ++ ["[" +:+ opcode_of m +:+ "] G" +:+ CRLF])
  /\ (asker (opcode_of m) = false ->
      sent (final (handleMessage m c)) = sent c).
Proof.
  clear Hplain.
  destruct (le_lt_dec 5 (String.length m)) as [H | H].
  - rewrite handleMessage_long by exact H. unfold dispatch.
    destruct (handlers !! opcode_of m) as [handler|] eqn:E.
    + split.
      * rewrite <- (decoded_sent m c).
        apply (asks_then (opcode_of m) (handler (payload_of m))
                 (fun _ => ret PNone));
          [apply (handlers_ask _ _ E) | intros; apply preserves_ret].
      * intros Ha. rewrite <- (decoded_sent m c).
        apply (preserves_bind sent);
          [apply (handlers_still _ _ E Ha) | intros; apply preserves_ret].
    + split; [left|intros _]; apply (decoded_sent m c).
  - rewrite handleMessage_short by exact H. split; [left|intros _]; reflexivity.
Qed.

Lemma handleMessage_sends_witness :
  sent (final (handleMessage "{GL4} JO65" (controller0 []))) = []
  /\ (sent (final (handleMessage "{TON} x" (controller0 []))) = []
      \/ sent (final (handleMessage "{TON} x" (controller0 [])))
         = ["[TON] G" +:+ CRLF]).
Proof.
  assert (H1 : callback_writer (opcode_of "{GL4} JO65") = false) by reflexivity.
  assert (H2 : callback_writer (opcode_of "{TON} x") = false) by reflexivity.
  destruct (handleMessage_sends "{GL4} JO65" (controller0 []) H1) as (_ & Hs).
  destruct (handleMessage_sends "{TON} x" (controller0 []) H2) as (Ha & _).
  split; [apply Hs; reflexivity | exact Ha].
Defined.

(** ** The signal generator *)

Lemma value_shift (s : string) :
  forall a, value a s = a * 10 ^ Z.of_nat (String.length s) + value 0 s.
Proof.
  induction s as [|c s IH]; intros a; [simpl; lia|].
  cbn [value String.length]. rewrite IH, (IH (10 * 0 + _)).
  rewrite Nat2Z.inj_succ, Z.pow_succ_r by lia. lia.
Qed.

Lemma digit_val_range (c : ascii) :
  Py.is_digit c = true -> 0 <= Py.digit_val c <= 9.
Proof.
  intros H.
  destruct (digit_inv c H) as [-> | [-> | [-> | [-> | [-> | [-> | [-> | [-> | [-> | ->]]]]]]]]];
    vm_compute; split; discriminate.
Qed.

Lemma value_range (s : string) :
  Py.all_digits s = true -> 0 <= value 0 s < 10 ^ Z.of_nat (String.length s).
Proof.
  induction s as [|c s IH]; intros H; [simpl; lia|].
  simpl in H. apply andb_prop in H as [Hc Hs]. specialize (IH Hs).
  pose proof (digit_val_range c Hc).
  cbn [value String.length]. rewrite value_shift.
  rewrite Nat2Z.inj_succ, Z.pow_succ_r by lia. nia.
Qed.

(** The character at index [i] of a numeral is the digit of its value at
    that place. *)
Lemma index_digit (s : string) :
  Py.all_digits s = true ->
  forall a i ch,
    Py.index s i = Some ch ->
    Py.is_digit ch = true
    /\ Py.digit_val ch
       = (value a s / 10 ^ (Z.of_nat (String.length s) - 1 - Z.of_nat i)) mod 10.
Proof.
  unfold Py.index.
  induction s as [|c s IH]; intros H a i ch Hi; [destruct i; discriminate|].
  simpl in H. apply andb_prop in H as [Hc Hs].
  destruct i as [|i]; cbn [String.get] in Hi.
  - injection Hi as <-. split; [exact Hc|].
    cbn [value String.length]. rewrite value_shift.
    pose proof (value_range s Hs) as Hr. pose proof (digit_val_range c Hc).
    replace (Z.of_nat (S (String.length s)) - 1 - Z.of_nat 0)
      with (Z.of_nat (String.length s)) by lia.
    set (p := 10 ^ Z.of_nat (String.length s)) in *.
    assert (0 < p) by (apply Z.pow_pos_nonneg; lia).
    rewrite Z.div_add_l by lia. rewrite (Z.div_small (value 0 s)) by lia.
    rewrite Z.add_0_r, Z.add_comm, Z.mul_comm, Z.mod_add by lia.
    symmetry. apply Z.mod_small. lia.
  - destruct (IH Hs (10 * a + Py.digit_val c) i ch Hi) as [Hd Hv].
    split; [exact Hd|]. cbn [value String.length]. rewrite Hv.
    do 3 f_equal. lia.
Qed.

Lemma index_some (s : string) (i : nat) :
  (i < String.length s)%nat -> exists ch, Py.index s i = Some ch.
Proof.
  unfold Py.index. revert i. induction s as [|c s IH]; intros i H.
  - simpl in H. lia.
  - destruct i as [|i]; [eexists; reflexivity|]. simpl in H.
    apply IH. lia.
Qed.

Lemma int_str_digit (ch : ascii) :
  Py.is_digit ch = true -> Py.int (Py.str ch) = Some (Py.digit_val ch).
Proof.
  intros H. unfold Py.str. rewrite int_digits.
  - simpl. f_equal.
  - simpl. rewrite H. reflexivity.
Qed.

(** [setFQ] on twelve digits: it returns, and has set the eleven
    variables. *)
Lemma set_digits_run (data : string) (l : list (string * nat)) :
  forall v,
    (forall name i, (name, i) ∈ l ->
       exists ch, Py.index data i = Some ch /\ Py.is_digit ch = true) ->
    View.set_digits l data v
    = (Return tt, View.set_vars (shown l data (View.vars v)) v).
Proof.
  induction l as [|[name i] l IH]; intros v H.
  - destruct v; reflexivity.
  - destruct (H name i) as (ch & Hi & Hd); [apply elem_of_cons; left; reflexivity|].
    cbn [View.set_digits shown]. unfold bind at 1, item. rewrite Hi.
    unfold ret at 1. unfold bind at 1, to_int. rewrite (int_str_digit ch Hd).
    unfold ret at 1. unfold bind, View.var_set, modify.
    rewrite IH
      by (intros n0 i0 Hin0; apply (H n0 i0); apply elem_of_cons; right;
          assumption).
    unfold digit_at. rewrite Hi. reflexivity.
Qed.

Lemma setFQ_run (data : string) (v : View.t) :
  Py.all_digits data = true -> String.length data = 12%nat ->
  View.setFQ data v
  = (Return tt, View.set_vars (shown View.fq_digits data (View.vars v)) v).
Proof.
  intros Ha Hl. apply set_digits_run. intros name i Hin.
  assert (Hi : (i < String.length data)%nat).
  { rewrite Hl. unfold View.fq_digits in Hin.
    repeat (apply elem_of_cons in Hin as [Hin | Hin];
            [injection Hin as _ ->; lia|]).
    apply elem_of_nil in Hin. contradiction. }
  destruct (index_some data i Hi) as [ch Hch]. exists ch.
  split; [exact Hch|]. apply (index_digit data Ha 0 i ch Hch).
Qed.

Lemma shown_displays (data : string) (n : Z) (v : View.t) :
  Py.all_digits data = true -> String.length data = 12%nat ->
  value 0 data = n ->
  displays (View.set_vars (shown View.fq_digits data (View.vars v)) v) n.
Proof.
  intros Ha Hl Hv name i Hin.
  assert (Hd : forall j, (j < 12)%nat -> digit_at data j = digit_of n j).
  { intros j Hj. unfold digit_at, digit_of.
    destruct (index_some data j) as [ch Hch]; [lia|]. rewrite Hch.
    destruct (index_digit data Ha 0 j ch Hch) as [_ ->].
    rewrite Hv, Hl. do 3 f_equal. }
  cbn [View.vars View.set_vars]. unfold View.fq_digits in *.
  repeat (apply elem_of_cons in Hin as [Hin | Hin];
          [injection Hin as -> ->; cbn [shown];
           rewrite <- Hd by lia; simplify_map_eq; reflexivity|]).
  apply elem_of_nil in Hin. contradiction.
Qed.

Lemma opcode_of_frame (a0 a1 a2 a3 a4 : ascii) (tail : string) :
  opcode_of (String a0 (String a1 (String a2 (String a3 (String a4 tail)))))
  = String a1 (String a2 (String a3 "")).
Proof.
  unfold opcode_of, Py.slice. cbn [Nat.sub String.substring].
  destruct tail; reflexivity.
Qed.

Lemma framed_frame (a1 a2 a3 : ascii) (tail : string) :
  framed (String "{" (String a1 (String a2 (String a3 (String "}" tail)))))
  = true.
Proof. reflexivity. Qed.

Lemma handlers_DGF : handlers !! "DGF" = Some handleDGF.
Proof. reflexivity. Qed.

(** [sendPort] with the port open. *)
Lemma sendPort_open (cmd_ data_ : string) (c : t) (l : list Serial.event) :
  option_map Serial.rx (Model._fd (model c)) = Some l ->
  (0 < String.length cmd_)%nat ->
  sendPort cmd_ data_ c
  = (Return tt,
     wrote ("[" +:+ cmd_ +:+ "] " +:+ data_ +:+ CRLF)
       (traced ("[" +:+ cmd_ +:+ "] " +:+ data_) c)).
Proof.
  intros Hopen Hl. apply Nat.ltb_lt in Hl.
  destruct c as [v [name ss [[rx tx]|]] sa f rc d rs rn cm ct ms se];
    [|discriminate].
  unfold sendPort, bind, in_view, in_model, zoom, Model.fd, Serial.write,
    modify, wrote, traced, final.
  rewrite Hl.
  cbn -[String.append View.traceInsert Nat.ltb].
  rewrite traceInsert_spec. cbn -[String.append Nat.ltb].
  rewrite !append_assoc. reflexivity.
Qed.

Lemma handleDGF_accepts (d : string) (c : t) :
  Py.all_digits d = true -> String.length d = 12%nat -> data c = d ->
  handleDGF d c
  = (Return PNone,
     set_view (View.set_vars (shown View.fq_digits d (View.vars (view c)))
                 (view c))
       (set_fq (value 0 d) c)).
Proof.
  intros Ha Hl Hd. unfold handleDGF. rewrite Hl.
  rewrite (isdigit_all d Ha) by lia. cbn [Nat.eqb andb].
  unfold bind at 1, to_int.
  rewrite (int_digits d) by (apply isdigit_all; [exact Ha | lia]).
  unfold ret at 1. unfold bind, modify, gets, in_view, zoom.
  cbn [data set_fq view]. rewrite Hd.
  rewrite (setFQ_run d (view c) Ha Hl). reflexivity.
Qed.

(** X8.  The echo of a frequency.  Given the frame [{DGF}] with the
    twelve digits of [n], the dispatcher returns, stores [n] in the
    register, shows its digits, writes nothing to the device and reports
    nothing. *)
Theorem DGF_echo (n : Z) (c : t) (Hn : 0 <= n < 10 ^ 12) :
  let r := handleMessage ("{DGF} " +:+ Py.format_0d 12 n) c in
  result r = Return PNone
  /\ fq (final r) = n
  /\ displays (view (final r)) n
  /\ sent (final r) = sent c
  /\ stderr (final r) = stderr c.
Proof.
  destruct (format_0d_spec 12 n Hn ltac:(lia)) as (Ha & Hl & Hv).
  set (d := Py.format_0d 12 n) in *.
  change ("{DGF} " +:+ d)
    with (String "{" (String "D" (String "G" (String "F"
            (String "}" (String " " d)))))).
  intros r.
  assert (E : r = (Return PNone,
                   set_view (View.set_vars
                               (shown View.fq_digits d
                                  (View.vars (view (decoded
                                     (String "{" (String "D" (String "G"
                                        (String "F" (String "}"
                                           (String " " d)))))) c))))
                               (view (decoded
                                     (String "{" (String "D" (String "G"
                                        (String "F" (String "}"
                                           (String " " d)))))) c)))
                     (set_fq (value 0 d)
                        (decoded (String "{" (String "D" (String "G"
                                    (String "F" (String "}"
                                       (String " " d)))))) c)))).
  { subst r.
    rewrite handleMessage_long by (cbn [String.length]; lia).
    rewrite opcode_of_frame, payload_of_tail. cbn [strip_sep].
    unfold dispatch. rewrite handlers_DGF. unfold bind.
    rewrite (handleDGF_accepts d _ Ha Hl); [reflexivity|].
    unfold decoded. rewrite payload_of_tail. reflexivity. }
  rewrite E. unfold result, final. cbn [fst snd fq set_view set_fq view].
  split; [reflexivity|]. split; [exact Hv|].
  split; [apply (shown_displays d n _ Ha Hl Hv)|].
  unfold decoded. rewrite framed_frame. split; reflexivity.
Qed.

Lemma DGF_echo_witness :
  fq (final (handleMessage ("{DGF} " +:+ Py.format_0d 12 1410000000)
               (controller0 []))) = 1410000000
  /\ displays (view (final (handleMessage
                              ("{DGF} " +:+ Py.format_0d 12 1410000000)
                              (controller0 [])))) 1410000000.
Proof.
  assert (Hn : 0 <= 1410000000 < 10 ^ 12) by lia.
  destruct (DGF_echo 1410000000 (controller0 []) Hn) as (_ & Hf & Hd & _).
  split; [exact Hf | exact Hd].
Defined.

Lemma wrote_sent (buff : string) (c : t) (l : list Serial.event) :
  option_map Serial.rx (Model._fd (model c)) = Some l ->
  sent (wrote buff c) = sent c ++ [buff].
Proof.
  unfold sent, wrote. destruct (Model._fd (model c)); [|discriminate].
  reflexivity.
Qed.

Lemma traced_vars (text : string) (c : t) :
  View.vars (view (traced text c)) = View.vars (view c).
Proof.
  unfold traced. rewrite traceInsert_spec. unfold final. cbn [snd view set_view].
  destruct (0 <? String.length text)%nat; [|reflexivity].
  destruct (View.debug (view c)); reflexivity.
Qed.

Lemma decoded_open (m : string) (c : t) (l : list Serial.event) :
  option_map Serial.rx (Model._fd (model c)) = Some l ->
  option_map Serial.rx (Model._fd (model (decoded m c))) = Some l.
Proof. unfold decoded. destruct (framed m); intros H; exact H. Qed.

Lemma decoded_vars (m : string) (c : t) :
  View.vars (view (decoded m c)) = View.vars (view c).
Proof. unfold decoded. destruct (framed m); reflexivity. Qed.

Lemma decoded_fq (m : string) (c : t) : fq (decoded m c) = fq c.
Proof. unfold decoded. destruct (framed m); reflexivity. Qed.

Lemma decoded_stderr (m : string) (c : t) : stderr (decoded m c) = stderr c.
Proof. unfold decoded. destruct (framed m); reflexivity. Qed.

(** X9.  A [DGF] frame whose payload is not twelve digits is turned
    down: the register and the display stay as they are, the payload is
    reported on the diagnostic stream, and the device is asked again. *)
Theorem DGF_rejects (m : string) (c : t) (l : list Serial.event)
    (Hlen : (5 <= String.length m)%nat)
    (Hop : opcode_of m = "DGF")
    (Hbad : (String.length (payload_of m) =? 12)%nat
            && Py.isdigit (payload_of m) = false)
    (Hopen : option_map Serial.rx (Model._fd (model c)) = Some l) :
  let r := handleMessage m c in
  result r = Return PNone
  /\ fq (final r) = fq c
  /\ View.vars (view (final r)) = View.vars (view c)
  /\ stderr (final r) = stderr c ++ ["Bad DGF data: " +:+ payload_of m]
  /\ sent (final r) = sent c ++ ["[DGF] G" +:+ CRLF].
Proof.
  intros r.
  assert (E : r = (Return PNone,
                   wrote ("[DGF] G" +:+ CRLF)
                     (traced "[DGF] G"
                        (set_stderr (stderr (decoded m c)
                                     ++ ["Bad DGF data: " +:+ payload_of m])
                           (decoded m c))))).
  { subst r. rewrite handleMessage_long by exact Hlen. rewrite Hop.
    unfold dispatch. rewrite handlers_DGF. unfold bind at 1.
    unfold handleDGF. rewrite Hbad.
    unfold bind at 1, stderr_write, modify. unfold bind at 1.
    rewrite (sendPort_open "DGF" "G" _ l);
      [reflexivity | apply (decoded_open m c l Hopen) | simpl; lia]. }
  rewrite E. unfold result, final. cbn [fst snd].
  split; [reflexivity|]. split; [apply decoded_fq|].
  split; [|split].
  - unfold wrote. cbn [view set_model]. rewrite traced_vars. apply decoded_vars.
  - cbn [stderr wrote traced set_model set_view set_stderr].
    rewrite decoded_stderr. reflexivity.
  - rewrite (wrote_sent _ _ l) by (apply (decoded_open m c l Hopen)).
    unfold sent. cbn [model traced set_view set_stderr].
    fold (sent (decoded m c)). rewrite decoded_sent. reflexivity.
Qed.

Lemma DGF_rejects_witness :
  fq (final (handleMessage "{DGF} 14100000" (controller0 []))) = 100000000
  /\ stderr (final (handleMessage "{DGF} 14100000" (controller0 [])))
     = ["Bad DGF data: 14100000"]
  /\ sent (final (handleMessage "{DGF} 14100000" (controller0 [])))
     = ["[DGF] G" +:+ CRLF].
Proof.
  assert (H1 : (5 <= String.length "{DGF} 14100000")%nat) by (simpl; lia).
  assert (H2 : opcode_of "{DGF} 14100000" = "DGF") by reflexivity.
  assert (H3 : (String.length (payload_of "{DGF} 14100000") =? 12)%nat
               && Py.isdigit (payload_of "{DGF} 14100000") = false)
    by reflexivity.
  assert (H4 : option_map Serial.rx (Model._fd (model (controller0 [])))
               = Some []) by reflexivity.
  destruct (DGF_rejects "{DGF} 14100000" (controller0 []) [] H1 H2 H3 H4)
    as (_ & Hf & _ & He & Hs).
  split; [exact Hf|]. split; [exact He | exact Hs].
Defined.

(** What [addFQ] and [subFQ] do once they have the new value. *)
Lemma tune_open (n : Z) (c : t) (l : list Serial.event) :
  0 <= n < 10 ^ 12 ->
  option_map Serial.rx (Model._fd (model c)) = Some l ->
  (modify (set_fq n) ;;
   sendPort "DGF" ("S " +:+ Py.format_0d 12 n) ;;
   in_view (View.setFQ (Py.format_0d 12 n))) c
  = (Return tt,
     let c1 := wrote ("[DGF] S " +:+ Py.format_0d 12 n +:+ CRLF)
                 (traced ("[DGF] S " +:+ Py.format_0d 12 n) (set_fq n c)) in
     set_view (View.set_vars
                 (shown View.fq_digits (Py.format_0d 12 n)
                    (View.vars (view c1))) (view c1)) c1).
Proof.
  intros Hn Hopen.
  destruct (format_0d_spec 12 n Hn ltac:(lia)) as (Ha & Hl & Hv).
  unfold bind at 1, modify. unfold bind.
  rewrite (sendPort_open "DGF" _ _ l); [|exact Hopen | simpl; lia].
  unfold in_view, zoom. rewrite (setFQ_run _ _ Ha Hl).
  rewrite !append_assoc. reflexivity.
Qed.

Lemma tune_facts (n : Z) (c : t) (l : list Serial.event)
    (r : outcome unit * t) :
  0 <= n <= 100000000000 ->
  option_map Serial.rx (Model._fd (model c)) = Some l ->
  r = (modify (set_fq n) ;;
       sendPort "DGF" ("S " +:+ Py.format_0d 12 n) ;;
       in_view (View.setFQ (Py.format_0d 12 n))) c ->
  result r = Return tt
  /\ fq (final r) = n
  /\ sent (final r) = sent c ++ ["[DGF] S " +:+ Py.format_0d 12 n +:+ CRLF]
  /\ displays (view (final r)) n.
Proof.
  intros Hn Hopen ->.
  assert (Hn' : 0 <= n < 10 ^ 12) by lia.
  destruct (format_0d_spec 12 n Hn' ltac:(lia)) as (Ha & Hl & Hv).
  rewrite (tune_open n c l Hn' Hopen). cbv zeta. unfold result, final.
  cbn [fst snd]. split; [reflexivity|]. split; [reflexivity|]. split.
  - unfold sent at 1. cbn [model set_view].
    fold (sent (wrote ("[DGF] S " +:+ Py.format_0d 12 n +:+ CRLF)
                  (traced ("[DGF] S " +:+ Py.format_0d 12 n) (set_fq n c)))).
    rewrite (wrote_sent _ _ l) by exact Hopen. reflexivity.
  - cbn [view set_view]. apply (shown_displays _ n _ Ha Hl Hv).
Qed.

(** X10.  The digit buttons, with the port open and the register
    between 0 and 100000000000.  Each of the twenty-two returns, leaves
    the register in that range, sends the new value to the device as
    [[DGF] S] and exactly twelve digits, and shows the digits of the new
    value. *)
Theorem digit_buttons (a : Z) (c : t) (l : list Serial.event)
    (press : M t unit)
    (Ha : In a digit_amounts)
    (Hpress : press = addFQ a \/ press = subFQ a)
    (Hfq : 0 <= fq c <= 100000000000)
    (Hopen : option_map Serial.rx (Model._fd (model c)) = Some l) :
  let r := press c in
  let n := fq (final r) in
  result r = Return tt
  /\ 0 <= n <= 100000000000
  /\ sent (final r) = sent c ++ ["[DGF] S " +:+ Py.format_0d 12 n +:+ CRLF]
  /\ String.length (Py.format_0d 12 n) = 12%nat
  /\ Py.all_digits (Py.format_0d 12 n) = true
  /\ displays (view (final r)) n.
Proof.
  intros r n.
  assert (Hrange : 1 <= a <= 10000000000)
    by (simpl in Ha; repeat destruct Ha as [<- | Ha]; try lia; contradiction).
  assert (Hrun : exists n0, 0 <= n0 <= 100000000000
            /\ r = (modify (set_fq n0) ;;
                    sendPort "DGF" ("S " +:+ Py.format_0d 12 n0) ;;
                    in_view (View.setFQ (Py.format_0d 12 n0))) c).
  { subst r. destruct Hpress as [-> | ->].
    - exists (if fq c + a >? 100000000000 then fq c + a - 100000000000
              else fq c + a).
      split; [destruct (Z.gtb_spec (fq c + a) 100000000000); lia|].
      reflexivity.
    - exists (if fq c - a <? 0 then 1 else fq c - a).
      split; [destruct (Z.ltb_spec (fq c - a) 0); lia|].
      reflexivity. }
  destruct Hrun as (n0 & Hn0 & Hr).
  destruct (tune_facts n0 c l r Hn0 Hopen Hr) as (H1 & H2 & H3 & H4).
  assert (En : n = n0) by exact H2. rewrite En.
  destruct (format_0d_spec 12 n0 ltac:(lia) ltac:(lia)) as (Ha' & Hl' & _).
  repeat (split; [assumption|]). assumption.
Qed.

Lemma digit_buttons_witness :
  result (up1k (controller0 [])) = Return tt
  /\ sent (final (up1k (controller0 []))) = ["[DGF] S 000100100000" +:+ CRLF]
  /\ displays (view (final (down10M (controller0 [])))) 1.
Proof.
  assert (Ha : In 100000 digit_amounts) by (simpl; tauto).
  assert (Hb : In 1000000000 digit_amounts) by (simpl; tauto).
  assert (Hfq : 0 <= fq (controller0 []) <= 100000000000) by (simpl; lia).
  assert (Hopen : option_map Serial.rx (Model._fd (model (controller0 [])))
                  = Some []) by reflexivity.
  destruct (digit_buttons 100000 (controller0 []) [] up1k Ha
              (or_introl eq_refl) Hfq Hopen) as (H1 & _ & H3 & _).
  destruct (digit_buttons 1000000000 (controller0 []) [] down10M Hb
              (or_intror eq_refl) Hfq Hopen) as (_ & _ & _ & _ & _ & H6).
  split; [exact H1|]. split; [exact H3 | exact H6].
Defined.

(** X11.  A digit button pressed before a port has been opened: the
    call raises at the write, yet the register has already moved, while
    the display still shows what it showed. *)
Theorem digit_button_without_port (a : Z) (c : t)
    (Hclosed : Model._fd (model c) = None) :
  let r := addFQ a c in
  let r' := subFQ a c in
  result r = Raise (AttributeError "write")
  /\ result r' = Raise (AttributeError "write")
  /\ fq (final r) = (if fq c + a >? 100000000000
                     then fq c + a - 100000000000 else fq c + a)
  /\ fq (final r') = (if fq c - a <? 0 then 1 else fq c - a)
  /\ View.vars (view (final r)) = View.vars (view c)
  /\ View.vars (view (final r')) = View.vars (view c)
  /\ sent (final r) = [] /\ sent (final r') = [].
Proof.
  destruct c as [v [name ss fd] sa f rc d rs rn cm ct ms se].
  simpl in Hclosed. subst fd.
  unfold addFQ, subFQ, sendPort, bind, gets, modify, in_view, in_model, zoom,
    Model.fd, result, final, sent.
  cbn -[String.append View.traceInsert Nat.ltb Py.format_0d Z.gtb Z.ltb].
  rewrite !traceInsert_spec.
  cbn -[String.append Nat.ltb Py.format_0d Z.gtb Z.ltb].
  repeat (split; [reflexivity|]).
  split; [|split; [|split; reflexivity]];
    destruct (View.debug v); reflexivity.
Qed.

Lemma digit_button_without_port_witness :
  result (addFQ 100 unplugged) = Raise (AttributeError "write")
  /\ fq (final (addFQ 100 unplugged)) = 100000100
  /\ View.vars (view (final (addFQ 100 unplugged))) = View.vars (view unplugged).
Proof.
  assert (H : Model._fd (model unplugged) = None) by reflexivity.
  destruct (digit_button_without_port 100 unplugged H)
    as (H1 & _ & H3 & _ & H5 & _).
  split; [exact H1|]. split; [exact H3 | exact H5].
Defined.

(** ** The mirror clock, set and read *)

Lemma lacks_append (x : ascii) (s1 s2 : string) :
  lacks x (s1 +:+ s2) = lacks x s1 && lacks x s2.
Proof.
  induction s1 as [|c s1 IH]; [reflexivity|].
  rewrite append_cons. simpl. rewrite IH. apply andb_assoc.
Qed.

Lemma split_lacks (sep : ascii) (s : string) :
  lacks sep s = true -> Py.split sep s = [s].
Proof.
  induction s as [|c s IH]; intros H; [reflexivity|].
  simpl in H. apply andb_prop in H as [Hc Hs].
  apply negb_true_iff in Hc. simpl. rewrite Hc, (IH Hs). reflexivity.
Qed.

Lemma split_field (sep : ascii) (s rest : string) :
  lacks sep s = true ->
  Py.split sep (s +:+ String sep rest) = s :: Py.split sep rest.
Proof.
  induction s as [|c s IH]; intros H.
  - change ("" +:+ String sep rest) with (String sep rest). simpl.
    rewrite Ascii.eqb_refl. reflexivity.
  - simpl in H. apply andb_prop in H as [Hc Hs].
    apply negb_true_iff in Hc. rewrite append_cons.
    cbn [Py.split]. rewrite Hc, (IH Hs). reflexivity.
Qed.

Lemma digits_lack_colon (s : string) :
  Py.all_digits s = true -> lacks ":" s = true.
Proof.
  induction s as [|c s IH]; intros H; [reflexivity|].
  simpl in H. apply andb_prop in H as [Hc Hs]. simpl. rewrite (IH Hs).
  destruct (digit_inv c Hc) as [-> | [-> | [-> | [-> | [-> | [-> | [-> | [-> | [-> | ->]]]]]]]]];
    reflexivity.
Qed.

Lemma format_0d_lacks_colon (w : nat) (n : Z) :
  lacks ":" (Py.format_0d w n) = true.
Proof.
  destruct (Z.le_gt_cases 0 n) as [H | H].
  - apply digits_lack_colon. apply (format_0d_nat w n H).
  - destruct (format_0d_nat (w - 1) (- n) ltac:(lia)) as (Ha & _).
    unfold Py.format_0d in *.
    destruct (Z.ltb_spec n 0); [|lia]. destruct (Z.ltb_spec (- n) 0); [lia|].
    change (negb (Ascii.eqb "-" ":")
            && lacks ":" (Py.zeros (w - 1 - String.length (Py.repr (- n)))
                          +:+ Py.repr (- n)) = true).
    rewrite (digits_lack_colon _ Ha). reflexivity.
Qed.

Lemma split_fmt (h m s : Z) :
  Py.split ":" (MC.fmt h m s)
  = [Py.format_0d 2 h; Py.format_0d 2 m; Py.format_0d 2 s].
Proof.
  unfold MC.fmt.
  change (Py.format_0d 2 h +:+ ":" +:+ Py.format_0d 2 m +:+ ":"
          +:+ Py.format_0d 2 s)
    with (Py.format_0d 2 h
          +:+ String ":" (Py.format_0d 2 m +:+ String ":" (Py.format_0d 2 s))).
  rewrite !split_field by apply format_0d_lacks_colon.
  rewrite split_lacks by apply format_0d_lacks_colon. reflexivity.
Qed.

Lemma time_set_fmt (h m s : Z) (c : MC.t) :
  MC.time_set (MC.fmt h m s) c
  = (Return PNone, MC.store h m s (MC.cancel_job c)).
Proof.
  unfold MC.time_set. rewrite split_fmt. unfold bind at 1, modify.
  unfold to_int. rewrite !int_format_0d. reflexivity.
Qed.

Lemma store_ticking (h m s : Z) (c : MC.t) :
  MC.ticking (MC.store h m s c) = true.
Proof.
  unfold MC.ticking, MC.store. simpl. unfold Tk.armed. simpl.
  apply bool_decide_eq_true. apply elem_of_app. right.
  apply list_elem_of_singleton. reflexivity.
Qed.

(** X12.  Setting the clock to a time written as the clock itself
    writes it, [hh:mm:ss], gives a clock that holds these three numbers,
    reads back as the same string and is ticking; this holds for every
    clock and all integers.  In particular writing back the time just
    read changes none of the three fields. *)
Theorem time_set_reads_back (h m s : Z) (c : MC.t) :
  let r := MC.time_set (MC.fmt h m s) c in
  result r = Return PNone
  /\ (MC._hour (final r), MC._minute (final r), MC._second (final r))
     = (h, m, s)
  /\ MC.time (final r) = MC.fmt h m s
  /\ MC.ticking (final r) = true
  /\ MC.time (final (MC.time_set (MC.time c) c)) = MC.time c.
Proof.
  cbv zeta. unfold MC.time at 2 3. rewrite !time_set_fmt.
  unfold result, final. cbn [fst snd].
  split; [reflexivity|]. split; [reflexivity|]. split; [reflexivity|].
  split; [apply store_ticking | reflexivity].
Qed.

Lemma cancel_job_clears (c : MC.t) :
  tidy c -> Tk.after_jobs (MC._root (MC.cancel_job c)) = [].
Proof.
  intros [H | (j & Hj & H)]; unfold MC.cancel_job.
  - destruct (MC._job c); [|exact H]. simpl. rewrite H. reflexivity.
  - rewrite Hj. simpl. rewrite H.
    rewrite filter_cons_False by (intros Hne; apply Hne; reflexivity).
    reflexivity.
Qed.

Lemma store_tidy (h m s : Z) (c : MC.t) :
  Tk.after_jobs (MC._root c) = [] -> tidy (MC.store h m s c).
Proof.
  intros H. right. exists (Tk.after_next (MC._root c)).
  unfold MC.store. simpl. rewrite H. split; reflexivity.
Qed.

Lemma tick_tidy (c : MC.t) :
  Tk.after_jobs (MC._root c) = [] -> tidy (MC.__tick c).
Proof.
  intros H. right. exists (Tk.after_next (MC._root c)).
  unfold MC.__tick.
  destruct (MC.carry (MC._hour c) (MC._minute c) (MC._second c)) as [[h m] s].
  simpl. rewrite H. split; reflexivity.
Qed.

(** X13.  The clock keeps a single timer.  On a new clock no timer is
    armed.  If at most one timer is armed, and it is the one the clock
    remembers, the same holds after the time has been set, whatever the
    string and whether the call returns or raises, and after any timer
    has expired; so the tick never runs twice for one second. *)
Theorem single_timer (c : MC.t) (H : tidy c) :
  tidy clock0
  /\ (forall data, tidy (final (MC.time_set data c)))
  /\ (forall id, tidy (MC.expire id c))
  /\ (List.length (Tk.after_jobs (MC._root c)) <= 1)%nat.
Proof.
  split; [left; reflexivity|]. split; [|split].
  - intros data. pose proof (cancel_job_clears c H) as Hc.
    unfold MC.time_set, bind, modify, final.
    destruct (Py.split ":" data) as [|a [|b [|d [|e l]]]];
      try (left; exact Hc).
    unfold to_int.
    destruct (Py.int a); [|left; exact Hc].
    destruct (Py.int b); [|left; exact Hc].
    destruct (Py.int d); [|left; exact Hc].
    apply store_tidy. exact Hc.
  - intros id. unfold MC.expire.
    destruct (Tk.armed id (MC._root c)) eqn:E; [|exact H].
    apply tick_tidy. simpl.
    unfold Tk.armed in E. apply bool_decide_eq_true in E.
    destruct H as [H | (j & Hj & H)]; rewrite H in *.
    + apply elem_of_nil in E. contradiction.
    + apply list_elem_of_singleton in E. subst id.
      rewrite filter_cons_False by (intros Hne; apply Hne; reflexivity).
      reflexivity.
  - destruct H as [H | (j & _ & H)]; rewrite H; simpl; lia.
Qed.

Lemma single_timer_witness :
  tidy (final (MC.time_set "07:08:09" running))
  /\ tidy (MC.expire 0 running).
Proof.
  assert (H : tidy running)
    by (right; exists 0%nat; split; reflexivity).
  destruct (single_timer running H) as (_ & Hs & He & _).
  split; [apply Hs | apply He].
Defined.

(** ** The GPS frames *)

Lemma frame_cons (a1 a2 a3 : ascii) (payload : string) :
  frame (String a1 (String a2 (String a3 ""))) payload
  = String "{" (String a1 (String a2 (String a3 (String "}"
      (String " " payload))))).
Proof. reflexivity. Qed.

(** A frame of a known opcode goes to its handler with the payload. *)
Lemma handleMessage_frame (a1 a2 a3 : ascii) (payload : string)
    (handler : string -> M t pyval) (c : t) :
  handlers !! String a1 (String a2 (String a3 "")) = Some handler ->
  handleMessage (frame (String a1 (String a2 (String a3 ""))) payload) c
  = (handler payload ;; ret PNone)
      (decoded (frame (String a1 (String a2 (String a3 ""))) payload) c).
Proof.
  intros H. rewrite handleMessage_long
    by (rewrite frame_cons; cbn [String.length]; lia).
  rewrite frame_cons at 1 2. rewrite opcode_of_frame, payload_of_tail.
  cbn [strip_sep]. unfold dispatch. rewrite H. reflexivity.
Qed.

Lemma decoded_frame (a1 a2 a3 : ascii) (payload : string) (c : t) :
  decoded (frame (String a1 (String a2 (String a3 ""))) payload) c
  = set_rnum (known (String a1 (String a2 (String a3 ""))))
      (set_resp (String a1 (String a2 (String a3 "")))
         (set_data payload (final (setPortStatus true c)))).
Proof.
  rewrite frame_cons. unfold decoded.
  rewrite framed_frame, opcode_of_frame, payload_of_tail. reflexivity.
Qed.

Lemma decoded_sats (m : string) (c : t) : sats (decoded m c) = sats c.
Proof. unfold decoded. destruct (framed m); reflexivity. Qed.

Lemma decoded_mirror (m : string) (c : t) :
  View.mirror (view (decoded m c)) = View.mirror (view c).
Proof. unfold decoded. destruct (framed m); reflexivity. Qed.

Lemma time_set_result (data : string) (m m' : MC.t) :
  result (MC.time_set data m) = result (MC.time_set data m').
Proof.
  unfold MC.time_set, bind, modify, to_int, result.
  destruct (Py.split ":" data) as [|a [|b [|d [|e l]]]]; try reflexivity.
  destruct (Py.int a); [|reflexivity].
  destruct (Py.int b); [|reflexivity].
  destruct (Py.int d); reflexivity.
Qed.




Lemma handlers_GTM : handlers !! "GTM" = Some handleGTM.
Proof. reflexivity. Qed.





Lemma time_set_raises (data : string) (m : MC.t) :
  result (MC.time_set data m) = Raise ValueError ->
  MC.time_set data m = (Raise ValueError, MC.cancel_job m).
Proof.
  unfold MC.time_set, bind, modify, to_int, result.
  destruct (Py.split ":" data) as [|a [|b [|d [|e l]]]]; try discriminate.
  destruct (Py.int a); [|reflexivity].
  destruct (Py.int b); [|reflexivity].
  destruct (Py.int d); [discriminate | reflexivity].
Qed.

(** X15.  A time frame with three fields that are not all integers:
    the exception of [int] leaves the dispatcher.  By then the text is
    in the time display and the timer of the clock has been cancelled;
    the satellite data that were waiting are neither plotted nor
    dropped. *)
Theorem GTM_bad_time (time : string) (c : t)
    (Hbad : result (MC.time_set time clock0) = Raise ValueError) :
  let r := handleMessage (frame "GTM" time) c in
  result r = Raise ValueError
  /\ View.curtime (view (final r)) = time
  /\ MC.ticking (View.mirror (view (final r))) = false
  /\ sats (final r) = sats c
  /\ View.sink (view (final r))
     = View.sink (view c) ++ [Paint "serialOK" [PInt 1]].
Proof.
  intros r.
  assert (E : r = (Raise ValueError,
                   set_view
                     (View.set_mirror
                        (MC.cancel_job
                           (View.set_clock time
                              (View.mirror
                                 (view (decoded (frame "GTM" time) c)))))
                        (view (decoded (frame "GTM" time) c)))
                     (decoded (frame "GTM" time) c))).
  { subst r.
    rewrite (handleMessage_frame "G" "T" "M" time handleGTM c handlers_GTM).
    unfold bind at 1, handleGTM. unfold bind at 1, in_view at 1, zoom.
    unfold View.updateTime. unfold bind at 1, zoom at 1, modify at 1.
    unfold bind at 1, zoom at 1.
    cbn [View.mirror View.set_mirror].
    rewrite (time_set_raises time)
      by (rewrite (time_set_result time _ clock0); exact Hbad).
    reflexivity. }
  rewrite E. unfold result, final, View.curtime. cbn [fst snd view set_view
    View.mirror View.set_mirror sats View.sink].
  split; [reflexivity|]. split; [|split; [|split]].
  - unfold MC.cancel_job, View.set_clock. cbn [MC._job].
    destruct (MC._job _); reflexivity.
  - apply cancel_job_stops.
  - apply decoded_sats.
  - rewrite decoded_frame. reflexivity.
Qed.

Lemma GTM_bad_time_witness :
  result (handleMessage (frame "GTM" "12:34:xx") (controller0 []))
  = Raise ValueError
  /\ View.curtime (view (final (handleMessage (frame "GTM" "12:34:xx")
                                  (controller0 [])))) = "12:34:xx".
Proof.
  assert (H : result (MC.time_set "12:34:xx" clock0) = Raise ValueError)
    by reflexivity.
  destruct (GTM_bad_time "12:34:xx" (controller0 []) H) as (H1 & H2 & _).
  split; [exact H1 | exact H2].
Defined.

(** ** Settings *)

Lemma handlers_FLP : handlers !! "FLP" = Some handleFLP.
Proof. reflexivity. Qed.

Lemma handlers_OBD : handlers !! "OBD" = Some handleOBD.
Proof. reflexivity. Qed.

Lemma handlers_OTP : handlers !! "OTP" = Some handleOTP.
Proof. reflexivity. Qed.

Lemma handlers_DPD : handlers !! "DPD" = Some handleDPD.
Proof. reflexivity. Qed.

Lemma int_nonneg (s : string) (n : Z) :
  Py.isdigit s = true -> Py.int s = Some n -> 0 <= n.
Proof.
  intros Hd Hi. rewrite (int_digits s Hd) in Hi. injection Hi as <-.
  apply value_range. destruct s; [discriminate | exact Hd].
Qed.

(** X16.  The frame that reports a built-in low-pass filter, with a
    number [f] after the first two characters of its payload.  Below 16
    the filter is marked in the view.  Above 16 the number is reported on
    the diagnostic stream and nothing is marked.  At 16, one past the
    last of the sixteen bands, the guard lets the number through and the
    view raises [IndexError]. *)
Theorem FLP_bounds (p : string) (f : Z) (c : t)
    (Hd : Py.isdigit (Py.from 2 p) = true)
    (Hf : Py.int (Py.from 2 p) = Some f) :
  let r := handleMessage (frame "FLP" p) c in
  let seen := View.sink (view c) ++ [Paint "serialOK" [PInt 1]] in
  (f < 16 ->
   result r = Return PNone
   /\ View.sink (view (final r)) = seen ++ [Paint "installLP" [PInt f]]
   /\ stderr (final r) = stderr c)
  /\ (f = 16 ->
      result r = Raise IndexError
      /\ View.sink (view (final r)) = seen
      /\ stderr (final r) = stderr c)
  /\ (16 < f ->
      result r = Return PNone
      /\ View.sink (view (final r)) = seen
      /\ stderr (final r)
         = stderr c ++ ["Device reported an unsupported LPF with an ID of "
                        +:+ Py.format_0d 0 f +:+ "."]).
Proof.
  intros r seen. pose proof (int_nonneg _ _ Hd Hf) as H0.
  assert (E : r = (handleFLP p ;; ret PNone) (decoded (frame "FLP" p) c))
    by (apply (handleMessage_frame "F" "L" "P" p handleFLP c handlers_FLP)).
  unfold handleFLP in E. cbv zeta in E. rewrite Hd in E. cbn [negb] in E.
  unfold to_int in E. rewrite Hf in E.
  unfold bind at 2 in E. unfold ret at 1 in E.
  change (Z.of_nat (List.length Model.bands)) with 16 in E.
  rewrite decoded_frame in E.
  split; [|split]; intros Hcase.
  - destruct (Z.gtb_spec f 16) as [|_]; [lia|].
    unfold View.installLP, View.band_item, View.nbands in E.
    destruct (Z.leb_spec (- (16)) f); [|lia].
    destruct (Z.ltb_spec f 16); [|lia].
    rewrite E. split; [reflexivity|]. split; reflexivity.
  - subst f. cbn [Z.gtb Z.compare Pos.compare Pos.compare_cont] in E.
    rewrite E. split; [reflexivity|]. split; reflexivity.
  - destruct (Z.gtb_spec f 16) as [_|]; [|lia].
    rewrite E. split; [reflexivity|]. split; reflexivity.
Qed.

Lemma FLP_bounds_witness :
  result (handleMessage (frame "FLP" "A 16") (controller0 [])) = Raise IndexError
  /\ result (handleMessage (frame "FLP" "A 15") (controller0 [])) = Return PNone
  /\ stderr (final (handleMessage (frame "FLP" "A 17") (controller0 [])))
     = ["Device reported an unsupported LPF with an ID of 17."].
Proof.
  assert (D16 : Py.isdigit (Py.from 2 "A 16") = true) by reflexivity.
  assert (I16 : Py.int (Py.from 2 "A 16") = Some 16) by reflexivity.
  assert (D15 : Py.isdigit (Py.from 2 "A 15") = true) by reflexivity.
  assert (I15 : Py.int (Py.from 2 "A 15") = Some 15) by reflexivity.
  assert (D17 : Py.isdigit (Py.from 2 "A 17") = true) by reflexivity.
  assert (I17 : Py.int (Py.from 2 "A 17") = Some 17) by reflexivity.
  destruct (FLP_bounds "A 16" 16 (controller0 []) D16 I16) as (_ & H16 & _).
  destruct (FLP_bounds "A 15" 15 (controller0 []) D15 I15) as (H15 & _ & _).
  destruct (FLP_bounds "A 17" 17 (controller0 []) D17 I17) as (_ & _ & H17).
  split; [apply H16; reflexivity|].
  split; [apply H15; lia|]. apply H17. lia.
Defined.

Lemma two_chars (s : string) :
  String.length s = 2%nat -> exists a b, s = String a (String b "").
Proof.
  destruct s as [|a [|b [|x s]]]; simpl; intros H; try discriminate.
  exists a, b. reflexivity.
Qed.

(** X17.  The frame that reports a band as enabled or disabled, for a
    band number [i] written with two digits.  For the sixteen bands the
    box of band [i] is set to 1 or 0 and no other variable changes;
    nothing is written to the device.  From 16 on the view raises
    [IndexError] and no variable changes. *)
Theorem OBD_frame (i : Z) (on : bool) (c : t) (Hi : 0 <= i < 100) :
  let r := handleMessage
             (frame "OBD" (Py.format_0d 2 i +:+ (if on then " E" else " D")))
             c in
  (i < 16 ->
   result r = Return PNone
   /\ View.vars (view (final r))
      = <[band_var "enable" i := PInt (if on then 1 else 0)]>
          (View.vars (view c))
   /\ sent (final r) = sent c)
  /\ (16 <= i ->
      result r = Raise IndexError
      /\ View.vars (view (final r)) = View.vars (view c)).
Proof.
  intros r.
  destruct (format_0d_spec 2 i ltac:(lia) ltac:(lia)) as (Ha & Hl & Hv).
  assert (Hint : Py.int (Py.format_0d 2 i) = Some i) by apply int_format_0d.
  destruct (two_chars _ Hl) as (a & b & Hab).
  assert (E : r = (handleOBD (Py.format_0d 2 i +:+ (if on then " E" else " D"))
                   ;; ret PNone)
                    (decoded (frame "OBD" (Py.format_0d 2 i
                                +:+ (if on then " E" else " D"))) c))
    by (apply (handleMessage_frame "O" "B" "D" _ handleOBD c handlers_OBD)).
  unfold handleOBD in E.
  assert (Hs : Py.slice 0 2 (Py.format_0d 2 i +:+ (if on then " E" else " D"))
               = Py.format_0d 2 i)
    by (rewrite Hab; destruct on; reflexivity).
  assert (Hx : Py.index (Py.format_0d 2 i +:+ (if on then " E" else " D")) 3
               = Some (if on then "E"%char else "D"%char))
    by (rewrite Hab; destruct on; reflexivity).
  rewrite Hs in E. unfold to_int, item in E. rewrite Hint, Hx in E.
  unfold bind at 2 in E. unfold ret at 1 in E.
  unfold bind at 2 in E. unfold ret at 1 in E.
  set (c1 := decoded _ c) in E.
  assert (V1 : View.vars (view c1) = View.vars (view c)) by apply decoded_vars.
  assert (T1 : sent c1 = sent c) by apply decoded_sent.
  clearbody c1.
  unfold View.band_item, View.nbands in E.
  split; intros Hcase.
  - destruct (Z.leb_spec (- (16)) i); [|lia].
    destruct (Z.ltb_spec i 16); [|lia].
    cbn [andb] in E. rewrite E.
    destruct on; cbn [Ascii.eqb Bool.eqb andb];
      (split; [reflexivity|]); (split; [|exact T1]);
      unfold final, bind, in_view, zoom, ret, View.var_set, View.emit, modify;
      cbn [snd fst view set_view View.vars View.set_vars View.set_sink];
      rewrite V1; reflexivity.
  - destruct (Z.leb_spec (- (16)) i); [|lia].
    destruct (Z.ltb_spec i 16); [lia|].
    cbn [andb] in E. rewrite E.
    destruct on; cbn [Ascii.eqb Bool.eqb andb];
      (split; [reflexivity|]); exact V1.
Qed.

Lemma OBD_frame_witness :
  View.vars (view (final (handleMessage (frame "OBD" "07 E") (controller0 []))))
  = <[band_var "enable" 7 := PInt 1]> (View.vars (view (controller0 [])))
  /\ result (handleMessage (frame "OBD" "16 D") (controller0 []))
     = Raise IndexError.
Proof.
  assert (H7 : 0 <= 7 < 100) by lia.
  assert (H16 : 0 <= 16 < 100) by lia.
  destruct (OBD_frame 7 true (controller0 []) H7) as (Hin & _).
  destruct (OBD_frame 16 false (controller0 []) H16) as (_ & Hout).
  destruct (Hin ltac:(lia)) as (_ & Hv & _).
  destruct (Hout ltac:(lia)) as (Hr & _).
  split; [exact Hv | exact Hr].
Defined.

Lemma set_view_same (c : t) : set_view (view c) c = c.
Proof. destruct c; reflexivity. Qed.

Lemma in_view_gets {A} (f : View.t -> A) (c : t) :
  in_view (gets f) c = (Return (f (view c)), c).
Proof. unfold in_view, zoom, gets. rewrite set_view_same. reflexivity. Qed.

(** What a command that went out leaves as it was. *)
Lemma wrote_traced (buff text : string) (c : t) (l : list Serial.event) :
  option_map Serial.rx (Model._fd (model c)) = Some l ->
  let c' := wrote buff (traced text c) in
  sent c' = sent c ++ [buff]
  /\ option_map Serial.rx (Model._fd (model c')) = Some l
  /\ View.vars (view c') = View.vars (view c)
  /\ (fq c', sats c', stderr c') = (fq c, sats c, stderr c).
Proof.
  intros Hopen c'. split; [|split; [|split]].
  - unfold c'. rewrite (wrote_sent _ _ l) by exact Hopen. reflexivity.
  - unfold c', wrote, traced. cbn [model set_model set_view Model._fd Model.set_fd].
    destruct (Model._fd (model c)); [exact Hopen | discriminate].
  - unfold c', wrote. cbn [view set_model]. apply traced_vars.
  - reflexivity.
Qed.

Lemma band_line_vars (v v' : View.t) (band : Z) :
  View.vars v' = View.vars v -> band_line v' band = band_line v band.
Proof. intros H. unfold band_line, enabled. rewrite H. reflexivity. Qed.

Lemma bandCheck_loop_open (bands : list Z) :
  forall (c : t) (l : list Serial.event),
    option_map Serial.rx (Model._fd (model c)) = Some l ->
    exists c',
      bandCheck_loop bands c = (Return tt, c')
      /\ sent c' = sent c ++ List.map (band_line (view c)) bands
      /\ View.vars (view c') = View.vars (view c)
      /\ option_map Serial.rx (Model._fd (model c')) = Some l.
Proof.
  induction bands as [|band rest IH]; intros c l Hopen.
  - exists c. rewrite app_nil_r.
    split; [reflexivity|]. split; [reflexivity|].
    split; [reflexivity | exact Hopen].
  - cbn [bandCheck_loop List.map]. unfold bind at 1. unfold View.int_get.
    rewrite in_view_gets. unfold bind at 1.
    set (e := match View.vars (view c) !! band_var "enable" band with
              | Some (PInt n) => n
              | _ => 0
              end).
    assert (He : (e =? 1) = enabled (view c) band).
    { unfold e, enabled.
      destruct (View.vars (view c) !! band_var "enable" band) as [[]|];
        reflexivity. }
    assert (Hs : (if e =? 1
                  then sendPort "OBD" ("S " +:+ Py.format_0d 2 band +:+ " E")
                  else sendPort "OBD" ("S " +:+ Py.format_0d 2 band +:+ " D")) c
                 = (Return tt,
                    wrote (band_line (view c) band)
                      (traced ("[OBD] S " +:+ Py.format_0d 2 band
                               +:+ (if enabled (view c) band
                                    then " E" else " D")) c))).
    { unfold band_line. rewrite He.
      destruct (enabled (view c) band);
        rewrite (sendPort_open "OBD" _ c l Hopen) by (simpl; lia);
        rewrite !append_assoc; reflexivity. }
    rewrite Hs. clear Hs.
    match goal with
    | |- context [wrote ?b (traced ?x c)] =>
        destruct (wrote_traced b x c l Hopen) as (W1 & W2 & W3 & _);
        set (c1 := wrote b (traced x c)) in *
    end.
    destruct (IH c1 l W2) as (c' & H1 & H2 & H3 & H4).
    exists c'. split; [exact H1|].
    rewrite H2, H3, W1, W3, <- app_assoc. cbn [app].
    rewrite (List.map_ext (band_line (view c1)) (band_line (view c)))
      by (intros b; apply band_line_vars; exact W3).
    split; [reflexivity|]. split; [reflexivity | exact H4].
Qed.

(** X18.  [bandCheck] with the port open returns after sixteen lines
    have gone out, one for each band from 0 to 15 in this order: [[OBD]
    S], the band in two digits, and [E] where the box of the band is
    ticked, [D] where it is not.  No variable of the view changes. *)
Theorem bandCheck_lines (c : t) (l : list Serial.event)
    (Hopen : option_map Serial.rx (Model._fd (model c)) = Some l) :
  let r := bandCheck c in
  result r = Return tt
  /\ sent (final r)
     = sent c ++ List.map (band_line (view c)) (List.map Z.of_nat (seq 0 16))
  /\ View.vars (view (final r)) = View.vars (view c)
  /\ ahead (final r) = l.
Proof.
  intros r.
  destruct (bandCheck_loop_open
              (List.map Z.of_nat (seq 0 (List.length Model.bands))) c l Hopen)
    as (c' & H1 & H2 & H3 & H4).
  assert (E : r = (Return tt, c')) by exact H1.
  rewrite E. unfold result, final. cbn [fst snd].
  split; [reflexivity|]. split; [exact H2|]. split; [exact H3|].
  unfold ahead. destruct (Model._fd (model c')); [|discriminate].
  injection H4 as ->. reflexivity.
Qed.

Lemma bandCheck_lines_witness :
  sent (final (bandCheck (final (handleMessage (frame "OBD" "01 E")
                                   (controller0 [])))))
  = List.map (band_line (view (final (handleMessage (frame "OBD" "01 E")
                                        (controller0 [])))))
      (List.map Z.of_nat (seq 0 16))
  /\ band_line (view (final (handleMessage (frame "OBD" "01 E")
                               (controller0 [])))) 1
     = "[OBD] S 01 E" +:+ CRLF.
Proof.
  assert (H : option_map Serial.rx
                (Model._fd (model (final (handleMessage (frame "OBD" "01 E")
                                            (controller0 []))))) = Some [])
    by reflexivity.
  destruct (bandCheck_lines _ [] H) as (_ & Hs & _).
  split; [exact Hs | reflexivity].
Defined.

(** X19.  The pause between transmissions, with the port open and the
    pause variable holding [p].  Up to 99999 [pauseUpdate] sends [p] as
    exactly five digits; when the device echoes these digits the
    dispatcher returns and the variable holds [p] again.  Above 99999 no
    value is sent: the device is asked for its own. *)
Theorem pause_roundtrip (p : Z) (c : t) (l : list Serial.event)
    (Hset : View.vars (view c) !! "pauseTime" = Some (PInt p))
    (Hopen : option_map Serial.rx (Model._fd (model c)) = Some l) :
  let r := pauseUpdate c in
  result r = Return tt
  /\ (0 <= p <= 99999 ->
      sent (final r) = sent c ++ ["[OTP] S " +:+ Py.format_0d 5 p +:+ CRLF]
      /\ String.length (Py.format_0d 5 p) = 5%nat
      /\ let r' := handleMessage (frame "OTP" (Py.format_0d 5 p)) (final r) in
         result r' = Return PNone
         /\ View.vars (view (final r')) !! "pauseTime" = Some (PInt p))
  /\ (99999 < p -> sent (final r) = sent c ++ ["[OTP] G" +:+ CRLF]).
Proof.
  intros r.
  assert (E : r = (if p >? 99999 then sendPort "OTP" "G"
                   else sendPort "OTP" ("S " +:+ Py.format_0d 5 p)) c).
  { unfold r, pauseUpdate. unfold bind at 1. unfold View.int_get.
    rewrite in_view_gets. rewrite Hset. reflexivity. }
  rewrite E. clear E r.
  destruct (Z.gtb_spec p 99999) as [Hbig | Hsmall].
  - rewrite (sendPort_open "OTP" "G" c l Hopen) by (simpl; lia).
    unfold result, final. cbn [fst snd].
    split; [reflexivity|]. split; [lia|]. intros _.
    apply (wrote_traced _ _ c l Hopen).
  - rewrite (sendPort_open "OTP" _ c l Hopen) by (simpl; lia).
    unfold result at 1, final. cbn [fst snd].
    split; [reflexivity|]. split; [|lia]. intros Hp.
    destruct (format_0d_spec 5 p ltac:(lia) ltac:(lia)) as (Ha & Hl & Hv).
    destruct (wrote_traced
                ("[" +:+ "OTP" +:+ "] " +:+ ("S " +:+ Py.format_0d 5 p)
                 +:+ CRLF)
                ("[" +:+ "OTP" +:+ "] " +:+ ("S " +:+ Py.format_0d 5 p))
                c l Hopen) as (W1 & W2 & W3 & _).
    set (c1 := wrote _ (traced _ c)) in *.
    split; [rewrite W1, !append_assoc; reflexivity|]. split; [exact Hl|].
    set (r' := handleMessage _ c1).
    assert (E : r' = (Return PNone,
                      set_view (View.set_vars
                                  (<["pauseTime" := PInt p]>
                                     (View.vars (view (decoded
                                        (frame "OTP" (Py.format_0d 5 p)) c1))))
                                  (view (decoded
                                           (frame "OTP" (Py.format_0d 5 p)) c1)))
                        (decoded (frame "OTP" (Py.format_0d 5 p)) c1))).
    { unfold r'.
      rewrite (handleMessage_frame "O" "T" "P" _ handleOTP c1 handlers_OTP).
      unfold bind at 1, handleOTP.
      rewrite (isdigit_all _ Ha) by lia.
      unfold to_int. rewrite int_format_0d. reflexivity. }
    rewrite E. unfold result, final. cbn [fst snd view set_view View.vars
      View.set_vars].
    split; [reflexivity | apply lookup_insert_eq].
Qed.

Lemma pause_roundtrip_witness :
  sent (final (pauseUpdate
                 (final (handleMessage (frame "OTP" "120") (controller0 [])))))
  = ["[OTP] S 00120" +:+ CRLF]
  /\ sent (final (pauseUpdate
                    (final (handleMessage (frame "OTP" "100000")
                              (controller0 [])))))
     = ["[OTP] G" +:+ CRLF].
Proof.
  assert (H1 : View.vars (view (final (handleMessage (frame "OTP" "120")
                                         (controller0 []))))
               !! "pauseTime" = Some (PInt 120)) by reflexivity.
  assert (H2 : View.vars (view (final (handleMessage (frame "OTP" "100000")
                                         (controller0 []))))
               !! "pauseTime" = Some (PInt 100000)) by reflexivity.
  assert (O1 : option_map Serial.rx
                 (Model._fd (model (final (handleMessage (frame "OTP" "120")
                                             (controller0 []))))) = Some [])
    by reflexivity.
  assert (O2 : option_map Serial.rx
                 (Model._fd (model (final (handleMessage (frame "OTP" "100000")
                                             (controller0 []))))) = Some [])
    by reflexivity.
  destruct (pause_roundtrip 120 _ [] H1 O1) as (_ & Hs & _).
  destruct (pause_roundtrip 100000 _ [] H2 O2) as (_ & _ & Hb).
  destruct (Hs ltac:(lia)) as (Hs1 & _).
  split; [exact Hs1 | apply Hb; lia].
Defined.

(** X20.  The power setting.  [rpwrUpdate] reads the text of the power
    variable as an integer: text that is not one makes it raise
    [ValueError] with nothing sent.  For the text of a number from 0 to
    99, with the port open, it sends the number as two digits; when the
    device echoes these digits the dispatcher returns and writes
    nothing, and the variable holds the text of the number again, or of
    60 if the number is above 60. *)
Theorem power_roundtrip (text : string) (c : t) (l : list Serial.event)
    (Hset : View.vars (view c) !! "rpwr" = Some (PStr text))
    (Hopen : option_map Serial.rx (Model._fd (model c)) = Some l) :
  let r := rpwrUpdate c in
  (Py.int text = None ->
   result r = Raise ValueError /\ sent (final r) = sent c)
  /\ (forall v, 0 <= v < 100 -> text = Py.format_0d 0 v ->
      result r = Return tt
      /\ sent (final r) = sent c ++ ["[DPD] S " +:+ Py.format_0d 2 v +:+ CRLF]
      /\ let r' := handleMessage (frame "DPD" (Py.format_0d 2 v)) (final r) in
         result r' = Return PNone
         /\ View.vars (view (final r')) !! "rpwr"
            = Some (PStr (Py.format_0d 0 (Z.min v 60)))
         /\ sent (final r') = sent (final r)).
Proof.
  intros r.
  assert (E : r = (v <- to_int text ;;
                   sendPort "DPD" ("S " +:+ Py.format_0d 2 v)) c).
  { unfold r, rpwrUpdate. unfold bind at 1. unfold View.str_get.
    rewrite in_view_gets. rewrite Hset. reflexivity. }
  rewrite E. clear E r. split.
  - intros Hnone. unfold bind, to_int. rewrite Hnone. split; reflexivity.
  - intros v Hv ->.
    destruct (format_0d_spec 2 v ltac:(lia) ltac:(lia)) as (Ha & Hl & _).
    destruct (wrote_traced
                ("[" +:+ "DPD" +:+ "] " +:+ ("S " +:+ Py.format_0d 2 v)
                 +:+ CRLF)
                ("[" +:+ "DPD" +:+ "] " +:+ ("S " +:+ Py.format_0d 2 v))
                c l Hopen) as (W1 & W2 & W3 & _).
    set (c1 := wrote _ (traced _ c)) in *.
    assert (E1 : (v0 <- to_int (Py.format_0d 0 v) ;;
                 sendPort "DPD" ("S " +:+ Py.format_0d 2 v0)) c
                = (Return tt, c1)).
    { unfold bind, to_int. rewrite int_format_0d. unfold ret.
      apply (sendPort_open "DPD" _ c l Hopen). simpl. lia. }
    rewrite E1. unfold result at 1, final. cbn [fst snd].
    split; [reflexivity|].
    split; [rewrite W1, !append_assoc; reflexivity|].
    set (r' := handleMessage _ c1).
    assert (E : r' = (Return PNone,
                      set_view (View.set_vars
                                  (<["rpwr" := PStr (Py.format_0d 0
                                                       (if v >? 60 then 60
                                                        else v))]>
                                     (View.vars (view (decoded
                                        (frame "DPD" (Py.format_0d 2 v)) c1))))
                                  (view (decoded
                                           (frame "DPD" (Py.format_0d 2 v)) c1)))
                        (decoded (frame "DPD" (Py.format_0d 2 v)) c1))).
    { unfold r'.
      rewrite (handleMessage_frame "D" "P" "D" _ handleDPD c1 handlers_DPD).
      unfold bind at 1, handleDPD.
      rewrite (isdigit_all _ Ha) by lia.
      unfold to_int. rewrite int_format_0d. reflexivity. }
    rewrite E. unfold result, final. cbn [fst snd view set_view View.vars
      View.set_vars].
    split; [reflexivity|]. split.
    + rewrite lookup_insert_eq. do 3 f_equal.
      destruct (Z.gtb_spec v 60); lia.
    + apply (decoded_sent (frame "DPD" (Py.format_0d 2 v)) c1).
Qed.

Lemma power_roundtrip_witness :
  result (rpwrUpdate (final (handleMessage (frame "DPD" "23") (controller0 []))))
  = Return tt
  /\ sent (final (rpwrUpdate (final (handleMessage (frame "DPD" "23")
                                       (controller0 [])))))
     = ["[DPD] S 23" +:+ CRLF].
Proof.
  assert (H1 : View.vars (view (final (handleMessage (frame "DPD" "23")
                                         (controller0 []))))
               !! "rpwr" = Some (PStr "23")) by reflexivity.
  assert (O1 : option_map Serial.rx
                 (Model._fd (model (final (handleMessage (frame "DPD" "23")
                                             (controller0 []))))) = Some [])
    by reflexivity.
  destruct (power_roundtrip "23" _ [] H1 O1) as (_ & Hs).
  destruct (Hs 23 ltac:(lia) eq_refl) as (Hr & Hw & _).
  split; [exact Hr | exact Hw].
Defined.

(** ** The main loop *)

Lemma booking {A} (m : string) (k : M t A) (w : t) :
  (modify (fun c => set_rxChars (rxChars c + Z.of_nat (String.length m)) c) ;;
   in_view (View.traceInsert m) ;;
   n <- gets rxChars ;;
   in_view (View.var_set "rxChars" (PInt n)) ;;
   k) w
  = k (final ((modify (fun c =>
                         set_rxChars (rxChars c + Z.of_nat (String.length m)) c) ;;
               in_view (View.traceInsert m) ;;
               n <- gets rxChars ;;
               in_view (View.var_set "rxChars" (PInt n))) w)).
Proof.
  unfold bind, modify, gets, in_view, zoom, final, View.var_set.
  rewrite !traceInsert_spec. reflexivity.
Qed.

Lemma drive_poll_read (fuel : nat) (c : t) (m : string)
    (rest : list Serial.event) :
  String.eqb (Model._serialPort (model c)) "None" = false ->
  Model.readPort (model c) = (Return m, model (with_ahead rest c)) ->
  drive_poll fuel c
  = if (0 <? String.length m)%nat then
      match handleMessage m (booked m rest c) with
      | (Return _, c1) =>
          if String.eqb (opcode_of m) "MIN" then updateStatus fuel c1
          else Some (Return tt, c1)
      | (Raise e, c1) => Some (Raise e, c1)
      end
    else Some (Return tt, with_ahead rest c).
Proof.
  intros Hname H. unfold drive_poll. rewrite Hname. cbn [negb].
  unfold bind at 1. unfold in_model at 1, zoom. rewrite H.
  change (set_model (model (with_ahead rest c)) c) with (with_ahead rest c).
  destruct (0 <? String.length m)%nat eqn:El.
  - unfold bind at 1. rewrite booking. fold (booked m rest c).
    unfold bind at 1, opcode_of.
    destruct (handleMessage m (booked m rest c)) as [[v|e] c1]; reflexivity.
  - destruct m; [reflexivity | discriminate El].
Qed.

Lemma readPort_listening (c : t) (s : string) (rest : list Serial.event) :
  listening c (Serial.line s ++ rest) -> line_ok s ->
  Model.readPort (model c) = (Return (as_read s), model (with_ahead rest c)).
Proof.
  intros [H1 H2] [Hp Hl].
  unfold with_ahead. destruct (model c) as [name ss [[rx tx]|]]; [|discriminate].
  simpl in *. injection H2 as ->.
  apply readPort_line; assumption.
Qed.

Lemma readPort_quiet (c : t) (rest : list Serial.event) :
  listening c (Serial.Quiet :: rest) ->
  Model.readPort (model c) = (Return "", model (with_ahead rest c)).
Proof.
  intros [H1 H2].
  unfold with_ahead. destruct (model c) as [name ss [[rx tx]|]]; [|discriminate].
  simpl in *. injection H2 as ->.
  unfold Model.readPort, bind, gets. simpl. rewrite H1. reflexivity.
Qed.

(** X21.  A turn of the main loop that finds no frame.  With no port
    selected it does nothing.  With the port open, a quiet moment or a
    complete line that does not begin with a brace is used up and leaves
    no mark: nothing is counted, traced, dispatched or sent, and only the
    position in the input has moved. *)
Theorem drive_poll_no_frame (fuel : nat) (c : t) (rest : list Serial.event) :
  (Model._serialPort (model c) = "None" ->
   drive_poll fuel c = Some (Return tt, c))
  /\ (listening c (Serial.Quiet :: rest) ->
      drive_poll fuel c = Some (Return tt, with_ahead rest c))
  /\ (forall s, listening c (Serial.line s ++ rest) -> line_ok s ->
      begins_brace s = false ->
      drive_poll fuel c = Some (Return tt, with_ahead rest c)).
Proof.
  split; [|split].
  - intros H. unfold drive_poll. rewrite H. reflexivity.
  - intros Ho. rewrite (drive_poll_read fuel c "" rest);
      [reflexivity | apply Ho | apply readPort_quiet; exact Ho].
  - intros s Ho Hs Hb.
    rewrite (drive_poll_read fuel c (as_read s) rest);
      [| apply Ho | apply readPort_listening; assumption].
    unfold as_read. rewrite Hb. reflexivity.
Qed.

Lemma drive_poll_no_frame_witness :
  drive_poll 0 unplugged = Some (Return tt, unplugged)
  /\ drive_poll 0 (controller0 (Serial.line "boot noise" ++ []))
     = Some (Return tt,
             with_ahead [] (controller0 (Serial.line "boot noise" ++ []))).
Proof.
  destruct (drive_poll_no_frame 0 unplugged []) as (H1 & _).
  destruct (drive_poll_no_frame 0
              (controller0 (Serial.line "boot noise" ++ [])) [])
    as (_ & _ & H3).
  split; [apply H1; reflexivity|].
  apply (H3 "boot noise");
    [split; reflexivity | split; [reflexivity | simpl; lia]
            | reflexivity].
Defined.

Lemma rstrip_keep (a : ascii) (s : string) :
  Py.is_space a = false -> Py.rstrip (String a s) = String a (Py.rstrip s).
Proof.
  intros H. rewrite rstrip_cons, H. destruct (Py.rstrip s); reflexivity.
Qed.

Lemma booked_facts (m : string) (rest : list Serial.event) (c : t) :
  (0 < String.length m)%nat ->
  rxChars (booked m rest c) = rxChars c + Z.of_nat (String.length m)
  /\ View.trace (view (booked m rest c)) = View.trace (view c) ++ [m]
  /\ View.vars (view (booked m rest c))
     = <["rxChars" := PInt (rxChars c + Z.of_nat (String.length m))]>
         (View.vars (view c))
  /\ link (booked m rest c) = link (with_ahead rest c)
  /\ sent (booked m rest c) = sent c.
Proof.
  intros Hl. apply Nat.ltb_lt in Hl.
  unfold booked, bind, modify, gets, in_view, zoom, final, View.var_set.
  rewrite traceInsert_spec. rewrite Hl. cbn [snd fst].
  split; [reflexivity|]. split; [|split; [|split]].
  - cbn. destruct (View.debug (view c)); reflexivity.
  - cbn. destruct (View.debug (view c)); reflexivity.
  - reflexivity.
  - unfold sent, with_ahead. cbn.
    destruct (Model._fd (model c)); reflexivity.
Qed.

(** X22.  A turn of the main loop that finds a frame: a complete line
    that begins with a brace.  The line as read is counted into
    [rxChars], put in the trace pane and handed to the dispatcher, once;
    an exception of the dispatcher leaves the loop; after a [MIN] frame
    the resync routine runs, after any other the turn is over. *)
Theorem drive_poll_frame (fuel : nat) (c : t) (s : string)
    (rest : list Serial.event)
    (Hopen : listening c (Serial.line s ++ rest))
    (Hline : line_ok s)
    (Hbrace : begins_brace s = true) :
  let m := Py.rstrip s in
  let c1 := booked m rest c in
  rxChars c1 = rxChars c + Z.of_nat (String.length m)
  /\ View.trace (view c1) = View.trace (view c) ++ [m]
  /\ sent c1 = sent c
  /\ drive_poll fuel c
     = match handleMessage m c1 with
       | (Return _, c2) =>
           if String.eqb (opcode_of m) "MIN" then updateStatus fuel c2
           else Some (Return tt, c2)
       | (Raise e, c2) => Some (Raise e, c2)
       end.
Proof.
  intros m c1.
  assert (Hm : (0 < String.length m)%nat).
  { unfold m. destruct s as [|a s]; [discriminate|].
    simpl in Hbrace. apply Ascii.eqb_eq in Hbrace. subst a.
    rewrite rstrip_keep by reflexivity. simpl. lia. }
  destruct (booked_facts m rest c Hm) as (B1 & B2 & _ & _ & B5).
  split; [exact B1|]. split; [exact B2|]. split; [exact B5|].
  rewrite (drive_poll_read fuel c (as_read s) rest);
    [| apply Hopen | apply readPort_listening; assumption].
  unfold as_read. rewrite Hbrace. fold m. apply Nat.ltb_lt in Hm.
  rewrite Hm. reflexivity.
Qed.

Lemma drive_poll_frame_witness :
  drive_poll 0 (controller0 (Serial.line "{TFQ} 1410000000  "))
  = Some (Return tt,
          final (handleMessage "{TFQ} 1410000000"
                   (booked "{TFQ} 1410000000" []
                      (controller0 (Serial.line "{TFQ} 1410000000  "))))).
Proof.
  assert (Ho : listening (controller0 (Serial.line "{TFQ} 1410000000  "))
                 (Serial.line "{TFQ} 1410000000  " ++ []))
    by (split; reflexivity).
  assert (Hl : line_ok "{TFQ} 1410000000  ")
    by (split; [reflexivity | simpl; lia]).
  assert (Hb : begins_brace "{TFQ} 1410000000  " = true) by reflexivity.
  destruct (drive_poll_frame 0 _ "{TFQ} 1410000000  " [] Ho Hl Hb)
    as (_ & _ & _ & H).
  exact H.
Defined.

Lemma handlers_MIN : handlers !! "MIN" = Some handleMIN.
Proof. reflexivity. Qed.

(** X23.  The device announces itself with a [MIN] frame and then
    stays silent.  The turn of the main loop that reads the frame enters
    the resync routine and never leaves it: however many passes the wait
    is given, the turn does not end, and the loop does not get back to
    the events of the window. *)
Theorem drive_poll_hangs_after_MIN (fuel : nat) (c : t) (p : string)
    (Hopen : listening c (Serial.line (frame "MIN" p)))
    (Hline : line_ok (frame "MIN" p)) :
  drive_poll fuel c = None.
Proof.
  assert (Hb : begins_brace (frame "MIN" p) = true) by reflexivity.
  assert (Hr : exists q, Py.rstrip (frame "MIN" p)
                         = String "{" (String "M" (String "I" (String "N"
                             (String "}" q))))).
  { rewrite frame_cons. rewrite !rstrip_keep by reflexivity. eauto. }
  destruct Hr as (q & Hr).
  assert (Ho : listening c (Serial.line (frame "MIN" p) ++ []))
    by (rewrite app_nil_r; exact Hopen).
  rewrite (drive_poll_read fuel c (as_read (frame "MIN" p)) []);
    [| apply Hopen | apply readPort_listening; assumption].
  unfold as_read. rewrite Hb, Hr. cbn [String.length Nat.ltb Nat.leb].
  rewrite opcode_of_frame. cbn [String.eqb Ascii.eqb Bool.eqb andb].
  set (m := String "{" _).
  assert (Hbk : listening (booked m [] c) []).
  { destruct (booked_facts m [] c ltac:(simpl; lia)) as (_ & _ & _ & L & _).
    apply (listening_link (with_ahead [] c)); [exact L|].
    destruct Hopen as [H1 H2]. unfold listening, with_ahead. simpl.
    split; [exact H1|].
    destruct (Model._fd (model c)); [reflexivity | discriminate]. }
  pose proof (handleMessage_link m (booked m [] c)) as Hlink.
  assert (Hret : exists v, result (handleMessage m (booked m [] c)) = Return v).
  { rewrite handleMessage_long by (simpl; lia). unfold m.
    rewrite opcode_of_frame. unfold dispatch. rewrite handlers_MIN.
    eexists. reflexivity. }
  destruct Hret as (v & Hret). unfold result in Hret. unfold final in Hlink.
  destruct (handleMessage m (booked m [] c)) as [o c2].
  cbn [fst] in Hret. cbn [snd] in Hlink. subst o.
  assert (H2 : listening c2 []) by (apply (listening_link _ _ _ Hlink Hbk)).
  unfold updateStatus, status_cmds. cbn [resync].
  destruct (query_open "CCM" c2 [] H2) as (Hq & _ & Hc & Hl & _).
  rewrite Hq. rewrite wait_reply_silent; [reflexivity | exact Hl | lia].
Qed.

Lemma drive_poll_hangs_after_MIN_witness :
  drive_poll 1000 (controller0 (Serial.line (frame "MIN" "WSPR-TX ready")))
  = None.
Proof.
  assert (Ho : listening (controller0 (Serial.line (frame "MIN" "WSPR-TX ready")))
                 (Serial.line (frame "MIN" "WSPR-TX ready")))
    by (split; reflexivity).
  assert (Hl : line_ok (frame "MIN" "WSPR-TX ready"))
    by (split; [reflexivity | simpl; lia]).
  exact (drive_poll_hangs_after_MIN 1000 _ "WSPR-TX ready" Ho Hl).
Defined.

(** ** What a frame and a command can touch *)

Lemma sendPort_keeps {X} (f : t -> X) (cmd_ data_ : string) :
  (forall v c, f (set_view v c) = f c) ->
  (forall m c, f (set_model m c) = f c) ->
  preserves f (sendPort cmd_ data_).
Proof.
  intros Hv Hm. unfold sendPort. apply preserves_bind; [|intros _].
  - apply preserves_zoom. exact Hv.
  - apply preserves_zoom. exact Hm.
Qed.

(** Steps that leave alone a part of the controller outside the view
    and the model. *)
Ltac apart :=
  solve [ repeat first
    [ apply preserves_ret
    | apply preserves_raise
    | apply preserves_gets
    | apply preserves_item
    | apply preserves_to_int
    | apply sendPort_keeps; intros; reflexivity
    | apply preserves_zoom; reflexivity
    | apply preserves_modify; intros; reflexivity
    | match goal with
      | |- preserves _ (bind _ _) => apply preserves_bind; [|intros]
      | |- preserves _ (if ?b then _ else _) => destruct b
      end ] ].

Lemma handlers_fq (opcode : string) (handler : string -> M t pyval) :
  handlers !! opcode = Some handler -> opcode <> "DGF" ->
  forall payload, preserves fq (handler payload).
Proof.
  intros H Hne payload. unfold handlers in H.
  apply elem_of_list_to_map_2 in H.
  repeat (apply elem_of_cons in H as [H | H];
          [injection H as -> ->;
           first [ exfalso; apply Hne; reflexivity
                 | match goal with |- preserves _ (?h _) => unfold h end;
                   cbv zeta; unfold setPortStatus; apart ] |]).
  all: try (apply elem_of_nil in H; contradiction).
Qed.

Lemma handlers_sats (opcode : string) (handler : string -> M t pyval) :
  handlers !! opcode = Some handler -> opcode <> "GSI" -> opcode <> "GTM" ->
  forall payload, preserves sats (handler payload).
Proof.
  intros H Hne Hne' payload. unfold handlers in H.
  apply elem_of_list_to_map_2 in H.
  repeat (apply elem_of_cons in H as [H | H];
          [injection H as -> ->;
           first [ exfalso; apply Hne; reflexivity
                 | exfalso; apply Hne'; reflexivity
                 | match goal with |- preserves _ (?h _) => unfold h end;
                   cbv zeta; unfold setPortStatus; apart ] |]).
  all: try (apply elem_of_nil in H; contradiction).
Qed.

(** A method of the view that leaves a part of the view alone leaves it
    alone when the controller calls it. *)
Lemma in_view_keeps {X A} (g : View.t -> X) (m : M View.t A) :
  preserves g m -> preserves (fun c => g (view c)) (in_view m).
Proof.
  intros H c. unfold in_view, zoom, final. specialize (H (view c)).
  unfold final in H. destruct (m (view c)) as [o v]. exact H.
Qed.

Lemma set_digits_keeps {X} (g : View.t -> X) (l : list (string * nat))
    (data : string) :
  (forall x v, g (View.set_vars x v) = g v) ->
  preserves g (View.set_digits l data).
Proof.
  intros H. induction l as [|[name i] l IH]; [apply preserves_ret|].
  cbn [View.set_digits]. apply preserves_bind; [apply preserves_item|].
  intros ch. apply preserves_bind; [apply preserves_to_int|].
  intros n. apply preserves_bind; [|intros _; exact IH].
  apply preserves_modify. intros v. apply H.
Qed.

Lemma traceInsert_keeps {X} (g : View.t -> X) (text : string) :
  (forall x v, g (View.set_trace x v) = g v) ->
  (forall x v, g (View.set_stdout x v) = g v) ->
  preserves g (View.traceInsert text).
Proof.
  intros Ht Ho v. rewrite traceInsert_spec. unfold final. cbn [snd].
  destruct (0 <? String.length text)%nat; [|reflexivity].
  rewrite Ht. destruct (View.debug v); [apply Ho | reflexivity].
Qed.

Lemma sendPort_view_keeps {X} (g : View.t -> X) (cmd_ data_ : string) :
  (forall x v, g (View.set_trace x v) = g v) ->
  (forall x v, g (View.set_stdout x v) = g v) ->
  preserves (fun c => g (view c)) (sendPort cmd_ data_).
Proof.
  intros Ht Ho. unfold sendPort. apply preserves_bind; [|intros _].
  - apply in_view_keeps. apply traceInsert_keeps; assumption.
  - apply preserves_zoom. reflexivity.
Qed.

(** Steps of the view that leave a part of it alone. *)
Ltac view_apart :=
  unfold View.installLP, View.band_item, View.setProgress, View.setActive,
    View.setRunning, View.setStopped, View.setGenerating, View.serialOK,
    View.setDevice, View.setHardwareVer, View.setHardwareRev,
    View.setFirmwareVer, View.setFirmwareRev, View.setFrequency, View.tx,
    View.program, View.setPosition, View.satdata, View.logInsert,
    View.updateTime, View.var_set, View.emit, View.setFQ;
  solve [ repeat first
    [ apply preserves_ret
    | apply preserves_raise
    | apply set_digits_keeps; intros; reflexivity
    | apply preserves_zoom; reflexivity
    | apply preserves_modify; intros; reflexivity
    | match goal with
      | |- preserves _ (bind _ _) => apply preserves_bind; [|intros]
      | |- preserves _ (if ?b then _ else _) => destruct b
      end ] ].

(** Steps of a handler that leave a part of the view alone. *)
Ltac view_kept :=
  solve [ repeat first
    [ apply preserves_ret
    | apply preserves_raise
    | apply preserves_gets
    | apply preserves_item
    | apply preserves_to_int
    | apply sendPort_view_keeps; intros; reflexivity
    | apply in_view_keeps; view_apart
    | apply preserves_modify; intros; reflexivity
    | match goal with
      | |- preserves _ (bind _ _) => apply preserves_bind; [|intros]
      | |- preserves _ (if ?b then _ else _) => destruct b
      end ] ].

Lemma handlers_mirror (opcode : string) (handler : string -> M t pyval) :
  handlers !! opcode = Some handler -> opcode <> "GTM" ->
  forall payload,
    preserves (fun c => View.mirror (view c)) (handler payload).
Proof.
  intros H Hne payload. unfold handlers in H.
  apply elem_of_list_to_map_2 in H.
  repeat (apply elem_of_cons in H as [H | H];
          [injection H as -> ->;
           first [ exfalso; apply Hne; reflexivity
                 | match goal with |- preserves _ (?h _) => unfold h end;
                   cbv zeta; unfold setPortStatus, stderr_write; view_kept ] |]).
  all: try (apply elem_of_nil in H; contradiction).
Qed.

Lemma handlers_log (opcode : string) (handler : string -> M t pyval) :
  handlers !! opcode = Some handler -> opcode <> "MIN" ->
  forall payload,
    preserves (fun c => View.log (view c)) (handler payload).
Proof.
  intros H Hne payload. unfold handlers in H.
  apply elem_of_list_to_map_2 in H.
  repeat (apply elem_of_cons in H as [H | H];
          [injection H as -> ->;
           first [ exfalso; apply Hne; reflexivity
                 | match goal with |- preserves _ (?h _) => unfold h end;
                   cbv zeta; unfold setPortStatus, stderr_write; view_kept ] |]).
  all: try (apply elem_of_nil in H; contradiction).
Qed.

Lemma decoded_log (m : string) (c : t) :
  View.log (view (decoded m c)) = View.log (view c).
Proof. unfold decoded. destruct (framed m); reflexivity. Qed.

Lemma handleMessage_frames {X} (f : t -> X) (m : string) (c : t) :
  (forall handler, handlers !! opcode_of m = Some handler ->
     forall payload, preserves f (handler payload)) ->
  f (decoded m c) = f c ->
  (forall x c0, f (set_stderr x c0) = f c0) ->
  f (final (handleMessage m c)) = f c.
Proof.
  intros Hh Hd He.
  destruct (le_lt_dec 5 (String.length m)) as [H | H].
  - rewrite handleMessage_long by exact H. unfold dispatch.
    destruct (handlers !! opcode_of m) as [handler|] eqn:E.
    + rewrite <- Hd.
      apply (preserves_bind f);
        [apply (Hh handler eq_refl) | intros; apply preserves_ret].
    + unfold bind, stderr_write, modify, ret, final. cbn [snd].
      rewrite He. exact Hd.
  - rewrite handleMessage_short by exact H. unfold final. cbn [snd]. apply He.
Qed.

(** X24.  What a line can touch, by its opcode.  The register of the
    generator changes on no line but a [DGF] frame; the list of
    satellite data on none but [GSI] and [GTM]; the mirror clock, its
    timer included, on none but [GTM]; and the log pane grows on none but
    [MIN]. *)
Theorem handleMessage_touches (m : string) (c : t) :
  let c' := final (handleMessage m c) in
  (opcode_of m <> "DGF" -> fq c' = fq c)
  /\ (opcode_of m <> "GSI" -> opcode_of m <> "GTM" -> sats c' = sats c)
  /\ (opcode_of m <> "GTM" -> View.mirror (view c') = View.mirror (view c))
  /\ (opcode_of m <> "MIN" -> View.log (view c') = View.log (view c)).
Proof.
  cbv zeta. split; [|split; [|split]].
  - intros Hne. apply (handleMessage_frames fq);
      [intros h Hh; apply (handlers_fq _ _ Hh Hne)
      | apply decoded_fq | reflexivity].
  - intros Hne Hne'. apply (handleMessage_frames sats);
      [intros h Hh; apply (handlers_sats _ _ Hh Hne Hne')
      | apply decoded_sats | reflexivity].
  - intros Hne.
    apply (handleMessage_frames (fun c => View.mirror (view c)));
      [intros h Hh; apply (handlers_mirror _ _ Hh Hne)
      | apply decoded_mirror | reflexivity].
  - intros Hne.
    apply (handleMessage_frames (fun c => View.log (view c)));
      [intros h Hh; apply (handlers_log _ _ Hh Hne)
      | apply decoded_log | reflexivity].
Qed.

Lemma handleMessage_touches_witness :
  fq (final (handleMessage "{TFQ} 1410000000" (controller0 []))) = 100000000
  /\ View.mirror (view (final (handleMessage "{GSI} 05 120 45 33"
                                 (controller0 [])))) = clock0.
Proof.
  destruct (handleMessage_touches "{TFQ} 1410000000" (controller0 []))
    as (H1 & _).
  destruct (handleMessage_touches "{GSI} 05 120 45 33" (controller0 []))
    as (_ & _ & H3 & _).
  split; [apply H1; discriminate | apply H3; discriminate].
Defined.

Lemma sendPort_settings (cmd_ data_ : string) :
  preserves settings (sendPort cmd_ data_).
Proof.
  unfold sendPort. apply preserves_bind;
    [|intros _; apply preserves_zoom; reflexivity].
  intros c. unfold in_view, zoom, final, settings.
  pose proof (traceInsert_keeps
                (fun v => (View.vars v, View.mirror v, View.log v))
                (if (0 <? String.length cmd_)%nat
                 then "[" +:+ cmd_ +:+ "] " +:+ data_ else data_)
                ltac:(reflexivity) ltac:(reflexivity) (view c)) as H.
  unfold final in H.
  destruct (View.traceInsert _ (view c)) as [o v']. cbn [snd] in *.
  cbn [fq sats stderr view set_view]. rewrite H. reflexivity.
Qed.

Lemma in_view_gets_keeps {X A} (f : t -> X) (g : View.t -> A) :
  preserves f (in_view (gets g)).
Proof. intros c. rewrite in_view_gets. reflexivity. Qed.

Lemma bandCheck_loop_settings (l : list Z) :
  preserves settings (bandCheck_loop l).
Proof.
  induction l as [|band rest IH]; [apply preserves_ret|].
  cbn [bandCheck_loop]. apply preserves_bind; [apply in_view_gets_keeps|].
  intros e. apply preserves_bind; [|intros _; exact IH].
  destruct (e =? 1); apply sendPort_settings.
Qed.

(** X25.  The callbacks that send a command talk to the device and to
    nothing else: whether they return or raise, the register, the
    satellite list, the diagnostic stream, the variables of the view,
    the mirror clock and the log are as they were.  The same holds of
    [setCall]. *)
Theorem commands_only_send (press : M t unit) (call : string) (c : t)
    (Hin : In press (setCall call :: commands)) :
  settings (final (press c)) = settings c.
Proof.
  revert c. change (preserves settings press).
  simpl in Hin.
  repeat (destruct Hin as [<- | Hin];
          [first
             [ apply sendPort_settings
             | apply bandCheck_loop_settings
             | repeat first
                 [ apply sendPort_settings
                 | apply in_view_gets_keeps
                 | apply preserves_to_int
                 | apply preserves_bind; [|intros]
                 | match goal with
                   | |- preserves _ (if ?b then _ else _) => destruct b
                   end
                 | (intros c0; reflexivity)
                 | progress unfold setCall, changeLocation, pauseUpdate,
                     setBoot, rpwrUpdate, nameUpdate, saveSettingsPressed,
                     View.str_get, View.int_get ] ] |]).
  contradiction.
Qed.

Lemma commands_only_send_witness :
  settings (final (pauseUpdate (controller0 []))) = settings (controller0 [])
  /\ settings (final (rpwrUpdate unplugged)) = settings unplugged.
Proof.
  assert (H1 : In pauseUpdate (setCall "" :: commands)) by (simpl; tauto).
  assert (H2 : In rpwrUpdate (setCall "" :: commands)) by (simpl; tauto).
  split.
  - exact (commands_only_send pauseUpdate "" (controller0 []) H1).
  - exact (commands_only_send rpwrUpdate "" unplugged H2).
Defined.

(** ** The model at start-up *)

Lemma linux_scan_spec (dev : list string) (acc : list string) :
  ModelInit.linux_scan dev acc
  = if existsb (String.prefix "tty") dev then Raise (AttributeError "name")
    else Return acc.
Proof.
  induction dev as [|n dev IH]; [reflexivity|].
  cbn [ModelInit.linux_scan existsb].
  destruct (String.prefix "tty" n); [reflexivity | exact IH].
Qed.

Lemma not_windows (platform : string) :
  String.prefix "linux" platform || String.prefix "cygwin" platform = true ->
  String.prefix "win" platform = false.
Proof.
  destruct platform as [|a p]; [discriminate|].
  destruct a as [[] [] [] [] [] [] [] []]; intros H;
    first [reflexivity | simpl in H; discriminate H].
Qed.

(** X26.  On Linux and on Cygwin the model cannot be built.  The
    search for ports reads an attribute that a model does not have as
    soon as [/dev] holds a name that begins with [tty], and the
    constructor raises [AttributeError]; when [/dev] holds no such name
    the list of candidates is empty and the constructor leaves the
    program with [No serial ports found.] *)
Theorem linux_never_starts (platform : string) (dev : list string)
    (opens : string -> bool)
    (Hlinux : String.prefix "linux" platform || String.prefix "cygwin" platform
              = true) :
  ModelInit.__init__ platform dev opens
  = if existsb (String.prefix "tty") dev
    then ModelInit.Failed (AttributeError "name")
    else ModelInit.Exit "No serial ports found." 1.
Proof.
  unfold ModelInit.__init__. rewrite (not_windows platform Hlinux), Hlinux.
  cbv zeta. rewrite linux_scan_spec.
  destruct (existsb (String.prefix "tty") dev); reflexivity.
Qed.

Lemma linux_never_starts_witness :
  ModelInit.__init__ "linux" ["null"; "tty0"; "ttyUSB0"] (fun _ => true)
  = ModelInit.Failed (AttributeError "name").
Proof.
  assert (H : String.prefix "linux" "linux" || String.prefix "cygwin" "linux"
              = true) by reflexivity.
  exact (linux_never_starts "linux" ["null"; "tty0"; "ttyUSB0"]
           (fun _ => true) H).
Defined.

Lemma filter_opens (opens : string -> bool) (l : list string) (p : string) :
  In p (List.filter opens l) -> opens p = true.
Proof. intros H. apply List.filter_In in H. apply H. Qed.

(** X27.  A model that has been built.  The platform is Windows or
    macOS; the list of ports is not empty and holds only names that
    opened; no port is selected, so a read returns the empty string and
    leaves the model as it is. *)
Theorem built_model (platform : string) (dev : list string)
    (opens : string -> bool) (m : Model.t)
    (Hbuilt : ModelInit.__init__ platform dev opens = ModelInit.Built m) :
  (String.prefix "win" platform = true
   \/ String.prefix "darwin" platform = true)
  /\ Model._serials m <> []
  /\ (forall p, In p (Model._serials m) -> opens p = true)
  /\ (String.prefix "win" platform = true ->
      Model._serials m = List.filter opens ModelInit.com_ports)
  /\ Model._serialPort m = "None"
  /\ Model._fd m = None
  /\ Model.readPort m = (Return "", m).
Proof.
  unfold ModelInit.__init__ in Hbuilt.
  assert (Hm : forall ports,
             (if (List.length (List.filter opens ports) <? 1)%nat
              then ModelInit.Exit "No serial ports found." 1
              else ModelInit.Built
                     {| Model._serialPort := "None";
                        Model._serials := List.filter opens ports;
                        Model._fd := None |}) = ModelInit.Built m ->
             Model._serials m = List.filter opens ports
             /\ Model._serials m <> []
             /\ (forall p, In p (Model._serials m) -> opens p = true)
             /\ Model._serialPort m = "None"
             /\ Model._fd m = None
             /\ Model.readPort m = (Return "", m)).
  { intros ports H.
    destruct (List.filter opens ports) as [|p0 l0] eqn:E; [discriminate|].
    cbn [List.length Nat.ltb Nat.leb] in H. injection H as <-.
    cbn [Model._serials Model._serialPort Model._fd].
    split; [reflexivity|]. split; [discriminate|]. split.
    - intros p Hp. rewrite <- E in Hp. apply (filter_opens opens ports p Hp).
    - split; [reflexivity|]. split; reflexivity. }
  destruct (String.prefix "win" platform) eqn:Ew.
  - cbv zeta in Hbuilt. destruct (Hm _ Hbuilt) as (H1 & H2 & H3 & H4 & H5 & H6).
    split; [left; reflexivity|]. split; [exact H2|]. split; [exact H3|].
    split; [intros _; exact H1|]. split; [exact H4|]. split; assumption.
  - destruct (String.prefix "linux" platform || String.prefix "cygwin" platform).
    + cbv zeta in Hbuilt. rewrite linux_scan_spec in Hbuilt.
      destruct (existsb (String.prefix "tty") dev); discriminate.
    + destruct (String.prefix "darwin" platform) eqn:Ed; [|discriminate].
      cbv zeta in Hbuilt.
      destruct (Hm _ Hbuilt) as (H1 & H2 & H3 & H4 & H5 & H6).
      split; [right; reflexivity|]. split; [exact H2|]. split; [exact H3|].
      split; [discriminate|]. split; [exact H4|]. split; assumption.
Qed.

Lemma built_model_witness :
  Model.readPort {| Model._serialPort := "None";
                    Model._serials := ["/dev/cu.usbserial"];
                    Model._fd := None |}
  = (Return "", {| Model._serialPort := "None";
                   Model._serials := ["/dev/cu.usbserial"];
                   Model._fd := None |})
  /\ String.prefix "darwin" "darwin" = true.
Proof.
  assert (H : ModelInit.__init__ "darwin" ["null"; "cu.usbserial"; "ttyp0"]
                (fun _ => true)
              = ModelInit.Built {| Model._serialPort := "None";
                                   Model._serials := ["/dev/cu.usbserial"];
                                   Model._fd := None |}) by reflexivity.
  destruct (built_model _ _ _ _ H) as (H1 & _ & _ & _ & _ & _ & H7).
  split; [exact H7|].
  destruct H1 as [H1 | H1]; [discriminate H1 | exact H1].
Defined.
